(** * ESP RainMaker core: lifecycle handle, work queue and core task

    A shallow embedding of
    [components/esp_rainmaker/src/core/esp_rmaker_core.c].

    The C file keeps one process-wide pointer [esp_rmaker_priv_data] to a
    heap-allocated handle, a FreeRTOS queue of deferred work and one task
    function, [esp_rmaker_task].  Here

    - the globals, the allocations made by the file, the FreeRTOS task list
      and the calls made to collaborators are the fields of a [world];
    - every C function is a function from [world] to a result and a [world];
      a function that can store through a [NULL] pointer has an [outcome]:
      it returns, or it stops the program;
    - the answers of the collaborators (storage, Wi-Fi, MQTT, claiming, the
      allocator, FreeRTOS) are read from a [collaborators] record;
    - [esp_rmaker_task] blocks and loops, so it is a step function between
      program points ([task_pc]); other contexts run between its steps.

    Return codes keep their C values ([esp_err_t] is an [int]). *)

From Stdlib Require Import String Ascii List ZArith Bool Arith Lia.
Import ListNotations.
Open Scope Z_scope.

(** ** Return codes (esp_err.h, FreeRTOS projdefs.h) *)

Definition esp_err_t := Z.
Definition ESP_OK : esp_err_t := 0.
Definition ESP_FAIL : esp_err_t := -1.
Definition ESP_ERR_NO_MEM : esp_err_t := 257.        (* 0x101 *)
Definition ESP_ERR_INVALID_ARG : esp_err_t := 258.   (* 0x102 *)
Definition ESP_ERR_INVALID_STATE : esp_err_t := 259. (* 0x103 *)

Definition BaseType_t := Z.
Definition pdTRUE : BaseType_t := 1.
Definition pdFALSE : BaseType_t := 0.
Definition pdPASS : BaseType_t := 1.
Definition errQUEUE_FULL : BaseType_t := 0.
Definition errQUEUE_EMPTY : BaseType_t := 0.

(** ** Constants of the file *)

Definition ESP_RMAKER_TASK_QUEUE_SIZE : nat := 8.
Definition ESP_CLAIM_NODE_ID_SIZE : nat := 12.

(** ** Data *)

Inductive esp_rmaker_state_t :=
| ESP_RMAKER_STATE_DEINIT
| ESP_RMAKER_STATE_INIT_DONE
| ESP_RMAKER_STATE_STARTING
| ESP_RMAKER_STATE_STARTED
| ESP_RMAKER_STATE_STOP_REQUESTED.

Definition state_eqb (a b : esp_rmaker_state_t) : bool :=
  match a, b with
  | ESP_RMAKER_STATE_DEINIT, ESP_RMAKER_STATE_DEINIT
  | ESP_RMAKER_STATE_INIT_DONE, ESP_RMAKER_STATE_INIT_DONE
  | ESP_RMAKER_STATE_STARTING, ESP_RMAKER_STATE_STARTING
  | ESP_RMAKER_STATE_STARTED, ESP_RMAKER_STATE_STARTED
  | ESP_RMAKER_STATE_STOP_REQUESTED, ESP_RMAKER_STATE_STOP_REQUESTED => true
  | _, _ => false
  end.

(** Pointers to objects whose layout belongs to other components (nodes,
    MQTT configurations, payloads) are addresses; [None] is [NULL]. *)
Definition addr := nat.
Definition ptr := option addr.

(** [esp_rmaker_work_fn_t]: the one work function this file defines, or a
    function of the application at some address. *)
Inductive esp_rmaker_work_fn_t :=
| WORK_report_node_config_and_state
| WORK_app (f : addr).

Record esp_rmaker_work_queue_entry_t := {
  work_fn : esp_rmaker_work_fn_t;
  priv_data : ptr
}.

(** A FreeRTOS queue: its fixed length and the items waiting, oldest first. *)
Record Queue_t := {
  uxLength : nat;
  uxItems : list esp_rmaker_work_queue_entry_t
}.

Definition xQueueCreate (uxQueueLength : nat) : Queue_t :=
  {| uxLength := uxQueueLength; uxItems := [] |}.

(** [xQueueSend] with [xTicksToWait = 0]: a full queue refuses at once. *)
Definition xQueueSend (q : Queue_t) (e : esp_rmaker_work_queue_entry_t)
  : BaseType_t * Queue_t :=
  if (length (uxItems q) <? uxLength q)%nat
  then (pdTRUE, {| uxLength := uxLength q; uxItems := uxItems q ++ [e] |})
  else (errQUEUE_FULL, q).

(** [xQueueReceive] with [xTicksToWait = 0]: an empty queue answers at once. *)
Definition xQueueReceive (q : Queue_t)
  : BaseType_t * option esp_rmaker_work_queue_entry_t * Queue_t :=
  match uxItems q with
  | [] => (errQUEUE_EMPTY, None, q)
  | e :: rest => (pdTRUE, Some e, {| uxLength := uxLength q; uxItems := rest |})
  end.

(** The only field of [esp_rmaker_config_t] the file reads. *)
Record esp_rmaker_config_t := { cfg_enable_time_sync : bool }.

(** [esp_rmaker_priv_data_t].  [self_claim] exists only under
    [CONFIG_ESP_RMAKER_SELF_CLAIM]; without it the field stays [false] and is
    never read. *)
Record esp_rmaker_priv_data_t := {
  node_id : option string;
  node : ptr;
  enable_time_sync : bool;
  state : esp_rmaker_state_t;
  mqtt_connected : bool;
  mqtt_config : ptr;
  self_claim : bool;
  work_queue : option Queue_t
}.

(** What [calloc] returns. *)
Definition zeroed_priv_data : esp_rmaker_priv_data_t :=
  {| node_id := None; node := None; enable_time_sync := false;
     state := ESP_RMAKER_STATE_DEINIT; mqtt_connected := false;
     mqtt_config := None; self_claim := false; work_queue := None |}.

Definition set_node_id v h :=
  {| node_id := v; node := node h; enable_time_sync := enable_time_sync h;
     state := state h; mqtt_connected := mqtt_connected h;
     mqtt_config := mqtt_config h; self_claim := self_claim h;
     work_queue := work_queue h |}.
Definition set_node v h :=
  {| node_id := node_id h; node := v; enable_time_sync := enable_time_sync h;
     state := state h; mqtt_connected := mqtt_connected h;
     mqtt_config := mqtt_config h; self_claim := self_claim h;
     work_queue := work_queue h |}.
Definition set_enable_time_sync v h :=
  {| node_id := node_id h; node := node h; enable_time_sync := v;
     state := state h; mqtt_connected := mqtt_connected h;
     mqtt_config := mqtt_config h; self_claim := self_claim h;
     work_queue := work_queue h |}.
Definition set_state v h :=
  {| node_id := node_id h; node := node h; enable_time_sync := enable_time_sync h;
     state := v; mqtt_connected := mqtt_connected h;
     mqtt_config := mqtt_config h; self_claim := self_claim h;
     work_queue := work_queue h |}.
Definition set_mqtt_connected v h :=
  {| node_id := node_id h; node := node h; enable_time_sync := enable_time_sync h;
     state := state h; mqtt_connected := v;
     mqtt_config := mqtt_config h; self_claim := self_claim h;
     work_queue := work_queue h |}.
Definition set_mqtt_config v h :=
  {| node_id := node_id h; node := node h; enable_time_sync := enable_time_sync h;
     state := state h; mqtt_connected := mqtt_connected h;
     mqtt_config := v; self_claim := self_claim h;
     work_queue := work_queue h |}.
Definition set_self_claim v h :=
  {| node_id := node_id h; node := node h; enable_time_sync := enable_time_sync h;
     state := state h; mqtt_connected := mqtt_connected h;
     mqtt_config := mqtt_config h; self_claim := v;
     work_queue := work_queue h |}.
Definition set_work_queue v h :=
  {| node_id := node_id h; node := node h; enable_time_sync := enable_time_sync h;
     state := state h; mqtt_connected := mqtt_connected h;
     mqtt_config := mqtt_config h; self_claim := self_claim h;
     work_queue := v |}.

(** ** Allocations

    The blocks the file allocates or frees, kept as the list of blocks that
    are live.  [free] of a block that is not live leaves the list alone. *)
Inductive block :=
| Blk_priv_data
| Blk_node_id
| Blk_work_queue
| Blk_mqtt_config (c : addr)
| Blk_node (n : addr).

Definition block_eqb (a b : block) : bool :=
  match a, b with
  | Blk_priv_data, Blk_priv_data => true
  | Blk_node_id, Blk_node_id => true
  | Blk_work_queue, Blk_work_queue => true
  | Blk_mqtt_config c, Blk_mqtt_config d => Nat.eqb c d
  | Blk_node n, Blk_node m => Nat.eqb n m
  | _, _ => false
  end.

Fixpoint release (b : block) (l : list block) : list block :=
  match l with
  | [] => []
  | x :: r => if block_eqb b x then r else x :: release b r
  end.

Fixpoint live (b : block) (l : list block) : nat :=
  match l with
  | [] => 0%nat
  | x :: r => if block_eqb b x then S (live b r) else live b r
  end.

(** ** Calls that reach a collaborator, in the order they were made *)

Inductive esp_rmaker_event_t :=
| RMAKER_EVENT_INIT_DONE
| RMAKER_EVENT_CLAIM_STARTED
| RMAKER_EVENT_CLAIM_SUCCESSFUL
| RMAKER_EVENT_CLAIM_FAILED.

Inductive effect :=
| Storage_init
| Self_claim_init
| Self_claim_perform
| Mqtt_init (c : addr)
| Mqtt_connect
| Mqtt_disconnect
| Clean_mqtt_config (c : addr)
| Time_sync_init
| Time_wait_for_sync
| Report_node_config
| Report_node_state
| Register_for_set_params
| Post_event (e : esp_rmaker_event_t)
| Invoke (e : esp_rmaker_work_queue_entry_t).

(** ** The core task's program points

    Each constructor is a place where [esp_rmaker_task] can be found between
    two steps; the comments give the source lines a step from there runs. *)
Inductive task_pc :=
| TASK_ENTRY                       (* 295-301: created, not yet run *)
| TASK_WAIT_WIFI (g : nat)         (* 301: inside xEventGroupWaitBits *)
| TASK_TIME_SYNC                   (* 303-307 *)
| TASK_SELF_CLAIM                  (* 308-329 *)
| TASK_MQTT_CONNECT                (* 330-336 *)
| TASK_REPORT                      (* 337-344 *)
| TASK_LOOP                        (* 345-346, 284-286 *)
| TASK_WQ_INVOKE (e : esp_rmaker_work_queue_entry_t) (* 288-289 *)
| TASK_DELAY                       (* 348 *)
| TASK_END                         (* 350-354: rmaker_end *)
| TASK_DELETED                     (* after vTaskDelete(NULL) *)
| TASK_RETURNED                    (* ESP_RMAKER_CHECK_HANDLE() returned *)
| TASK_ABORTED.                    (* ESP_ERROR_CHECK failed, NULL was dereferenced
                                      or a work function did not return *)

(** ** The world *)

Record world := {
  esp_rmaker_priv_data : option esp_rmaker_priv_data_t;
  wifi_event_group : option nat;     (* index into [event_groups] *)
  event_groups : list bool;          (* WIFI_CONNECTED_EVENT (BIT0) of each group *)
  handler_registered : bool;         (* esp_rmaker_event_handler on IP_EVENT_STA_GOT_IP *)
  heap : list block;
  tasks : list task_pc;
  trace : list effect
}.

Definition boot : world :=
  {| esp_rmaker_priv_data := None; wifi_event_group := None;
     event_groups := []; handler_registered := false;
     heap := []; tasks := []; trace := [] |}.

Definition set_priv v w :=
  {| esp_rmaker_priv_data := v; wifi_event_group := wifi_event_group w;
     event_groups := event_groups w; handler_registered := handler_registered w;
     heap := heap w; tasks := tasks w; trace := trace w |}.
Definition set_wifi_event_group v w :=
  {| esp_rmaker_priv_data := esp_rmaker_priv_data w; wifi_event_group := v;
     event_groups := event_groups w; handler_registered := handler_registered w;
     heap := heap w; tasks := tasks w; trace := trace w |}.
Definition set_event_groups v w :=
  {| esp_rmaker_priv_data := esp_rmaker_priv_data w;
     wifi_event_group := wifi_event_group w;
     event_groups := v; handler_registered := handler_registered w;
     heap := heap w; tasks := tasks w; trace := trace w |}.
Definition set_handler_registered v w :=
  {| esp_rmaker_priv_data := esp_rmaker_priv_data w;
     wifi_event_group := wifi_event_group w;
     event_groups := event_groups w; handler_registered := v;
     heap := heap w; tasks := tasks w; trace := trace w |}.
Definition set_heap v w :=
  {| esp_rmaker_priv_data := esp_rmaker_priv_data w;
     wifi_event_group := wifi_event_group w;
     event_groups := event_groups w; handler_registered := handler_registered w;
     heap := v; tasks := tasks w; trace := trace w |}.
Definition set_tasks v w :=
  {| esp_rmaker_priv_data := esp_rmaker_priv_data w;
     wifi_event_group := wifi_event_group w;
     event_groups := event_groups w; handler_registered := handler_registered w;
     heap := heap w; tasks := v; trace := trace w |}.
Definition set_trace v w :=
  {| esp_rmaker_priv_data := esp_rmaker_priv_data w;
     wifi_event_group := wifi_event_group w;
     event_groups := event_groups w; handler_registered := handler_registered w;
     heap := heap w; tasks := tasks w; trace := v |}.

Definition alloc (b : block) (w : world) : world := set_heap (b :: heap w) w.
Definition free (b : block) (w : world) : world := set_heap (release b (heap w)) w.
Definition emit (e : effect) (w : world) : world := set_trace (trace w ++ [e]) w.

(** ** How a call ends

    A call returns a value and leaves a world, or it does not return: a
    store through a [NULL] pointer stops the program, and the world kept is
    the one of that instant. *)
Inductive outcome (A : Type) : Type :=
| Returns (a : A) (w : world)
| Faults (w : world).

Arguments Returns {A} a w.
Arguments Faults {A} w.

Definition returned {A} (o : outcome A) : option A :=
  match o with
  | Returns a _ => Some a
  | Faults _ => None
  end.

Definition world_of {A} (o : outcome A) : world :=
  match o with
  | Returns _ w => w
  | Faults w => w
  end.

(** The outcome of a call whose value the caller drops. *)
Definition dropped {A} (o : outcome A) : outcome unit :=
  match o with
  | Returns _ w => Returns tt w
  | Faults w => Faults w
  end.

(** The state of the handle, when there is one. *)
Definition state_of (w : world) : option esp_rmaker_state_t :=
  option_map state (esp_rmaker_priv_data w).

(** ** Collaborators

    What the code outside this file answers when it is called.  One record
    is consulted per call of a public function or per step of the task. *)
Record collaborators := {
  storage_init_r : esp_err_t;            (* esp_rmaker_storage_init() *)
  storage_get_node_id : option string;   (* esp_rmaker_storage_get("node_id") *)
  wifi_get_mac_r : esp_err_t;            (* esp_wifi_get_mac(WIFI_IF_STA, eth_mac) *)
  eth_mac : list Z;                      (* the six bytes it fills in *)
  calloc_node_id_ok : bool;              (* calloc(1, ESP_CLAIM_NODE_ID_SIZE + 1) *)
  calloc_priv_data_ok : bool;            (* calloc(1, sizeof(esp_rmaker_priv_data_t)) *)
  xQueueCreate_ok : bool;
  get_mqtt_config_r : ptr;               (* esp_rmaker_get_mqtt_config() *)
  self_claim_init_r : esp_err_t;
  self_claim_perform_r : esp_err_t;
  mqtt_init_r : esp_err_t;
  mqtt_connect_r : esp_err_t;
  node_create_r : ptr;                   (* esp_rmaker_node_create(name, type) *)
  xTaskCreate_r : BaseType_t;
  event_handler_register_r : esp_err_t;
  time_synced : bool;                    (* esp_rmaker_time_wait_for_sync returns now *)
  report_node_config_r : esp_err_t;
  report_node_state_r : esp_err_t;
  register_for_set_params_r : esp_err_t
}.

(** Build options of sdkconfig.h that the file tests with [#ifdef]. *)
Record sdkconfig := {
  CONFIG_ESP_RMAKER_SELF_CLAIM : bool;
  CONFIG_MBEDTLS_HAVE_TIME_DATE : bool
}.

(** Events handed to [esp_rmaker_event_handler]. *)
Inductive esp_event_base_t := IP_EVENT | WIFI_EVENT | OTHER_EVENT (n : nat).
Definition IP_EVENT_STA_GOT_IP : Z := 0.

Definition is_IP_EVENT (b : esp_event_base_t) : bool :=
  match b with IP_EVENT => true | _ => false end.

(** The calls an application can make into this file.  [Call_init] and
    [Call_register_node] are the two static halves of
    [esp_rmaker_node_init]. *)
Inductive api_call :=
| Call_init (config : option esp_rmaker_config_t)
| Call_register_node (n : ptr)
| Call_node_init (config : option esp_rmaker_config_t) (name type : string)
| Call_node_deinit (n : ptr)
| Call_get_node_id
| Call_get_node
| Call_report_node_details
| Call_queue_work (f : esp_rmaker_work_fn_t) (p : ptr)
| Call_start
| Call_stop.

(** ** "%02X%02X%02X%02X%02X%02X" *)

Definition hex_digit (d : Z) : ascii :=
  if d <? 10 then ascii_of_nat (48 + Z.to_nat d)
  else ascii_of_nat (55 + Z.to_nat d).

Definition hex02X (b : Z) : string :=
  String (hex_digit ((b mod 256) / 16)) (String (hex_digit (b mod 16)) EmptyString).

Definition format_mac (mac : list Z) : string :=
  (hex02X (nth 0 mac 0) ++ hex02X (nth 1 mac 0) ++ hex02X (nth 2 mac 0) ++
   hex02X (nth 3 mac 0) ++ hex02X (nth 4 mac 0) ++ hex02X (nth 5 mac 0))%string.

(** ** Small helpers on the world *)

Definition neq_ok (r : Z) : bool := negb (r =? ESP_OK).

(** Write through [esp_rmaker_priv_data] where the code has already checked
    that it is not [NULL]. *)
Definition upd_priv (f : esp_rmaker_priv_data_t -> esp_rmaker_priv_data_t)
  (w : world) : world :=
  match esp_rmaker_priv_data w with
  | Some h => set_priv (Some (f h)) w
  | None => w
  end.

Fixpoint replace_nth {A} (n : nat) (x : A) (l : list A) : list A :=
  match l, n with
  | [], _ => []
  | _ :: r, O => x :: r
  | y :: r, S m => y :: replace_nth m x r
  end.

(** [xEventGroupCreate]: a fresh group with no bit set. *)
Definition xEventGroupCreate (w : world) : nat * world :=
  (length (event_groups w), set_event_groups (event_groups w ++ [false]) w).

(** [xEventGroupSetBits (g, WIFI_CONNECTED_EVENT)]. *)
Definition xEventGroupSetBits (g : nat) (w : world) : world :=
  set_event_groups (replace_nth g true (event_groups w)) w.

(** Modelled from the spec: [esp_rmaker_node_delete] belongs to the node
    component, which is not part of this file; deinitialisation "releases
    the Node", so deleting a node frees its block and [NULL] is ignored. *)
Definition esp_rmaker_node_delete (n : ptr) (w : world) : world :=
  match n with
  | Some a => free (Blk_node a) w
  | None => w
  end.

(** [esp_rmaker_node_create (name, type)]: the node component answers with a
    fresh node or [NULL]. *)
Definition esp_rmaker_node_create (env : collaborators) (name type : string)
  (w : world) : ptr * world :=
  match node_create_r env with
  | Some a => (Some a, alloc (Blk_node a) w)
  | None => (None, w)
  end.

(** [esp_rmaker_get_mqtt_config ()]: a freshly allocated configuration, or
    [NULL] when the device holds no credentials. *)
Definition esp_rmaker_get_mqtt_config (env : collaborators) (w : world)
  : ptr * world :=
  match get_mqtt_config_r env with
  | Some c => (Some c, alloc (Blk_mqtt_config c) w)
  | None => (None, w)
  end.

Section Core.

(** The build options, and the code of the application's work functions: what
    calls into this file the function at address [f] makes when it is run
    with payload [p]. *)
Variable sdk : sdkconfig.
Variable app_work : addr -> ptr -> list (collaborators * api_call).

(** ** The functions of esp_rmaker_core.c *)

(** Lines 79-96.  The node id read from storage, or, when self claiming is
    built in, the station MAC address in hexadecimal.  The result of the
    [calloc] of line 90 is not tested: when it is [NULL], [snprintf] is
    handed [NULL] as the buffer to fill with thirteen bytes, and the
    function does not return. *)
Definition esp_rmaker_populate_node_id (env : collaborators) (w : world)
  : outcome (option string) :=
  match storage_get_node_id env with
  | Some s => Returns (Some s) (alloc Blk_node_id w)
  | None =>
      if CONFIG_ESP_RMAKER_SELF_CLAIM sdk then
        if neq_ok (wifi_get_mac_r env) then Returns None w
        else if calloc_node_id_ok env
             then Returns (Some (format_mac (eth_mac env))) (alloc Blk_node_id w)
             else Faults w
      else Returns None w
  end.

(** Lines 100-107.  The handler is registered after the event group is
    created (lines 298-299), so the group exists whenever it runs. *)
Definition esp_rmaker_event_handler (event_base : esp_event_base_t)
  (event_id : Z) (w : world) : world :=
  if is_IP_EVENT event_base && (event_id =? IP_EVENT_STA_GOT_IP) then
    match wifi_event_group w with
    | Some g => xEventGroupSetBits g w
    | None => w
    end
  else w.

(** Lines 109-126.  The argument is the handle the pointer leads to. *)
Definition esp_rmaker_deinit_priv_data
  (rmaker_priv_data : option esp_rmaker_priv_data_t) (w : world)
  : esp_err_t * world :=
  match rmaker_priv_data with
  | None => (ESP_ERR_INVALID_ARG, w)
  | Some h =>
      let w := match work_queue h with
               | Some _ => free Blk_work_queue w
               | None => w
               end in
      let w := match mqtt_config h with
               | Some c => free (Blk_mqtt_config c) (emit (Clean_mqtt_config c) w)
               | None => w
               end in
      let w := match node_id h with
               | Some _ => free Blk_node_id w
               | None => w
               end in
      (ESP_OK, free Blk_priv_data w)
  end.

(** Lines 128-144. *)
Definition esp_rmaker_node_deinit (n : ptr) (w : world) : esp_err_t * world :=
  match esp_rmaker_priv_data w with
  | None => (ESP_ERR_INVALID_ARG, w)
  | Some h =>
      if negb (state_eqb (state h) ESP_RMAKER_STATE_INIT_DONE)
      then (ESP_ERR_INVALID_STATE, w)
      else
        let w := esp_rmaker_node_delete n w in
        let w := upd_priv (set_node None) w in
        let w := snd (esp_rmaker_deinit_priv_data (esp_rmaker_priv_data w) w) in
        (ESP_OK, set_priv None w)
  end.

(** Lines 146-152. *)
Definition esp_rmaker_get_node_id (w : world) : option string :=
  match esp_rmaker_priv_data w with
  | Some h => node_id h
  | None => None
  end.

(** The three lines every failure of [esp_rmaker_init] after the allocation
    repeats: release the handle, clear the pointer, return the code. *)
Definition init_abort (err : esp_err_t) (w : world) : outcome esp_err_t :=
  let w := snd (esp_rmaker_deinit_priv_data (esp_rmaker_priv_data w) w) in
  Returns err (set_priv None w).

(** Lines 154-217.  The call of line 174 is made with the pointer already
    set to the zeroed handle; when it does not return, neither does this
    function. *)
Definition esp_rmaker_init (env : collaborators)
  (config : option esp_rmaker_config_t) (w : world) : outcome esp_err_t :=
  match esp_rmaker_priv_data w with
  | Some _ => Returns ESP_ERR_INVALID_STATE w
  | None =>
  match config with
  | None => Returns ESP_ERR_INVALID_ARG w
  | Some cfg =>
  let w := emit Storage_init w in
  if neq_ok (storage_init_r env) then Returns ESP_FAIL w else
  if negb (calloc_priv_data_ok env) then Returns ESP_ERR_NO_MEM w else
  let w := set_priv (Some zeroed_priv_data) (alloc Blk_priv_data w) in
  match esp_rmaker_populate_node_id env w with
  | Faults w => Faults w
  | Returns nid w =>
  let w := upd_priv (set_node_id nid) w in
  match nid with
  | None => init_abort ESP_ERR_NO_MEM w
  | Some _ =>
  let q := if xQueueCreate_ok env
           then Some (xQueueCreate ESP_RMAKER_TASK_QUEUE_SIZE) else None in
  let w := match q with Some _ => alloc Blk_work_queue w | None => w end in
  let w := upd_priv (set_work_queue q) w in
  match q with
  | None => init_abort ESP_ERR_NO_MEM w
  | Some _ =>
  let '(mc, w) := esp_rmaker_get_mqtt_config env w in
  let w := upd_priv (set_mqtt_config mc) w in
  let finish (w : world) :=
    let w := upd_priv (set_enable_time_sync (cfg_enable_time_sync cfg)) w in
    let w := emit (Post_event RMAKER_EVENT_INIT_DONE) w in
    Returns ESP_OK (upd_priv (set_state ESP_RMAKER_STATE_INIT_DONE) w) in
  match mc with
  | None =>
      if CONFIG_ESP_RMAKER_SELF_CLAIM sdk then
        let w := upd_priv (set_self_claim true) w in
        let w := emit Self_claim_init w in
        if neq_ok (self_claim_init_r env) then init_abort ESP_FAIL w
        else finish w
      else init_abort ESP_FAIL w
  | Some c =>
      let w := emit (Mqtt_init c) w in
      if neq_ok (mqtt_init_r env) then init_abort ESP_FAIL w
      else finish w
  end end end end end end.

(** Lines 219-232. *)
Definition esp_rmaker_register_node (n : ptr) (w : world) : esp_err_t * world :=
  match esp_rmaker_priv_data w with
  | None => (ESP_ERR_INVALID_STATE, w)
  | Some h =>
      match node h with
      | Some _ => (ESP_ERR_INVALID_STATE, w)
      | None =>
          match n with
          | None => (ESP_ERR_INVALID_ARG, w)
          | Some a => (ESP_OK, set_priv (Some (set_node (Some a) h)) w)
          end
      end
  end.

(** Lines 234-251. *)
Definition esp_rmaker_node_init (env : collaborators)
  (config : option esp_rmaker_config_t) (name type : string) (w : world)
  : outcome ptr :=
  match esp_rmaker_init env config w with
  | Faults w => Faults w
  | Returns err w =>
  if neq_ok err then Returns None w else
  let '(n, w) := esp_rmaker_node_create env name type w in
  match n with
  | None => Returns None w
  | Some a =>
      let '(err, w) := esp_rmaker_register_node (Some a) w in
      if neq_ok err then Returns None (free (Blk_node a) w)
      else Returns (Some a) w
  end end.

(** Lines 253-257. *)
Definition esp_rmaker_get_node (w : world) : ptr :=
  match esp_rmaker_priv_data w with
  | None => None
  | Some h => node h
  end.

(** Lines 259-270. *)
Definition esp_rmaker_report_node_config_and_state (env : collaborators)
  (w : world) : esp_err_t * world :=
  let w := emit Report_node_config w in
  if neq_ok (report_node_config_r env) then (ESP_FAIL, w) else
  let w := emit Report_node_state w in
  if neq_ok (report_node_state_r env) then (ESP_FAIL, w) else
  (ESP_OK, w).

(** Lines 272-275. *)
Definition __esp_rmaker_report_node_config_and_state (env : collaborators)
  (data : ptr) (w : world) : world :=
  snd (esp_rmaker_report_node_config_and_state env w).

(** Lines 357-368.  The code passes the queue of the handle to
    [xQueueSend] untested.  A handle in use always has its queue (see
    [reachable_handle_has_queue]); on a [NULL] queue [xQueueSend] cannot
    answer [pdTRUE]. *)
Definition esp_rmaker_queue_work (f : esp_rmaker_work_fn_t) (p : ptr)
  (w : world) : esp_err_t * world :=
  match esp_rmaker_priv_data w with
  | None => (ESP_ERR_INVALID_STATE, w)
  | Some h =>
      let work_queue_entry := {| work_fn := f; priv_data := p |} in
      match work_queue h with
      | None => (ESP_FAIL, w)
      | Some q =>
          let '(ret, q') := xQueueSend q work_queue_entry in
          if ret =? pdTRUE
          then (ESP_OK, set_priv (Some (set_work_queue (Some q') h)) w)
          else (ESP_FAIL, w)
      end
  end.

(** Lines 277-280. *)
Definition esp_rmaker_report_node_details (w : world) : esp_err_t * world :=
  esp_rmaker_queue_work WORK_report_node_config_and_state None w.

(** Lines 371-384. *)
Definition esp_rmaker_start (env : collaborators) (w : world)
  : esp_err_t * world :=
  match esp_rmaker_priv_data w with
  | None => (ESP_ERR_INVALID_STATE, w)
  | Some h =>
      let w := if enable_time_sync h then emit Time_sync_init w else w in
      if negb (xTaskCreate_r env =? pdPASS) then (ESP_FAIL, w)
      else (ESP_OK, set_tasks (tasks w ++ [TASK_ENTRY]) w)
  end.

(** Lines 386-391. *)
Definition esp_rmaker_stop (w : world) : esp_err_t * world :=
  match esp_rmaker_priv_data w with
  | None => (ESP_ERR_INVALID_STATE, w)
  | Some h =>
      (ESP_OK, set_priv (Some (set_state ESP_RMAKER_STATE_STOP_REQUESTED h)) w)
  end.

(** ** Calls from an application context *)

Definition run_api (env : collaborators) (c : api_call) (w : world)
  : outcome unit :=
  match c with
  | Call_init config => dropped (esp_rmaker_init env config w)
  | Call_register_node n => Returns tt (snd (esp_rmaker_register_node n w))
  | Call_node_init config name type =>
      dropped (esp_rmaker_node_init env config name type w)
  | Call_node_deinit n => Returns tt (snd (esp_rmaker_node_deinit n w))
  | Call_get_node_id => Returns tt w
  | Call_get_node => Returns tt w
  | Call_report_node_details =>
      Returns tt (snd (esp_rmaker_report_node_details w))
  | Call_queue_work f p => Returns tt (snd (esp_rmaker_queue_work f p w))
  | Call_start => Returns tt (snd (esp_rmaker_start env w))
  | Call_stop => Returns tt (snd (esp_rmaker_stop w))
  end.

(** Calls made one after the other by one context: a call that does not
    return is the last. *)
Fixpoint run_apis (l : list (collaborators * api_call)) (w : world)
  : outcome unit :=
  match l with
  | [] => Returns tt w
  | (env, c) :: r =>
      match run_api env c w with
      | Returns _ w => run_apis r w
      | Faults w => Faults w
      end
  end.

(** [work_queue_entry.work_fn (work_queue_entry.priv_data)], line 288: the
    work function runs to its end in the context of the caller. *)
Definition invoke (env : collaborators) (e : esp_rmaker_work_queue_entry_t)
  (w : world) : outcome unit :=
  let w := emit (Invoke e) w in
  match work_fn e with
  | WORK_report_node_config_and_state =>
      Returns tt (__esp_rmaker_report_node_config_and_state env (priv_data e) w)
  | WORK_app f => run_apis (app_work f (priv_data e)) w
  end.

(** [xQueueReceive (esp_rmaker_priv_data->work_queue, &work_queue_entry, 0)]
    and the test of the [while] at line 287: the next item to run, or the
    return of [esp_rmaker_handle_work_queue] into [vTaskDelay].  The
    pointer is followed untested here (the check of line 284 is made once,
    on entry), so a [NULL] handle or queue ends the task. *)
Definition receive_work (w : world) : world * task_pc :=
  match esp_rmaker_priv_data w with
  | None => (w, TASK_ABORTED)
  | Some h =>
      match work_queue h with
      | None => (w, TASK_ABORTED)
      | Some q =>
          match xQueueReceive q with
          | (_, Some e, q') =>
              (set_priv (Some (set_work_queue (Some q') h)) w, TASK_WQ_INVOKE e)
          | (_, None, _) => (w, TASK_DELAY)
          end
      end
  end.

(** Lines 282-291, entered from the loop at line 346: the handle check and
    the first [xQueueReceive]. *)
Definition esp_rmaker_handle_work_queue (w : world) : world * task_pc :=
  match esp_rmaker_priv_data w with
  | None => (w, TASK_DELAY)
  | Some _ => receive_work w
  end.

(** Lines 293-355, one step from each program point. *)
Definition esp_rmaker_task (env : collaborators) (pc : task_pc) (w : world)
  : world * task_pc :=
  match pc with
  | TASK_ENTRY =>
      match esp_rmaker_priv_data w with
      | None => (w, TASK_RETURNED)
      | Some h =>
          let w := set_priv (Some (set_state ESP_RMAKER_STATE_STARTING h)) w in
          let '(g, w) := xEventGroupCreate w in
          let w := set_wifi_event_group (Some g) w in
          if neq_ok (event_handler_register_r env) then (w, TASK_ABORTED)
          else (set_handler_registered true w, TASK_WAIT_WIFI g)
      end
  | TASK_WAIT_WIFI g =>
      if nth g (event_groups w) false then (w, TASK_TIME_SYNC)
      else (w, TASK_WAIT_WIFI g)
  | TASK_TIME_SYNC =>
      match esp_rmaker_priv_data w with
      | None => (w, TASK_ABORTED)
      | Some h =>
          if enable_time_sync h && CONFIG_MBEDTLS_HAVE_TIME_DATE sdk then
            if time_synced env then (emit Time_wait_for_sync w, TASK_SELF_CLAIM)
            else (w, TASK_TIME_SYNC)
          else (w, TASK_SELF_CLAIM)
      end
  | TASK_SELF_CLAIM =>
      match esp_rmaker_priv_data w with
      | None => (w, TASK_ABORTED)
      | Some h =>
          if CONFIG_ESP_RMAKER_SELF_CLAIM sdk && self_claim h then
            let w := emit (Post_event RMAKER_EVENT_CLAIM_STARTED) w in
            let w := emit Self_claim_perform w in
            if neq_ok (self_claim_perform_r env)
            then (emit (Post_event RMAKER_EVENT_CLAIM_FAILED) w, TASK_DELETED)
            else
              let w := emit (Post_event RMAKER_EVENT_CLAIM_SUCCESSFUL) w in
              let '(mc, w) := esp_rmaker_get_mqtt_config env w in
              let w := upd_priv (set_mqtt_config mc) w in
              match mc with
              | None => (w, TASK_DELETED)
              | Some c =>
                  let w := emit (Mqtt_init c) w in
                  if neq_ok (mqtt_init_r env) then (w, TASK_DELETED)
                  else (w, TASK_MQTT_CONNECT)
              end
          else (w, TASK_MQTT_CONNECT)
      end
  | TASK_MQTT_CONNECT =>
      let w := emit Mqtt_connect w in
      if neq_ok (mqtt_connect_r env) then (w, TASK_DELETED)
      else
        match esp_rmaker_priv_data w with
        | None => (w, TASK_ABORTED)
        | Some h =>
            let h := set_mqtt_connected true h in
            let h := set_state ESP_RMAKER_STATE_STARTED h in
            (set_priv (Some h) w, TASK_REPORT)
        end
  | TASK_REPORT =>
      let '(err, w) := esp_rmaker_report_node_config_and_state env w in
      if neq_ok err then (w, TASK_END)
      else
        let w := emit Register_for_set_params w in
        if neq_ok (register_for_set_params_r env) then (w, TASK_END)
        else (w, TASK_LOOP)
  | TASK_LOOP =>
      match esp_rmaker_priv_data w with
      | None => (w, TASK_ABORTED)
      | Some h =>
          if negb (state_eqb (state h) ESP_RMAKER_STATE_STOP_REQUESTED)
          then esp_rmaker_handle_work_queue w
          else (w, TASK_END)
      end
  | TASK_WQ_INVOKE e =>
      match invoke env e w with
      | Returns _ w => receive_work w
      | Faults w => (w, TASK_ABORTED)
      end
  | TASK_DELAY => (w, TASK_LOOP)
  | TASK_END =>
      let w := emit Mqtt_disconnect w in
      match esp_rmaker_priv_data w with
      | None => (w, TASK_ABORTED)
      | Some h =>
          let h := set_mqtt_connected false h in
          let h := set_state ESP_RMAKER_STATE_INIT_DONE h in
          (set_priv (Some h) w, TASK_DELETED)
      end
  | TASK_DELETED => (w, TASK_DELETED)
  | TASK_RETURNED => (w, TASK_RETURNED)
  | TASK_ABORTED => (w, TASK_ABORTED)
  end.

(** ** The whole system: application calls, network events, task steps *)

Inductive sys_op :=
| Sys_api (c : api_call)
| Sys_event (event_base : esp_event_base_t) (event_id : Z)
| Sys_task (tid : nat).

(** The event loop calls the handler once it has been registered. *)
Definition deliver_event (event_base : esp_event_base_t) (event_id : Z)
  (w : world) : world :=
  if handler_registered w then esp_rmaker_event_handler event_base event_id w
  else w.

(** The step from [pc] runs a work function that does not return. *)
Definition work_faults (env : collaborators) (pc : task_pc) (w : world) : bool :=
  match pc with
  | TASK_WQ_INVOKE e =>
      match invoke env e w with
      | Returns _ _ => false
      | Faults _ => true
      end
  | _ => false
  end.

(** Task [tid] takes one step. *)
Definition task_step (env : collaborators) (tid : nat) (w : world)
  : outcome unit :=
  match nth_error (tasks w) tid with
  | None => Returns tt w
  | Some pc =>
      let '(w', pc') := esp_rmaker_task env pc w in
      let w' := set_tasks (replace_nth tid pc' (tasks w')) w' in
      if work_faults env pc w then Faults w' else Returns tt w'
  end.

Definition sys_step (env : collaborators) (o : sys_op) (w : world)
  : outcome unit :=
  match o with
  | Sys_api c => run_api env c w
  | Sys_event b i => Returns tt (deliver_event b i w)
  | Sys_task tid => task_step env tid w
  end.

(** The world between operations: the one the last operation that returned
    has left.  An operation that does not return has stopped the program,
    and none of those listed after it is made. *)
Fixpoint run (l : list (collaborators * sys_op)) (w : world) : world :=
  match l with
  | [] => w
  | (env, o) :: r =>
      match sys_step env o w with
      | Returns _ w' => run r w'
      | Faults _ => w
      end
  end.

(** The core task running alone: one step per collaborator record. *)
Fixpoint task_steps (envs : list collaborators) (pc : task_pc) (w : world)
  : world * task_pc :=
  match envs with
  | [] => (w, pc)
  | env :: r =>
      let '(w', pc') := esp_rmaker_task env pc w in
      task_steps r pc' w'
  end.

End Core.

(** ** Derived notions used in the statements *)

(** The handle accounting: the number of live handle blocks is one when the
    process-wide pointer is set and zero when it is [NULL]. *)
Definition one_handle (w : world) : Prop :=
  live Blk_priv_data (heap w) =
  match esp_rmaker_priv_data w with Some _ => 1%nat | None => 0%nat end.

(** A handle the process-wide pointer leads to has its work queue. *)
Definition has_queue (w : world) : Prop :=
  match esp_rmaker_priv_data w with
  | Some h => work_queue h <> None
  | None => True
  end.

(** What [esp_rmaker_init] leaves in a handle it returns [ESP_OK] for. *)
Definition init_done_handle (cfg : esp_rmaker_config_t)
  (h : esp_rmaker_priv_data_t) : Prop :=
  state h = ESP_RMAKER_STATE_INIT_DONE /\ node h = None /\
  mqtt_connected h = false /\
  work_queue h = Some (xQueueCreate ESP_RMAKER_TASK_QUEUE_SIZE) /\
  node_id h <> None /\ enable_time_sync h = cfg_enable_time_sync cfg.

(** The blocks a handle owns, in the order [esp_rmaker_deinit_priv_data]
    frees them. *)
Definition release_owned (h : esp_rmaker_priv_data_t) (l : list block)
  : list block :=
  let l := match work_queue h with Some _ => release Blk_work_queue l | None => l end in
  let l := match mqtt_config h with Some c => release (Blk_mqtt_config c) l | None => l end in
  let l := match node_id h with Some _ => release Blk_node_id l | None => l end in
  release Blk_priv_data l.

(** The work functions the core task has called, oldest first. *)
Fixpoint invoked (t : list effect) : list esp_rmaker_work_queue_entry_t :=
  match t with
  | [] => []
  | Invoke e :: r => e :: invoked r
  | _ :: r => invoked r
  end.

(** The lifecycle events posted, oldest first. *)
Fixpoint posted (t : list effect) : list esp_rmaker_event_t :=
  match t with
  | [] => []
  | Post_event e :: r => e :: posted r
  | _ :: r => posted r
  end.

(** The items waiting in the work queue of the handle. *)
Definition queued (w : world) : list esp_rmaker_work_queue_entry_t :=
  match esp_rmaker_priv_data w with
  | Some h => match work_queue h with Some q => uxItems q | None => [] end
  | None => []
  end.

(** [esp_rmaker_queue_work] called once per entry, in order. *)
Fixpoint queue_works (es : list esp_rmaker_work_queue_entry_t) (w : world)
  : list esp_err_t * world :=
  match es with
  | [] => ([], w)
  | e :: r =>
      let '(err, w1) := esp_rmaker_queue_work (work_fn e) (priv_data e) w in
      let '(errs, w2) := queue_works r w1 in
      (err :: errs, w2)
  end.

(** [esp_rmaker_register_node] called once per argument, in order. *)
Fixpoint register_nodes (ns : list ptr) (w : world) : list esp_err_t * world :=
  match ns with
  | [] => ([], w)
  | n :: r =>
      let '(err, w1) := esp_rmaker_register_node n w in
      let '(errs, w2) := register_nodes r w1 in
      (err :: errs, w2)
  end.

(** The program points of the dispatch loop, lines 345-349. *)
Definition in_dispatch_loop (pc : task_pc) : bool :=
  match pc with
  | TASK_LOOP | TASK_WQ_INVOKE _ | TASK_DELAY => true
  | _ => false
  end.


(** The program point the core task alone is at after taking one step in
    each of the given worlds, whatever other contexts did in between. *)
Fixpoint task_path (sdk : sdkconfig)
  (app_work : addr -> ptr -> list (collaborators * api_call))
  (pc : task_pc) (l : list (collaborators * world)) : task_pc :=
  match l with
  | [] => pc
  | (env, w) :: r =>
      task_path sdk app_work (snd (esp_rmaker_task sdk app_work env pc w)) r
  end.

(** An [api_call] other than [esp_rmaker_node_deinit]. *)
Definition not_deinit (c : collaborators * api_call) : Prop :=
  match snd c with Call_node_deinit _ => False | _ => True end.

(** A work function that, when run, leaves the handle in place and its
    work queue as it is: it may stop the agent or register a node, but it
    neither queues work nor de-initialises. *)
Definition leaves_queue (sdk : sdkconfig)
  (app_work : addr -> ptr -> list (collaborators * api_call))
  (e : esp_rmaker_work_queue_entry_t) : Prop :=
  forall env w h,
    esp_rmaker_priv_data w = Some h ->
    exists w' h',
      invoke sdk app_work env e w = Returns tt w' /\
      esp_rmaker_priv_data w' = Some h' /\
      work_queue h' = work_queue h.

(** A work function that makes no call into this file: the report function
    of the file itself, or a function of the application that makes none. *)
Definition makes_no_call
  (app_work : addr -> ptr -> list (collaborators * api_call))
  (e : esp_rmaker_work_queue_entry_t) : Prop :=
  match work_fn e with
  | WORK_report_node_config_and_state => True
  | WORK_app f => app_work f (priv_data e) = []
  end.

(** The calls [esp_rmaker_report_node_config_and_state] makes: the
    configuration report, and the state report when the first went well. *)
Definition report_trace (env : collaborators) : list effect :=
  Report_node_config ::
  (if neq_ok (report_node_config_r env) then [] else [Report_node_state]).

(** What the invocation of such a work function leaves in the trace: the
    call itself, and the calls the function makes to collaborators before
    it returns. *)
Definition invocation_trace (x : collaborators * esp_rmaker_work_queue_entry_t)
  : list effect :=
  Invoke (snd x) ::
  match work_fn (snd x) with
  | WORK_report_node_config_and_state => report_trace (fst x)
  | WORK_app _ => []
  end.

(** ** Sample inputs *)

Definition sdk_plain : sdkconfig :=
  {| CONFIG_ESP_RMAKER_SELF_CLAIM := false; CONFIG_MBEDTLS_HAVE_TIME_DATE := true |}.

Definition sdk_self_claim : sdkconfig :=
  {| CONFIG_ESP_RMAKER_SELF_CLAIM := true; CONFIG_MBEDTLS_HAVE_TIME_DATE := true |}.

(** A claimed device on which every collaborator answers well. *)
Definition env_ok : collaborators :=
  {| storage_init_r := ESP_OK;
     storage_get_node_id := Some "node-0001"%string;
     wifi_get_mac_r := ESP_OK;
     eth_mac := [36; 10; 196; 1; 171; 239];
     calloc_node_id_ok := true;
     calloc_priv_data_ok := true;
     xQueueCreate_ok := true;
     get_mqtt_config_r := Some 7%nat;
     self_claim_init_r := ESP_OK;
     self_claim_perform_r := ESP_OK;
     mqtt_init_r := ESP_OK;
     mqtt_connect_r := ESP_OK;
     node_create_r := Some 3%nat;
     xTaskCreate_r := pdPASS;
     event_handler_register_r := ESP_OK;
     time_synced := true;
     report_node_config_r := ESP_OK;
     report_node_state_r := ESP_OK;
     register_for_set_params_r := ESP_OK |}.


(** A device that was never claimed: nothing in storage, no MQTT
    configuration. *)
Definition env_unclaimed : collaborators :=
  {| storage_init_r := ESP_OK;
     storage_get_node_id := None;
     wifi_get_mac_r := ESP_OK;
     eth_mac := [36; 10; 196; 1; 171; 239];
     calloc_node_id_ok := true;
     calloc_priv_data_ok := true;
     xQueueCreate_ok := true;
     get_mqtt_config_r := None;
     self_claim_init_r := ESP_OK;
     self_claim_perform_r := ESP_OK;
     mqtt_init_r := ESP_OK;
     mqtt_connect_r := ESP_OK;
     node_create_r := Some 3%nat;
     xTaskCreate_r := pdPASS;
     event_handler_register_r := ESP_OK;
     time_synced := true;
     report_node_config_r := ESP_OK;
     report_node_state_r := ESP_OK;
     register_for_set_params_r := ESP_OK |}.

(** A claimed device on which the node component cannot build a node. *)
Definition env_no_node : collaborators :=
  {| storage_init_r := ESP_OK;
     storage_get_node_id := Some "node-0001"%string;
     wifi_get_mac_r := ESP_OK;
     eth_mac := [36; 10; 196; 1; 171; 239];
     calloc_node_id_ok := true;
     calloc_priv_data_ok := true;
     xQueueCreate_ok := true;
     get_mqtt_config_r := Some 7%nat;
     self_claim_init_r := ESP_OK;
     self_claim_perform_r := ESP_OK;
     mqtt_init_r := ESP_OK;
     mqtt_connect_r := ESP_OK;
     node_create_r := None;
     xTaskCreate_r := pdPASS;
     event_handler_register_r := ESP_OK;
     time_synced := true;
     report_node_config_r := ESP_OK;
     report_node_state_r := ESP_OK;
     register_for_set_params_r := ESP_OK |}.

Definition cfg_sample : esp_rmaker_config_t := {| cfg_enable_time_sync := false |}.

(** An application whose work functions make no call into this file. *)
Definition app_quiet (f : addr) (p : ptr) : list (collaborators * api_call) := [].

(** An application whose work function at address 1 queues itself again. *)
Definition app_requeue (f : addr) (p : ptr) : list (collaborators * api_call) :=
  match f with
  | 1%nat => [(env_ok, Call_queue_work (WORK_app 1%nat) p)]
  | _ => []
  end.

(** The world after [esp_rmaker_node_init] on a claimed device. *)
Definition world_ready : world :=
  world_of (esp_rmaker_node_init sdk_plain env_ok (Some cfg_sample)
              "Switch"%string "esp.node.switch"%string boot).

Definition entry_a : esp_rmaker_work_queue_entry_t :=
  {| work_fn := WORK_app 10%nat; priv_data := Some 100%nat |}.
Definition entry_b : esp_rmaker_work_queue_entry_t :=
  {| work_fn := WORK_report_node_config_and_state; priv_data := None |}.
Definition entry_c : esp_rmaker_work_queue_entry_t :=
  {| work_fn := WORK_app 11%nat; priv_data := None |}.

(** The handle the process-wide pointer leads to. *)
Definition handle_of (w : world) : esp_rmaker_priv_data_t :=
  match esp_rmaker_priv_data w with
  | Some h => h
  | None => zeroed_priv_data
  end.

(** The world after [esp_rmaker_init] alone: a handle with no node yet. *)
Definition world_init : world :=
  world_of (esp_rmaker_init sdk_plain env_ok (Some cfg_sample) boot).

Definition task0 : collaborators * sys_op := (env_ok, Sys_task 0%nat).

(** [esp_rmaker_start], then the task up to the MQTT connect, with the
    address arriving while it waits for Wi-Fi. *)
Definition world_at_connect : world :=
  run sdk_plain app_quiet
    [(env_ok, Sys_api Call_start); task0;
     (env_ok, Sys_event IP_EVENT IP_EVENT_STA_GOT_IP);
     task0; task0; task0]
    world_ready.

(** The task has connected, reported and entered the dispatch loop. *)
Definition world_in_loop : world :=
  run sdk_plain app_quiet [task0; task0] world_at_connect.

(** Three entries queued while the task is in the dispatch loop. *)
Definition world_queued : world :=
  snd (queue_works [entry_a; entry_b; entry_c] world_in_loop).

(** [esp_rmaker_stop] called while the task is in the dispatch loop. *)
Definition world_stop_requested : world := snd (esp_rmaker_stop world_in_loop).

Definition eight_entries : list esp_rmaker_work_queue_entry_t :=
  [entry_a; entry_b; entry_c; entry_a; entry_b; entry_c; entry_a; entry_b].

(** ** Further notions *)

(** The value of an uppercase hexadecimal digit, and the test for one. *)
Definition hex_value (c : ascii) : Z :=
  let n := Z.of_nat (nat_of_ascii c) in
  if n <? 58 then n - 48 else n - 55.

Definition is_hex_upper (c : ascii) : bool :=
  let n := nat_of_ascii c in
  ((48 <=? n) && (n <=? 57) || (65 <=? n) && (n <=? 70))%nat.

(** A [uint8_t]. *)
Definition is_byte (b : Z) : Prop := 0 <= b < 256.

(** What [esp_rmaker_populate_node_id] needs to return a node id. *)
Definition node_id_available (sdk : sdkconfig) (env : collaborators) : bool :=
  match storage_get_node_id env with
  | Some _ => true
  | None => CONFIG_ESP_RMAKER_SELF_CLAIM sdk &&
            negb (neq_ok (wifi_get_mac_r env)) && calloc_node_id_ok env
  end.

(** When [esp_rmaker_populate_node_id] stores through [NULL]: the fallback
    is built in and taken, and its buffer cannot be allocated. *)
Definition node_id_faults (sdk : sdkconfig) (env : collaborators) : bool :=
  match storage_get_node_id env with
  | Some _ => false
  | None => CONFIG_ESP_RMAKER_SELF_CLAIM sdk &&
            negb (neq_ok (wifi_get_mac_r env)) && negb (calloc_node_id_ok env)
  end.

(** When [esp_rmaker_init] gets as far as that store. *)
Definition init_faults (sdk : sdkconfig) (env : collaborators)
  (config : option esp_rmaker_config_t) (w : world) : bool :=
  match esp_rmaker_priv_data w, config with
  | None, Some _ =>
      negb (neq_ok (storage_init_r env)) && calloc_priv_data_ok env &&
      node_id_faults sdk env
  | _, _ => false
  end.

(** What the last part of [esp_rmaker_init] needs: an MQTT configuration
    that initialises, or self claiming built in and initialising. *)
Definition transport_available (sdk : sdkconfig) (env : collaborators) : bool :=
  match get_mqtt_config_r env with
  | Some _ => negb (neq_ok (mqtt_init_r env))
  | None => CONFIG_ESP_RMAKER_SELF_CLAIM sdk && negb (neq_ok (self_claim_init_r env))
  end.

(** Every condition [esp_rmaker_init] tests, in the order it tests them. *)
Definition init_accepts (sdk : sdkconfig) (env : collaborators)
  (config : option esp_rmaker_config_t) (w : world) : bool :=
  match esp_rmaker_priv_data w, config with
  | None, Some _ =>
      negb (neq_ok (storage_init_r env)) && calloc_priv_data_ok env &&
      node_id_available sdk env && xQueueCreate_ok env &&
      transport_available sdk env
  | _, _ => false
  end.

(** A handle as the functions of this file keep it: it has its node id, its
    state is not DEINIT, and its queue has the length
    [ESP_RMAKER_TASK_QUEUE_SIZE] and holds no more entries than that. *)
Definition handle_wf (h : esp_rmaker_priv_data_t) : Prop :=
  node_id h <> None /\
  state h <> ESP_RMAKER_STATE_DEINIT /\
  exists q, work_queue h = Some q /\
            uxLength q = ESP_RMAKER_TASK_QUEUE_SIZE /\
            (length (uxItems q) <= uxLength q)%nat.

Definition world_wf (w : world) : Prop :=
  match esp_rmaker_priv_data w with
  | Some h => handle_wf h
  | None => True
  end.

(** The Wi-Fi bits that are set stay set. *)
Definition bits_kept (w w' : world) : Prop :=
  forall g, nth g (event_groups w) false = true ->
            nth g (event_groups w') false = true.



(** The delivery of IP_EVENT_STA_GOT_IP. *)
Definition is_got_ip (o : collaborators * sys_op) : bool :=
  match snd o with
  | Sys_event b i => is_IP_EVENT b && (i =? IP_EVENT_STA_GOT_IP)
  | _ => false
  end.

(** ** Further sample inputs *)

(** A device described by what varies between the samples below; every
    other collaborator answers well. *)
Definition env_sample (stored_id : option string) (mac : list Z)
  (mqtt_cfg : ptr) (connect report_state : esp_err_t) : collaborators :=
  {| storage_init_r := ESP_OK;
     storage_get_node_id := stored_id;
     wifi_get_mac_r := ESP_OK;
     eth_mac := mac;
     calloc_node_id_ok := true;
     calloc_priv_data_ok := true;
     xQueueCreate_ok := true;
     get_mqtt_config_r := mqtt_cfg;
     self_claim_init_r := ESP_OK;
     self_claim_perform_r := ESP_OK;
     mqtt_init_r := ESP_OK;
     mqtt_connect_r := connect;
     node_create_r := Some 3%nat;
     xTaskCreate_r := pdPASS;
     event_handler_register_r := ESP_OK;
     time_synced := true;
     report_node_config_r := ESP_OK;
     report_node_state_r := report_state;
     register_for_set_params_r := ESP_OK |}.

(** Two unclaimed devices with different MAC addresses. *)
Definition env_device_a : collaborators :=
  env_sample None [36; 10; 196; 1; 171; 239] None ESP_OK ESP_OK.
Definition env_device_b : collaborators :=
  env_sample None [36; 10; 196; 1; 171; 240] None ESP_OK ESP_OK.

(** A claimed device whose node state report fails. *)
Definition env_report_fails : collaborators :=
  env_sample (Some "node-0001"%string) [36; 10; 196; 1; 171; 239]
    (Some 7%nat) ESP_OK ESP_FAIL.

(** A device on which the fetch after claiming returns a second
    configuration. *)
Definition env_second_config : collaborators :=
  env_sample None [36; 10; 196; 1; 171; 239] (Some 8%nat) ESP_OK ESP_OK.

(** A device on which a task cannot be created. *)
Definition env_no_task : collaborators :=
  {| storage_init_r := ESP_OK;
     storage_get_node_id := Some "node-0001"%string;
     wifi_get_mac_r := ESP_OK;
     eth_mac := [36; 10; 196; 1; 171; 239];
     calloc_node_id_ok := true;
     calloc_priv_data_ok := true;
     xQueueCreate_ok := true;
     get_mqtt_config_r := Some 7%nat;
     self_claim_init_r := ESP_OK;
     self_claim_perform_r := ESP_OK;
     mqtt_init_r := ESP_OK;
     mqtt_connect_r := ESP_OK;
     node_create_r := Some 3%nat;
     xTaskCreate_r := pdFALSE;
     event_handler_register_r := ESP_OK;
     time_synced := true;
     report_node_config_r := ESP_OK;
     report_node_state_r := ESP_OK;
     register_for_set_params_r := ESP_OK |}.

(** The task has been created and has taken its first step: it waits for
    Wi-Fi on event group 0. *)
Definition world_waiting : world :=
  run sdk_plain app_quiet [(env_ok, Sys_api Call_start); task0] world_ready.

(** The task has connected and is about to report. *)
Definition world_at_report : world :=
  run sdk_plain app_quiet [task0] world_at_connect.


(** The queue filled up while the task is in the dispatch loop. *)
Definition world_queue_full : world :=
  snd (queue_works eight_entries world_in_loop).

(** A work function of [app_requeue] queued in front of the report
    function of the file, while the task is in the dispatch loop. *)
Definition entry_r : esp_rmaker_work_queue_entry_t :=
  {| work_fn := WORK_app 1%nat; priv_data := None |}.

Definition world_requeue : world :=
  snd (queue_works [entry_r; entry_b] world_in_loop).

(** From [esp_rmaker_start] to the end of the task when the node state
    report that follows the connect fails; nobody calls
    [esp_rmaker_stop]. *)
Definition ops_report_fails : list (collaborators * sys_op) :=
  [(env_ok, Sys_api Call_start); task0;
   (env_ok, Sys_event IP_EVENT IP_EVENT_STA_GOT_IP);
   task0; task0; task0; task0;
   (env_report_fails, Sys_task 0%nat); task0].

(** An unclaimed device in a build with self claiming, on which the
    buffer for the node id cannot be allocated. *)
Definition env_no_buffer : collaborators :=
  {| storage_init_r := ESP_OK;
     storage_get_node_id := None;
     wifi_get_mac_r := ESP_OK;
     eth_mac := [36; 10; 196; 1; 171; 239];
     calloc_node_id_ok := false;
     calloc_priv_data_ok := true;
     xQueueCreate_ok := true;
     get_mqtt_config_r := None;
     self_claim_init_r := ESP_OK;
     self_claim_perform_r := ESP_OK;
     mqtt_init_r := ESP_OK;
     mqtt_connect_r := ESP_OK;
     node_create_r := Some 3%nat;
     xTaskCreate_r := pdPASS;
     event_handler_register_r := ESP_OK;
     time_synced := true;
     report_node_config_r := ESP_OK;
     report_node_state_r := ESP_OK;
     register_for_set_params_r := ESP_OK |}.

(** A build with self claiming on an unclaimed device: initialised,
    started, and the task at the claim step. *)
Definition world_claim_pending : world :=
  run sdk_self_claim app_quiet
    [(env_device_a, Sys_api (Call_node_init (Some cfg_sample)
                               "Switch"%string "esp.node.switch"%string));
     (env_ok, Sys_api Call_start); task0;
     (env_ok, Sys_event IP_EVENT IP_EVENT_STA_GOT_IP);
     task0; task0]
    boot.

(** The same after a first successful claim. *)
Definition world_claimed : world :=
  fst (esp_rmaker_task sdk_self_claim app_quiet env_ok TASK_SELF_CLAIM
         world_claim_pending).

(** * Properties *)

Ltac break_goal :=
  match goal with
  | |- context [match ?x with _ => _ end] => destruct x eqn:?
  end.

Ltac break_hyp :=
  match goal with
  | H : context [match ?x with _ => _ end] |- _ => destruct x eqn:?
  end.

Ltac inj_pairs :=
  repeat match goal with
  | H : (_, _) = (_, _) |- _ => inversion H; subst; clear H
  | H : Some _ = Some _ |- _ => inversion H; subst; clear H
  | H : Some _ = None |- _ => discriminate H
  | H : None = Some _ |- _ => discriminate H
  | H : Returns _ _ = Returns _ _ |- _ => inversion H; subst; clear H
  | H : Faults _ = Faults _ |- _ => inversion H; subst; clear H
  | H : Returns _ _ = Faults _ |- _ => discriminate H
  | H : Faults _ = Returns _ _ |- _ => discriminate H
  | H : (?a =? ?a)%nat = false |- _ => rewrite Nat.eqb_refl in H; discriminate H
  end.

(** Case analysis along every branch the code takes. *)
Ltac crunch :=
  repeat (first [break_hyp | break_goal]; inj_pairs; simpl in * ).

(** The call returns, and the world it leaves has the handle wanted. *)
Ltac returns_here :=
  eexists; eexists; (split; [reflexivity|]);
  (split; [first [eassumption | reflexivity]
          | first [discriminate | intros; first [reflexivity | congruence | auto]]]).

(** ** Codes and tests *)

Lemma neq_ok_false (r : Z) : neq_ok r = false <-> r = ESP_OK.
Proof.
  unfold neq_ok. destruct (Z.eqb_spec r ESP_OK); simpl; split; congruence.
Qed.

Lemma neq_ok_true (r : Z) : neq_ok r = true <-> r <> ESP_OK.
Proof.
  unfold neq_ok. destruct (Z.eqb_spec r ESP_OK); simpl; split; congruence.
Qed.

Lemma state_eqb_eq (a b : esp_rmaker_state_t) : state_eqb a b = true <-> a = b.
Proof. destruct a, b; simpl; split; congruence. Qed.

Lemma state_eqb_neq (a b : esp_rmaker_state_t) : state_eqb a b = false <-> a <> b.
Proof. destruct a, b; simpl; split; congruence. Qed.

Lemma block_eqb_eq (a b : block) : block_eqb a b = true <-> a = b.
Proof.
  destruct a, b; simpl; split; try congruence;
    rewrite ?Nat.eqb_eq; congruence.
Qed.

Lemma block_eqb_refl (a : block) : block_eqb a a = true.
Proof. apply block_eqb_eq; reflexivity. Qed.

(** The fallback node id fills the [ESP_CLAIM_NODE_ID_SIZE] characters
    of its buffer, whatever the address. *)
Lemma format_mac_length (mac : list Z) :
  String.length (format_mac mac) = ESP_CLAIM_NODE_ID_SIZE.
Proof. reflexivity. Qed.

(** ** Blocks *)

Lemma live_release_same (b : block) (l : list block) :
  live b (release b l) = pred (live b l).
Proof.
  induction l as [|x r IH]; simpl; [reflexivity|].
  destruct (block_eqb b x) eqn:E; simpl; [reflexivity|].
  rewrite E. exact IH.
Qed.

Lemma live_release_other (b b' : block) (l : list block) :
  b <> b' -> live b (release b' l) = live b l.
Proof.
  intros Hne. induction l as [|x r IH]; simpl; [reflexivity|].
  destruct (block_eqb b' x) eqn:E'.
  - apply block_eqb_eq in E'. subst x.
    destruct (block_eqb b b') eqn:E; [apply block_eqb_eq in E; contradiction|].
    reflexivity.
  - simpl. destruct (block_eqb b x); rewrite IH; reflexivity.
Qed.

Lemma live_release_owned (h : esp_rmaker_priv_data_t) (l : list block) :
  live Blk_priv_data (release_owned h l) = pred (live Blk_priv_data l).
Proof.
  unfold release_owned.
  rewrite live_release_same.
  destruct (node_id h), (mqtt_config h), (work_queue h);
    rewrite ?live_release_other by discriminate; reflexivity.
Qed.

Lemma deinit_priv_data_heap (h : esp_rmaker_priv_data_t) (w : world) :
  heap (snd (esp_rmaker_deinit_priv_data (Some h) w)) = release_owned h (heap w).
Proof.
  unfold esp_rmaker_deinit_priv_data, release_owned.
  destruct (work_queue h), (mqtt_config h), (node_id h); reflexivity.
Qed.

Lemma deinit_priv_data_frame (h : esp_rmaker_priv_data_t) (w : world) :
  let w' := snd (esp_rmaker_deinit_priv_data (Some h) w) in
  esp_rmaker_priv_data w' = esp_rmaker_priv_data w /\
  tasks w' = tasks w /\ wifi_event_group w' = wifi_event_group w /\
  event_groups w' = event_groups w /\
  handler_registered w' = handler_registered w /\
  posted (trace w') = posted (trace w) /\
  invoked (trace w') = invoked (trace w).
Proof.
  assert (P : forall t e, (forall x, e <> Post_event x) ->
                          posted (t ++ [e]) = posted t).
  { induction t as [|y r IH]; simpl; intros e He.
    - destruct e; try reflexivity. exfalso; eapply He; reflexivity.
    - destruct y; rewrite ?IH by assumption; reflexivity. }
  assert (I : forall t e, (forall x, e <> Invoke x) ->
                          invoked (t ++ [e]) = invoked t).
  { induction t as [|y r IH]; simpl; intros e He.
    - destruct e; try reflexivity. exfalso; eapply He; reflexivity.
    - destruct y; rewrite ?IH by assumption; reflexivity. }
  unfold esp_rmaker_deinit_priv_data.
  destruct (work_queue h), (mqtt_config h), (node_id h); simpl;
    rewrite ?P, ?I by discriminate; repeat split; reflexivity.
Qed.

Lemma posted_app (t u : list effect) : posted (t ++ u) = posted t ++ posted u.
Proof.
  induction t as [|y r IH]; simpl; [reflexivity|].
  destruct y; simpl; rewrite ?IH; reflexivity.
Qed.

Lemma invoked_app (t u : list effect) : invoked (t ++ u) = invoked t ++ invoked u.
Proof.
  induction t as [|y r IH]; simpl; [reflexivity|].
  destruct y; simpl; rewrite ?IH; reflexivity.
Qed.

Section Properties.

Variable sdk : sdkconfig.
Variable app_work : addr -> ptr -> list (collaborators * api_call).

(** ** [esp_rmaker_init]: the four ways it can end *)

Lemma init_outcome (env : collaborators) (config : option esp_rmaker_config_t)
  (w : world) :
  let r := esp_rmaker_init sdk env config w in
  (esp_rmaker_priv_data w <> None /\ r = Returns ESP_ERR_INVALID_STATE w) \/
  (esp_rmaker_priv_data w = None /\
   (exists err, returned r = Some err /\ err <> ESP_OK) /\
   esp_rmaker_priv_data (world_of r) = None /\ heap (world_of r) = heap w /\
   tasks (world_of r) = tasks w /\
   posted (trace (world_of r)) = posted (trace w) /\
   invoked (trace (world_of r)) = invoked (trace w)) \/
  (esp_rmaker_priv_data w = None /\ returned r = Some ESP_OK /\
   exists cfg h,
     config = Some cfg /\ esp_rmaker_priv_data (world_of r) = Some h /\
     init_done_handle cfg h /\
     heap (world_of r) =
       match mqtt_config h with Some c => [Blk_mqtt_config c] | None => [] end
       ++ [Blk_work_queue; Blk_node_id; Blk_priv_data] ++ heap w /\
     tasks (world_of r) = tasks w /\
     posted (trace (world_of r)) = posted (trace w) ++ [RMAKER_EVENT_INIT_DONE] /\
     invoked (trace (world_of r)) = invoked (trace w)) \/
  (esp_rmaker_priv_data w = None /\ init_faults sdk env config w = true /\
   r = Faults (set_priv (Some zeroed_priv_data)
                 (alloc Blk_priv_data (emit Storage_init w)))).
Proof.
  unfold esp_rmaker_init, init_abort, esp_rmaker_populate_node_id,
    esp_rmaker_get_mqtt_config, esp_rmaker_deinit_priv_data, upd_priv,
    init_done_handle, init_faults, node_id_faults.
  crunch.
  all: try (left; split; [congruence | reflexivity]).
  all: try (right; right; right;
            destruct (calloc_priv_data_ok env); simpl in *;
            repeat match goal with
                   | H : _ = _ |- _ => rewrite H
                   end;
            repeat split; first [reflexivity | discriminate]).
  all: try (right; left; rewrite ?Nat.eqb_refl;
            repeat rewrite ?posted_app, ?invoked_app; simpl;
            rewrite ?app_nil_r;
            repeat split; auto; eexists; split; [reflexivity | discriminate]).
  all: right; right; left; repeat split; auto;
    eexists; eexists; repeat rewrite ?posted_app, ?invoked_app; simpl;
    rewrite ?app_nil_r; repeat split; eauto; discriminate.
Qed.

(** When there is a handle already, or the call returns, the world it
    leaves has one handle block for the pointer; so has the world of the
    instant it stores through [NULL]. *)
Lemma init_keeps_one_handle (env : collaborators)
  (config : option esp_rmaker_config_t) (w : world) :
  one_handle w -> one_handle (world_of (esp_rmaker_init sdk env config w)).
Proof.
  unfold one_handle. intros H.
  destruct (init_outcome env config w)
    as [[_ E] | [(N & _ & N' & Hp & _)
       | [(N & _ & cfg & h & _ & Hh & _ & Hp & _) | (N & _ & E)]]].
  - rewrite E. exact H.
  - rewrite N', Hp, H, N. reflexivity.
  - rewrite Hh, Hp. rewrite N in H.
    destruct (mqtt_config h); simpl; rewrite H; reflexivity.
  - rewrite E. simpl. rewrite H, N. reflexivity.
Qed.

Lemma register_node_keeps_one_handle (n : ptr) (w : world) :
  one_handle w -> one_handle (snd (esp_rmaker_register_node n w)).
Proof.
  unfold one_handle, esp_rmaker_register_node. intros H.
  crunch; auto.
Qed.

Lemma node_deinit_refused (n : ptr) (w : world) (h : esp_rmaker_priv_data_t) :
  esp_rmaker_priv_data w = Some h ->
  state h <> ESP_RMAKER_STATE_INIT_DONE ->
  esp_rmaker_node_deinit n w = (ESP_ERR_INVALID_STATE, w).
Proof.
  intros E Hs. unfold esp_rmaker_node_deinit. rewrite E.
  apply state_eqb_neq in Hs. rewrite Hs. reflexivity.
Qed.

Lemma node_deinit_done (n : ptr) (w : world) (h : esp_rmaker_priv_data_t) :
  esp_rmaker_priv_data w = Some h ->
  state h = ESP_RMAKER_STATE_INIT_DONE ->
  let r := esp_rmaker_node_deinit n w in
  fst r = ESP_OK /\
  esp_rmaker_priv_data (snd r) = None /\
  heap (snd r) = release_owned h (heap (esp_rmaker_node_delete n w)) /\
  tasks (snd r) = tasks w /\
  posted (trace (snd r)) = posted (trace w) /\
  invoked (trace (snd r)) = invoked (trace w).
Proof.
  intros E Hs. unfold esp_rmaker_node_deinit. rewrite E, Hs.
  cbn [state_eqb negb]. unfold upd_priv.
  assert (Ep : esp_rmaker_priv_data (esp_rmaker_node_delete n w) = Some h)
    by (destruct n; exact E).
  rewrite Ep.
  change (esp_rmaker_priv_data
            (set_priv (Some (set_node None h)) (esp_rmaker_node_delete n w)))
    with (Some (set_node None h)).
  pose proof (deinit_priv_data_heap (set_node None h)
                (set_priv (Some (set_node None h)) (esp_rmaker_node_delete n w))) as Hh.
  pose proof (deinit_priv_data_frame (set_node None h)
                (set_priv (Some (set_node None h)) (esp_rmaker_node_delete n w)))
    as (_ & Ht & _ & _ & _ & Hp & Hi).
  cbn [fst snd].
  repeat split.
  - exact Hh.
  - etransitivity; [exact Ht | destruct n; reflexivity].
  - etransitivity; [exact Hp | destruct n; reflexivity].
  - etransitivity; [exact Hi | destruct n; reflexivity].
Qed.

Lemma node_deinit_keeps_one_handle (n : ptr) (w : world) :
  one_handle w -> one_handle (snd (esp_rmaker_node_deinit n w)).
Proof.
  unfold one_handle. intros H.
  destruct (esp_rmaker_priv_data w) as [h|] eqn:E.
  - destruct (state_eqb (state h) ESP_RMAKER_STATE_INIT_DONE) eqn:Hs.
    + apply state_eqb_eq in Hs.
      destruct (node_deinit_done n w h E Hs) as (_ & Hp & Hh & _).
      rewrite Hp, Hh, live_release_owned.
      destruct n as [a|]; simpl.
      * rewrite live_release_other by discriminate. rewrite H. reflexivity.
      * rewrite H. reflexivity.
    + apply state_eqb_neq in Hs.
      rewrite (node_deinit_refused n w h E Hs). simpl. rewrite E. exact H.
  - unfold esp_rmaker_node_deinit. rewrite E. simpl. rewrite E. exact H.
Qed.

Lemma queue_work_keeps_one_handle (f : esp_rmaker_work_fn_t) (p : ptr) (w : world) :
  one_handle w -> one_handle (snd (esp_rmaker_queue_work f p w)).
Proof.
  unfold one_handle, esp_rmaker_queue_work, xQueueSend. intros H.
  crunch; auto.
Qed.

Lemma start_keeps_one_handle (env : collaborators) (w : world) :
  one_handle w -> one_handle (snd (esp_rmaker_start env w)).
Proof.
  unfold one_handle, esp_rmaker_start. intros H.
  crunch; auto.
Qed.

Lemma stop_keeps_one_handle (w : world) :
  one_handle w -> one_handle (snd (esp_rmaker_stop w)).
Proof.
  unfold one_handle, esp_rmaker_stop. intros H.
  crunch; auto.
Qed.

Lemma node_init_keeps_one_handle (env : collaborators)
  (config : option esp_rmaker_config_t) (name type : string) (w : world) :
  one_handle w ->
  one_handle (world_of (esp_rmaker_node_init sdk env config name type w)).
Proof.
  intros H. unfold esp_rmaker_node_init.
  pose proof (init_keeps_one_handle env config w H) as H1.
  destruct (esp_rmaker_init sdk env config w) as [err w1|w1]; simpl in H1;
    [|exact H1].
  destruct (neq_ok err); [exact H1|].
  unfold esp_rmaker_node_create.
  destruct (node_create_r env) as [a|]; [|exact H1].
  assert (H2 : one_handle (alloc (Blk_node a) w1)) by exact H1.
  pose proof (register_node_keeps_one_handle (Some a) _ H2) as H3.
  destruct (esp_rmaker_register_node (Some a) (alloc (Blk_node a) w1)) as [err2 w2].
  simpl in H3.
  destruct (neq_ok err2); [|exact H3].
  unfold one_handle in *. simpl.
  rewrite live_release_other by discriminate. exact H3.
Qed.

Lemma world_of_dropped {A} (o : outcome A) : world_of (dropped o) = world_of o.
Proof. destruct o; reflexivity. Qed.

Lemma returned_dropped {A} (o : outcome A) :
  returned (dropped o) = option_map (fun _ => tt) (returned o).
Proof. destruct o; reflexivity. Qed.

Lemma run_api_keeps_one_handle (env : collaborators) (c : api_call) (w : world) :
  one_handle w -> one_handle (world_of (run_api sdk env c w)).
Proof.
  intros H. destruct c; simpl; rewrite ?world_of_dropped;
    auto using init_keeps_one_handle,
    register_node_keeps_one_handle, node_init_keeps_one_handle,
    node_deinit_keeps_one_handle, queue_work_keeps_one_handle,
    start_keeps_one_handle, stop_keeps_one_handle.
  apply queue_work_keeps_one_handle; exact H.
Qed.

Lemma run_apis_keeps_one_handle (l : list (collaborators * api_call)) (w : world) :
  one_handle w -> one_handle (world_of (run_apis sdk l w)).
Proof.
  revert w. induction l as [|[env c] r IH]; simpl; intros w H; [exact H|].
  pose proof (run_api_keeps_one_handle env c w H) as H1.
  destruct (run_api sdk env c w) as [[] w1|w1]; simpl in H1;
    [apply IH, H1 | exact H1].
Qed.

Lemma invoke_keeps_one_handle (env : collaborators)
  (e : esp_rmaker_work_queue_entry_t) (w : world) :
  one_handle w -> one_handle (world_of (invoke sdk app_work env e w)).
Proof.
  intros H. unfold invoke.
  destruct (work_fn e).
  - unfold __esp_rmaker_report_node_config_and_state,
      esp_rmaker_report_node_config_and_state.
    crunch; exact H.
  - apply run_apis_keeps_one_handle. exact H.
Qed.

Lemma receive_work_keeps_one_handle (w : world) :
  one_handle w -> one_handle (fst (receive_work w)).
Proof.
  unfold one_handle, receive_work, xQueueReceive. intros H.
  crunch; auto.
Qed.

Lemma task_keeps_one_handle (env : collaborators) (pc : task_pc) (w : world) :
  one_handle w -> one_handle (fst (esp_rmaker_task sdk app_work env pc w)).
Proof.
  intros H. destruct pc; simpl; try exact H.
  - unfold one_handle in *. crunch; auto.
  - crunch; exact H.
  - unfold one_handle in *. crunch; auto.
  - unfold one_handle, esp_rmaker_get_mqtt_config, upd_priv in *. crunch; auto.
  - unfold one_handle in *. crunch; auto.
  - unfold esp_rmaker_report_node_config_and_state. crunch; exact H.
  - unfold esp_rmaker_handle_work_queue.
    destruct (esp_rmaker_priv_data w) eqn:E; [|exact H].
    destruct (negb _); [|exact H].
    apply receive_work_keeps_one_handle, H.
  - pose proof (invoke_keeps_one_handle env e w H) as H1.
    destruct (invoke sdk app_work env e w) as [[] w1|w1]; simpl in H1;
      [apply receive_work_keeps_one_handle, H1 | exact H1].
  - unfold one_handle in *. crunch; auto.
Qed.

Lemma sys_step_keeps_one_handle (env : collaborators) (o : sys_op) (w : world) :
  one_handle w -> one_handle (world_of (sys_step sdk app_work env o w)).
Proof.
  intros H. destruct o as [c | b i | tid]; simpl.
  - apply run_api_keeps_one_handle, H.
  - unfold deliver_event, esp_rmaker_event_handler.
    crunch; exact H.
  - unfold task_step.
    destruct (nth_error (tasks w) tid) as [pc|]; [|exact H].
    pose proof (task_keeps_one_handle env pc w H) as H1.
    destruct (esp_rmaker_task sdk app_work env pc w) as [w' pc'].
    destruct (work_faults sdk app_work env pc w); exact H1.
Qed.

Lemma run_keeps_one_handle (l : list (collaborators * sys_op)) (w : world) :
  one_handle w -> one_handle (run sdk app_work l w).
Proof.
  revert w. induction l as [|[env o] r IH]; simpl; intros w H; [exact H|].
  pose proof (sys_step_keeps_one_handle env o w H) as H1.
  destruct (sys_step sdk app_work env o w) as [[] w1|w1]; simpl in H1;
    [apply IH, H1 | exact H].
Qed.

(** C1.  Whatever application calls, network events and steps of core tasks
    have happened since boot, the number of live handle blocks is the one
    the process-wide pointer accounts for, so never more than one; and
    [esp_rmaker_init] called while the pointer is set returns
    [ESP_ERR_INVALID_STATE] (the code's "already initialised") and leaves
    the world, the existing handle included, as it was. *)
Theorem single_live_handle :
  (forall ops : list (collaborators * sys_op),
     let w := run sdk app_work ops boot in
     one_handle w /\ (live Blk_priv_data (heap w) <= 1)%nat) /\
  (forall env config w h,
     esp_rmaker_priv_data w = Some h ->
     esp_rmaker_init sdk env config w = Returns ESP_ERR_INVALID_STATE w).
Proof.
  split.
  - intros ops w.
    assert (H : one_handle w) by (apply run_keeps_one_handle; reflexivity).
    split; [exact H|].
    unfold one_handle in H. rewrite H.
    destruct (esp_rmaker_priv_data w); lia.
  - intros env config w h E. unfold esp_rmaker_init. rewrite E. reflexivity.
Qed.

(** ** While a handle exists *)

Lemma init_already (env : collaborators) (config : option esp_rmaker_config_t)
  (w : world) (h : esp_rmaker_priv_data_t) :
  esp_rmaker_priv_data w = Some h ->
  esp_rmaker_init sdk env config w = Returns ESP_ERR_INVALID_STATE w.
Proof. intros E. unfold esp_rmaker_init. rewrite E. reflexivity. Qed.

Lemma node_init_already (env : collaborators)
  (config : option esp_rmaker_config_t) (name type : string)
  (w : world) (h : esp_rmaker_priv_data_t) :
  esp_rmaker_priv_data w = Some h ->
  esp_rmaker_node_init sdk env config name type w = Returns None w.
Proof.
  intros E. unfold esp_rmaker_node_init.
  rewrite (init_already env config w h E). reflexivity.
Qed.

(** No call but [esp_rmaker_node_deinit] drops the handle. *)
Lemma run_api_keeps_handle (env : collaborators) (c : api_call) (w : world)
  (h : esp_rmaker_priv_data_t) :
  not_deinit (env, c) ->
  esp_rmaker_priv_data w = Some h ->
  exists w' h', run_api sdk env c w = Returns tt w' /\
                esp_rmaker_priv_data w' = Some h' /\
                (node h <> None -> node h' = node h).
Proof.
  intros Hc E. destruct c; simpl in Hc; try contradiction; simpl.
  - rewrite (init_already env config w h E). simpl. eauto.
  - unfold esp_rmaker_register_node. rewrite E.
    destruct (node h) eqn:En; simpl; [eauto|].
    destruct n; simpl; eauto.
    eexists; eexists; split; [reflexivity|]. split; [reflexivity|].
    intros; congruence.
  - rewrite (node_init_already env config name type w h E). simpl. eauto.
  - eauto.
  - eauto.
  - unfold esp_rmaker_report_node_details, esp_rmaker_queue_work, xQueueSend.
    rewrite E. crunch; returns_here.
  - unfold esp_rmaker_queue_work, xQueueSend. rewrite E. crunch; returns_here.
  - unfold esp_rmaker_start. rewrite E. crunch; returns_here.
  - unfold esp_rmaker_stop. rewrite E. simpl. returns_here.
Qed.

Lemma run_apis_keep_handle (l : list (collaborators * api_call)) (w : world)
  (h : esp_rmaker_priv_data_t) :
  Forall not_deinit l ->
  esp_rmaker_priv_data w = Some h ->
  exists w' h', run_apis sdk l w = Returns tt w' /\
                esp_rmaker_priv_data w' = Some h' /\
                (node h <> None -> node h' = node h).
Proof.
  revert w h. induction l as [|[env c] r IH]; simpl; intros w h Hl E.
  - eauto.
  - inversion Hl as [|x y Hc Hr]; subst.
    destruct (run_api_keeps_handle env c w h Hc E) as (w1 & h1 & R1 & E1 & N1).
    rewrite R1.
    destruct (IH _ h1 Hr E1) as (w2 & h2 & R2 & E2 & N2).
    exists w2, h2. split; [exact R2|]. split; [exact E2|].
    intros Hn. rewrite N2; rewrite N1; auto.
Qed.

Lemma register_node_taken (n : ptr) (w : world) (h : esp_rmaker_priv_data_t) :
  esp_rmaker_priv_data w = Some h -> node h <> None ->
  esp_rmaker_register_node n w = (ESP_ERR_INVALID_STATE, w).
Proof.
  intros E Hn. unfold esp_rmaker_register_node. rewrite E.
  destruct (node h); [reflexivity | contradiction].
Qed.

Lemma register_node_failure (n : ptr) (w : world) :
  fst (esp_rmaker_register_node n w) <> ESP_OK ->
  snd (esp_rmaker_register_node n w) = w.
Proof.
  unfold esp_rmaker_register_node. crunch; try reflexivity.
  intros H; contradiction H; reflexivity.
Qed.

(** C2.  On a handle that holds no node, [esp_rmaker_register_node] with a
    node that is not [NULL] returns [ESP_OK] and stores it.  From then on
    every call, whatever its argument, returns [ESP_ERR_INVALID_STATE] (the
    code's "already registered") and the stored node stays: in a run of
    registrations, and after any calls into the file that do not
    de-initialise.  A call that does not return [ESP_OK] leaves the world as
    it was. *)
Theorem register_node_once (w : world) (h : esp_rmaker_priv_data_t) (a : addr) :
  esp_rmaker_priv_data w = Some h ->
  node h = None ->
  let w1 := set_priv (Some (set_node (Some a) h)) w in
  esp_rmaker_register_node (Some a) w = (ESP_OK, w1) /\
  (forall ns,
     register_nodes ns w1 = (repeat ESP_ERR_INVALID_STATE (length ns), w1)) /\
  (forall calls n',
     Forall not_deinit calls ->
     exists w2,
       run_apis sdk calls w1 = Returns tt w2 /\
       esp_rmaker_get_node w2 = Some a /\
       esp_rmaker_register_node n' w2 = (ESP_ERR_INVALID_STATE, w2)) /\
  (forall n' w',
     fst (esp_rmaker_register_node n' w') <> ESP_OK ->
     snd (esp_rmaker_register_node n' w') = w').
Proof.
  intros E Hn w1.
  assert (E1 : esp_rmaker_priv_data w1 = Some (set_node (Some a) h)) by reflexivity.
  assert (N1 : node (set_node (Some a) h) <> None) by discriminate.
  split; [|split; [|split]].
  - unfold esp_rmaker_register_node. rewrite E, Hn. reflexivity.
  - induction ns as [|n r IH]; [reflexivity|].
    cbn [register_nodes length repeat].
    rewrite (register_node_taken n w1 _ E1 N1), IH. reflexivity.
  - intros calls n' Hcalls.
    destruct (run_apis_keep_handle calls w1 _ Hcalls E1) as (w2 & h2 & R2 & E2 & N2).
    exists w2. split; [exact R2|]. split.
    + unfold esp_rmaker_get_node. rewrite E2. apply N2, N1.
    + apply (register_node_taken n' _ h2 E2).
      rewrite (N2 N1). exact N1.
  - apply register_node_failure.
Qed.

(** ** The work queue *)

Lemma queue_work_fits (e : esp_rmaker_work_queue_entry_t) (w : world)
  (h : esp_rmaker_priv_data_t) (q : Queue_t) :
  esp_rmaker_priv_data w = Some h -> work_queue h = Some q ->
  (length (uxItems q) < uxLength q)%nat ->
  esp_rmaker_queue_work (work_fn e) (priv_data e) w =
  (ESP_OK,
   set_priv (Some (set_work_queue
                     (Some {| uxLength := uxLength q;
                              uxItems := uxItems q ++ [e] |}) h)) w).
Proof.
  intros E Q L. unfold esp_rmaker_queue_work, xQueueSend. rewrite E, Q.
  apply Nat.ltb_lt in L. rewrite L. simpl. destruct e; reflexivity.
Qed.

Lemma queue_work_full (e : esp_rmaker_work_queue_entry_t) (w : world)
  (h : esp_rmaker_priv_data_t) (q : Queue_t) :
  esp_rmaker_priv_data w = Some h -> work_queue h = Some q ->
  (uxLength q <= length (uxItems q))%nat ->
  esp_rmaker_queue_work (work_fn e) (priv_data e) w = (ESP_FAIL, w).
Proof.
  intros E Q L. unfold esp_rmaker_queue_work, xQueueSend. rewrite E, Q.
  apply Nat.ltb_ge in L. rewrite L. reflexivity.
Qed.

Lemma queue_works_fit (es : list esp_rmaker_work_queue_entry_t) :
  forall (w : world) (h : esp_rmaker_priv_data_t) (q : Queue_t),
  esp_rmaker_priv_data w = Some h -> work_queue h = Some q ->
  (length (uxItems q) + length es <= uxLength q)%nat ->
  exists h' q',
    fst (queue_works es w) = repeat ESP_OK (length es) /\
    esp_rmaker_priv_data (snd (queue_works es w)) = Some h' /\
    work_queue h' = Some q' /\
    uxLength q' = uxLength q /\ uxItems q' = uxItems q ++ es /\
    state h' = state h /\ node h' = node h.
Proof.
  induction es as [|e r IH]; intros w h q E Q L; simpl.
  - exists h, q. rewrite app_nil_r. repeat split; assumption.
  - simpl in L.
    rewrite (queue_work_fits e w h q E Q) by lia.
    edestruct (IH (set_priv (Some (set_work_queue
                     (Some {| uxLength := uxLength q;
                              uxItems := uxItems q ++ [e] |}) h)) w))
      as (h' & q' & R & E' & Q' & Len & It & St & Nd);
      [reflexivity | reflexivity | simpl; rewrite length_app; simpl; lia |].
    destruct (queue_works r _) as [errs w2]. simpl in *.
    exists h', q'. rewrite R, <- app_assoc in *. simpl in *.
    repeat split; assumption.
Qed.

(** C3.  [esp_rmaker_init] builds the work queue empty with room for
    [ESP_RMAKER_TASK_QUEUE_SIZE] = 8 entries.  On a handle whose queue is
    empty and has room for N entries, N calls of [esp_rmaker_queue_work] in
    a row, with nothing taken out in between, each return [ESP_OK] and
    leave the N entries queued in the order of the calls; the next call
    returns [ESP_FAIL] (the queue is full) and changes nothing.  Each call
    is one [xQueueSend] with a zero wait, so none of them waits. *)
Theorem queue_work_bounded :
  ESP_RMAKER_TASK_QUEUE_SIZE = 8%nat /\
  (forall env config w w1,
     esp_rmaker_init sdk env config w = Returns ESP_OK w1 ->
     exists h, esp_rmaker_priv_data w1 = Some h /\
               work_queue h = Some (xQueueCreate ESP_RMAKER_TASK_QUEUE_SIZE)) /\
  (forall w h q es e,
     esp_rmaker_priv_data w = Some h -> work_queue h = Some q ->
     uxItems q = [] -> length es = uxLength q ->
     let r := queue_works es w in
     fst r = repeat ESP_OK (uxLength q) /\
     queued (snd r) = es /\
     esp_rmaker_queue_work (work_fn e) (priv_data e) (snd r) = (ESP_FAIL, snd r)).
Proof.
  split; [reflexivity|]. split.
  - intros env config w w1 Hi.
    destruct (init_outcome env config w)
      as [[_ E] | [(_ & (err & R & F) & _)
         | [(_ & _ & cfg & h & _ & Hh & (_ & _ & _ & Q & _) & _) | (_ & _ & E)]]].
    + rewrite Hi in E. discriminate E.
    + rewrite Hi in R. inversion R; subst. contradiction F; reflexivity.
    + rewrite Hi in Hh. exists h. split; assumption.
    + rewrite Hi in E. discriminate E.
  - intros w h q es e E Q It Len r.
    destruct (queue_works_fit es w h q E Q) as (h' & q' & R & E' & Q' & L' & I' & _).
    { rewrite It. simpl. lia. }
    fold r in R, E'. rewrite It in I'. simpl in I'.
    repeat split.
    + rewrite R, Len. reflexivity.
    + unfold queued. rewrite E', Q'. exact I'.
    + apply (queue_work_full e _ h' q' E' Q'). rewrite I', L'. lia.
Qed.

(** ** De-initialisation *)

(** C4, as the code has it.  [esp_rmaker_node_deinit] returns
    [ESP_ERR_INVALID_ARG] when there is no handle, and
    [ESP_ERR_INVALID_STATE] when there is one whose state is not
    INIT_DONE (DEINIT, STARTING, STARTED or STOP_REQUESTED); in both cases the world is
    left as it was, so nothing is released.  With a handle in state
    INIT_DONE it returns [ESP_OK], deletes the node it was given, frees the
    work queue, the MQTT configuration and the node id the handle holds, and
    the handle itself, and sets the process-wide pointer to [NULL]. *)
Theorem node_deinit_gated (n : ptr) (w : world) :
  (esp_rmaker_priv_data w = None ->
   esp_rmaker_node_deinit n w = (ESP_ERR_INVALID_ARG, w)) /\
  (forall h,
     esp_rmaker_priv_data w = Some h ->
     state h <> ESP_RMAKER_STATE_INIT_DONE ->
     esp_rmaker_node_deinit n w = (ESP_ERR_INVALID_STATE, w)) /\
  (forall h,
     esp_rmaker_priv_data w = Some h ->
     state h = ESP_RMAKER_STATE_INIT_DONE ->
     let r := esp_rmaker_node_deinit n w in
     fst r = ESP_OK /\
     esp_rmaker_priv_data (snd r) = None /\
     heap (snd r) = release_owned h (heap (esp_rmaker_node_delete n w))).
Proof.
  repeat split.
  - intros E. unfold esp_rmaker_node_deinit. rewrite E. reflexivity.
  - intros h E Hs. exact (node_deinit_refused n w h E Hs).
  - apply (node_deinit_done n w h H H0).
  - apply (node_deinit_done n w h H H0).
  - apply (node_deinit_done n w h H H0).
Qed.

(** ** Stopping *)

(** C5.  With a handle, [esp_rmaker_stop] returns [ESP_OK] and only sets
    the state to STOP_REQUESTED; called again in that state it returns
    [ESP_OK] and leaves the world exactly as the first call left it. *)
Theorem stop_idempotent (w : world) (h : esp_rmaker_priv_data_t) :
  esp_rmaker_priv_data w = Some h ->
  let r := esp_rmaker_stop w in
  fst r = ESP_OK /\
  snd r = set_priv (Some (set_state ESP_RMAKER_STATE_STOP_REQUESTED h)) w /\
  state_of (snd r) = Some ESP_RMAKER_STATE_STOP_REQUESTED /\
  esp_rmaker_stop (snd r) = (ESP_OK, snd r).
Proof.
  intros E. unfold esp_rmaker_stop. rewrite E. simpl.
  repeat split.
Qed.

(** ** What application calls cannot do *)

(** While the state is not INIT_DONE no call can de-initialise, so the
    handle stays and no call brings the state back to INIT_DONE. *)
Lemma run_api_keeps_running (env : collaborators) (c : api_call) (w : world)
  (h : esp_rmaker_priv_data_t) :
  esp_rmaker_priv_data w = Some h ->
  state h <> ESP_RMAKER_STATE_INIT_DONE ->
  exists w' h', run_api sdk env c w = Returns tt w' /\
                esp_rmaker_priv_data w' = Some h' /\
                state h' <> ESP_RMAKER_STATE_INIT_DONE.
Proof.
  intros E Hs. destruct c; simpl.
  - rewrite (init_already env config w h E). simpl. eauto.
  - unfold esp_rmaker_register_node. rewrite E. crunch; returns_here.
  - rewrite (node_init_already env config name type w h E). simpl. eauto.
  - rewrite (node_deinit_refused n w h E Hs). eauto.
  - eauto.
  - eauto.
  - unfold esp_rmaker_report_node_details, esp_rmaker_queue_work, xQueueSend.
    rewrite E. crunch; returns_here.
  - unfold esp_rmaker_queue_work, xQueueSend. rewrite E. crunch; returns_here.
  - unfold esp_rmaker_start. rewrite E. crunch; returns_here.
  - unfold esp_rmaker_stop. rewrite E. simpl. returns_here.
Qed.

Lemma run_apis_keep_running (l : list (collaborators * api_call)) (w : world)
  (h : esp_rmaker_priv_data_t) :
  esp_rmaker_priv_data w = Some h ->
  state h <> ESP_RMAKER_STATE_INIT_DONE ->
  exists w' h', run_apis sdk l w = Returns tt w' /\
                esp_rmaker_priv_data w' = Some h' /\
                state h' <> ESP_RMAKER_STATE_INIT_DONE.
Proof.
  revert w h. induction l as [|[env c] r IH]; simpl; intros w h E Hs.
  - eauto.
  - destruct (run_api_keeps_running env c w h E Hs) as (w1 & h1 & R1 & E1 & S1).
    rewrite R1. exact (IH _ h1 E1 S1).
Qed.

(** Work functions are called by the core task only: no application call
    adds to the list of work functions invoked. *)
Lemma run_api_invoked (env : collaborators) (c : api_call) (w : world) :
  invoked (trace (world_of (run_api sdk env c w))) = invoked (trace w).
Proof.
  assert (Hinit : forall config w0,
            invoked (trace (world_of (esp_rmaker_init sdk env config w0))) =
            invoked (trace w0)).
  { intros config w0.
    destruct (init_outcome env config w0)
      as [[_ E] | [(_ & _ & _ & _ & _ & _ & I)
         | [(_ & _ & cfg & h & _ & _ & _ & _ & _ & _ & I) | (_ & _ & E)]]];
      [rewrite E; reflexivity | exact I | exact I |].
    rewrite E. simpl. rewrite invoked_app, app_nil_r. reflexivity. }
  destruct c; simpl; rewrite ?world_of_dropped.
  - apply Hinit.
  - unfold esp_rmaker_register_node. crunch; reflexivity.
  - unfold esp_rmaker_node_init.
    specialize (Hinit config w).
    destruct (esp_rmaker_init sdk env config w) as [err w1|w1]; simpl in Hinit;
      [|exact Hinit].
    unfold esp_rmaker_node_create, esp_rmaker_register_node.
    crunch; exact Hinit.
  - destruct (esp_rmaker_priv_data w) as [h|] eqn:E.
    + destruct (state_eqb (state h) ESP_RMAKER_STATE_INIT_DONE) eqn:Hs.
      * apply state_eqb_eq in Hs. apply (node_deinit_done n w h E Hs).
      * apply state_eqb_neq in Hs.
        rewrite (node_deinit_refused n w h E Hs). reflexivity.
    + unfold esp_rmaker_node_deinit. rewrite E. reflexivity.
  - reflexivity.
  - reflexivity.
  - unfold esp_rmaker_report_node_details, esp_rmaker_queue_work, xQueueSend.
    crunch; reflexivity.
  - unfold esp_rmaker_queue_work, xQueueSend. crunch; reflexivity.
  - unfold esp_rmaker_start. crunch; rewrite ?invoked_app, ?app_nil_r; reflexivity.
  - unfold esp_rmaker_stop. crunch; reflexivity.
Qed.

Lemma run_apis_invoked (l : list (collaborators * api_call)) (w : world) :
  invoked (trace (world_of (run_apis sdk l w))) = invoked (trace w).
Proof.
  revert w. induction l as [|[env c] r IH]; simpl; intros w; [reflexivity|].
  pose proof (run_api_invoked env c w) as H.
  destruct (run_api sdk env c w) as [[] w1|w1]; simpl in H;
    [rewrite IH; exact H | exact H].
Qed.

Lemma invoke_invoked (env : collaborators) (e : esp_rmaker_work_queue_entry_t)
  (w : world) :
  invoked (trace (world_of (invoke sdk app_work env e w)))
  = invoked (trace w) ++ [e].
Proof.
  unfold invoke. destruct (work_fn e).
  - unfold __esp_rmaker_report_node_config_and_state,
      esp_rmaker_report_node_config_and_state.
    crunch; repeat rewrite invoked_app; simpl; rewrite ?app_nil_r; reflexivity.
  - rewrite run_apis_invoked. simpl. rewrite invoked_app. reflexivity.
Qed.

Lemma invoke_keeps_running (env : collaborators)
  (e : esp_rmaker_work_queue_entry_t) (w : world) (h : esp_rmaker_priv_data_t) :
  esp_rmaker_priv_data w = Some h ->
  state h <> ESP_RMAKER_STATE_INIT_DONE ->
  exists w' h', invoke sdk app_work env e w = Returns tt w' /\
                esp_rmaker_priv_data w' = Some h' /\
                state h' <> ESP_RMAKER_STATE_INIT_DONE.
Proof.
  intros E Hs. unfold invoke. destruct (work_fn e).
  - unfold __esp_rmaker_report_node_config_and_state,
      esp_rmaker_report_node_config_and_state.
    crunch; returns_here.
  - apply (run_apis_keep_running _ _ h); assumption.
Qed.

Lemma receive_work_state (w : world) :
  state_of (fst (receive_work w)) = state_of w.
Proof.
  unfold receive_work, xQueueReceive, state_of.
  destruct (esp_rmaker_priv_data w) as [h|] eqn:E; simpl;
    [|rewrite E; reflexivity].
  destruct (work_queue h) as [q|]; simpl; [|rewrite E; reflexivity].
  destruct (uxItems q); simpl; rewrite ?E; reflexivity.
Qed.

(** ** The core task *)

(** Steps of the task that leave the state of the handle alone. *)
Ltac state_case E :=
  unfold state_of, esp_rmaker_get_mqtt_config, upd_priv,
    esp_rmaker_report_node_config_and_state in *;
  simpl in *; rewrite ?E in *; crunch; simpl in *; rewrite ?E in *; simpl in *;
  try (intros F); first [discriminate | congruence | inversion F; congruence].

Lemma task_init_done_only_at_end (env : collaborators) (pc : task_pc)
  (w : world) (h : esp_rmaker_priv_data_t) :
  esp_rmaker_priv_data w = Some h ->
  state h <> ESP_RMAKER_STATE_INIT_DONE ->
  state_of (fst (esp_rmaker_task sdk app_work env pc w)) =
    Some ESP_RMAKER_STATE_INIT_DONE ->
  pc = TASK_END.
Proof.
  intros E Hs.
  assert (K : state_of w <> Some ESP_RMAKER_STATE_INIT_DONE)
    by (unfold state_of; rewrite E; simpl; congruence).
  destruct pc; simpl; try reflexivity; try (intros F; contradiction).
  - state_case E.
  - crunch; intros F; contradiction.
  - state_case E.
  - state_case E.
  - state_case E.
  - state_case E.
  - rewrite E. unfold esp_rmaker_handle_work_queue. rewrite E.
    destruct (negb _); [|intros F; contradiction].
    rewrite receive_work_state. intros F; contradiction.
  - destruct (invoke_keeps_running env e w h E Hs) as (w1 & h' & R1 & E' & S').
    rewrite R1, receive_work_state.
    unfold state_of. rewrite E'. simpl. intros F; inversion F; contradiction.
Qed.

(** A step from inside the dispatch loop stays inside it, aborts on a
    [NULL] handle, or leaves for [rmaker_end] from the test of the [while]
    on reading STOP_REQUESTED. *)
Lemma loop_step (env : collaborators) (pc : task_pc) (w : world) :
  in_dispatch_loop pc = true ->
  let pc' := snd (esp_rmaker_task sdk app_work env pc w) in
  in_dispatch_loop pc' = true \/ pc' = TASK_ABORTED \/
  (pc' = TASK_END /\ pc = TASK_LOOP /\
   state_of w = Some ESP_RMAKER_STATE_STOP_REQUESTED).
Proof.
  assert (R : forall w0, in_dispatch_loop (snd (receive_work w0)) = true \/
                         snd (receive_work w0) = TASK_ABORTED).
  { intros w0. unfold receive_work, xQueueReceive. crunch; auto. }
  intros Hpc. destruct pc; simpl in Hpc; try discriminate; simpl.
  - destruct (esp_rmaker_priv_data w) as [h|] eqn:E; simpl; [|auto].
    destruct (state_eqb (state h) ESP_RMAKER_STATE_STOP_REQUESTED) eqn:Hs; simpl.
    + right; right. apply state_eqb_eq in Hs.
      unfold state_of. rewrite E. simpl. rewrite Hs. auto.
    + unfold esp_rmaker_handle_work_queue. rewrite E.
      destruct (R w) as [H|H]; auto.
  - destruct (invoke sdk app_work env e w) as [[] w1|w1]; [|auto].
    destruct (R w1) as [H|H]; auto.
  - auto.
Qed.

Lemma task_path_stopped (l : list (collaborators * world)) (pc : task_pc) :
  pc = TASK_DELETED \/ pc = TASK_ABORTED \/ pc = TASK_RETURNED ->
  task_path sdk app_work pc l = pc.
Proof.
  induction l as [|[env w] r IH]; intros H; simpl; [reflexivity|].
  destruct H as [H | [H | H]]; subst pc; simpl; apply IH; auto.
Qed.

Lemma task_path_app (l1 l2 : list (collaborators * world)) (pc : task_pc) :
  task_path sdk app_work pc (l1 ++ l2) =
  task_path sdk app_work (task_path sdk app_work pc l1) l2.
Proof.
  revert pc. induction l1 as [|[env w] r IH]; intros pc; simpl; [reflexivity|].
  apply IH.
Qed.

Lemma task_path_from_end (l : list (collaborators * world)) :
  task_path sdk app_work TASK_END l = TASK_END -> l = [].
Proof.
  destruct l as [|[env w] r]; [reflexivity|]. simpl.
  destruct (esp_rmaker_priv_data w); simpl;
    rewrite task_path_stopped by auto; discriminate.
Qed.

Lemma loop_path (l : list (collaborators * world)) :
  forall pc,
  in_dispatch_loop pc = true ->
  task_path sdk app_work pc l = TASK_END ->
  exists l1 env w,
    l = l1 ++ [(env, w)] /\
    task_path sdk app_work pc l1 = TASK_LOOP /\
    state_of w = Some ESP_RMAKER_STATE_STOP_REQUESTED.
Proof.
  induction l as [|[env w] r IH]; intros pc Hpc Hend; simpl in Hend.
  - subst pc. discriminate Hpc.
  - destruct (loop_step env pc w Hpc) as [H | [H | (H & Hl & Hs)]].
    + destruct (IH _ H Hend) as (l1 & env1 & w1 & -> & P & S).
      exists ((env, w) :: l1), env1, w1. repeat split; assumption.
    + rewrite H, task_path_stopped in Hend by auto. discriminate Hend.
    + rewrite H in Hend. apply task_path_from_end in Hend. subst r.
      exists [], env, w. subst pc. repeat split. exact Hs.
Qed.

(** The two gotos and the loop test: a step arrives at [rmaker_end] from
    the test of the [while] on reading STOP_REQUESTED, or from the report
    that follows the connect when it fails (lines 337-344), and from nowhere
    else. *)
Lemma step_to_end (env : collaborators) (pc : task_pc) (w : world) :
  snd (esp_rmaker_task sdk app_work env pc w) = TASK_END ->
  (pc = TASK_LOOP /\ state_of w = Some ESP_RMAKER_STATE_STOP_REQUESTED) \/
  (pc = TASK_REPORT /\
   (report_node_config_r env <> ESP_OK \/ report_node_state_r env <> ESP_OK \/
    register_for_set_params_r env <> ESP_OK)).
Proof.
  assert (R : forall w0, snd (receive_work w0) <> TASK_END).
  { intros w0. unfold receive_work, xQueueReceive. crunch; discriminate. }
  destruct pc; simpl; try discriminate.
  - crunch; discriminate.
  - crunch; discriminate.
  - crunch; discriminate.
  - unfold esp_rmaker_get_mqtt_config. crunch; discriminate.
  - crunch; discriminate.
  - unfold esp_rmaker_report_node_config_and_state.
    destruct (neq_ok (report_node_config_r env)) eqn:A; simpl.
    + apply neq_ok_true in A. auto.
    + destruct (neq_ok (report_node_state_r env)) eqn:B; simpl.
      * apply neq_ok_true in B. auto.
      * destruct (neq_ok (register_for_set_params_r env)) eqn:C; simpl.
        -- apply neq_ok_true in C. auto.
        -- discriminate.
  - destruct (esp_rmaker_priv_data w) as [h|] eqn:E; [|discriminate].
    destruct (state_eqb (state h) ESP_RMAKER_STATE_STOP_REQUESTED) eqn:Hs; simpl.
    + intros _. left. apply state_eqb_eq in Hs.
      unfold state_of. rewrite E. simpl. rewrite Hs. auto.
    + unfold esp_rmaker_handle_work_queue. rewrite E.
      intros H. contradiction (R w).
  - destruct (invoke sdk app_work env e w) as [[] w1|w1]; [|discriminate].
    intros H. contradiction (R w1).
  - crunch; discriminate.
Qed.

(** A failed report or a failed registration for parameter updates takes
    the task to [rmaker_end] and leaves the handle as the connect left it:
    in state STARTED. *)
Lemma report_failure_goes_to_end (env : collaborators) (w : world) :
  report_node_config_r env <> ESP_OK \/ report_node_state_r env <> ESP_OK \/
  register_for_set_params_r env <> ESP_OK ->
  snd (esp_rmaker_task sdk app_work env TASK_REPORT w) = TASK_END /\
  esp_rmaker_priv_data (fst (esp_rmaker_task sdk app_work env TASK_REPORT w))
  = esp_rmaker_priv_data w.
Proof.
  intros H. simpl. unfold esp_rmaker_report_node_config_and_state.
  destruct (neq_ok (report_node_config_r env)) eqn:A; simpl; [auto|].
  destruct (neq_ok (report_node_state_r env)) eqn:B; simpl; [auto|].
  destruct (neq_ok (register_for_set_params_r env)) eqn:C; simpl; [auto|].
  apply neq_ok_false in A, B, C. destruct H as [H | [H | H]]; contradiction.
Qed.

(** Over the whole system: an operation that brings the state of a handle
    to INIT_DONE is the step of a task that stands at [rmaker_end]. *)
Lemma init_done_only_by_teardown (env : collaborators) (o : sys_op) (w : world)
  (h : esp_rmaker_priv_data_t) :
  esp_rmaker_priv_data w = Some h ->
  state h <> ESP_RMAKER_STATE_INIT_DONE ->
  state_of (world_of (sys_step sdk app_work env o w))
    = Some ESP_RMAKER_STATE_INIT_DONE ->
  exists tid, o = Sys_task tid /\ nth_error (tasks w) tid = Some TASK_END.
Proof.
  intros E Hs. destruct o as [c | b i | tid]; simpl.
  - destruct (run_api_keeps_running env c w h E Hs) as (w1 & h1 & R1 & E1 & S1).
    rewrite R1. unfold state_of. simpl. rewrite E1. simpl.
    intros F. inversion F. contradiction.
  - unfold deliver_event, esp_rmaker_event_handler, xEventGroupSetBits, state_of.
    intros F. exfalso.
    assert (K : esp_rmaker_priv_data
                  (if handler_registered w
                   then if is_IP_EVENT b && (i =? IP_EVENT_STA_GOT_IP)
                        then match wifi_event_group w with
                             | Some g =>
                                 set_event_groups
                                   (replace_nth g true (event_groups w)) w
                             | None => w
                             end
                        else w
                   else w) = Some h)
      by (crunch; exact E).
    rewrite K in F. simpl in F. inversion F. contradiction.
  - unfold task_step.
    destruct (nth_error (tasks w) tid) as [pc|] eqn:T.
    + pose proof (task_init_done_only_at_end env pc w h E Hs) as K.
      destruct (esp_rmaker_task sdk app_work env pc w) as [w' pc'].
      intros F. exists tid. split; [reflexivity|].
      rewrite T. f_equal. apply K.
      destruct (work_faults sdk app_work env pc w); exact F.
    + unfold state_of. simpl. rewrite E. simpl.
      intros F. inversion F. contradiction.
Qed.

(** C6, as the code has it.  (a) When the test of the [while] reads
    STOP_REQUESTED the task leaves the loop for [rmaker_end], and (b) the
    step at [rmaker_end] disconnects MQTT, clears [mqtt_connected], sets
    the state to INIT_DONE and deletes the task.  (c) [rmaker_end] is the
    only program point whose step brings the state of a handle to
    INIT_DONE, (d) no application call does while the handle is in another
    state, and so (e) whatever operation of the whole system brings the
    state to INIT_DONE is the step of a task standing at [rmaker_end].
    (f) A task in the dispatch loop, whatever the other contexts do between
    its steps, arrives at [rmaker_end] only by the step in which the test of
    the [while] read STOP_REQUESTED.  (g) But the loop test is not the only
    way there: a step arrives at [rmaker_end] either from the loop test on
    STOP_REQUESTED or from the report that follows the connect, when the
    node report or the registration for parameter updates fails; and (h)
    that failure does take the task to [rmaker_end], with the handle still
    in the state STARTED the connect wrote and no stop requested. *)
Theorem teardown_only_on_stop_request :
  (forall env w h,
     esp_rmaker_priv_data w = Some h ->
     state h = ESP_RMAKER_STATE_STOP_REQUESTED ->
     esp_rmaker_task sdk app_work env TASK_LOOP w = (w, TASK_END)) /\
  (forall env w h,
     esp_rmaker_priv_data w = Some h ->
     esp_rmaker_task sdk app_work env TASK_END w =
     (set_priv (Some (set_state ESP_RMAKER_STATE_INIT_DONE
                        (set_mqtt_connected false h)))
        (emit Mqtt_disconnect w),
      TASK_DELETED)) /\
  (forall env pc w h,
     esp_rmaker_priv_data w = Some h ->
     state h <> ESP_RMAKER_STATE_INIT_DONE ->
     state_of (fst (esp_rmaker_task sdk app_work env pc w)) =
       Some ESP_RMAKER_STATE_INIT_DONE ->
     pc = TASK_END) /\
  (forall env c w h,
     esp_rmaker_priv_data w = Some h ->
     state h <> ESP_RMAKER_STATE_INIT_DONE ->
     exists w',
       run_api sdk env c w = Returns tt w' /\
       state_of w' <> Some ESP_RMAKER_STATE_INIT_DONE) /\
  (forall env o w h,
     esp_rmaker_priv_data w = Some h ->
     state h <> ESP_RMAKER_STATE_INIT_DONE ->
     state_of (world_of (sys_step sdk app_work env o w))
       = Some ESP_RMAKER_STATE_INIT_DONE ->
     exists tid, o = Sys_task tid /\ nth_error (tasks w) tid = Some TASK_END) /\
  (forall l pc,
     in_dispatch_loop pc = true ->
     task_path sdk app_work pc l = TASK_END ->
     exists l1 env w,
       l = l1 ++ [(env, w)] /\
       task_path sdk app_work pc l1 = TASK_LOOP /\
       state_of w = Some ESP_RMAKER_STATE_STOP_REQUESTED) /\
  (forall env pc w,
     snd (esp_rmaker_task sdk app_work env pc w) = TASK_END ->
     (pc = TASK_LOOP /\ state_of w = Some ESP_RMAKER_STATE_STOP_REQUESTED) \/
     (pc = TASK_REPORT /\
      (report_node_config_r env <> ESP_OK \/ report_node_state_r env <> ESP_OK \/
       register_for_set_params_r env <> ESP_OK))) /\
  (forall env w h,
     esp_rmaker_priv_data w = Some h ->
     state h = ESP_RMAKER_STATE_STARTED ->
     report_node_config_r env <> ESP_OK \/ report_node_state_r env <> ESP_OK \/
     register_for_set_params_r env <> ESP_OK ->
     let r := esp_rmaker_task sdk app_work env TASK_REPORT w in
     snd r = TASK_END /\
     state_of (fst r) = Some ESP_RMAKER_STATE_STARTED /\
     forall env',
       state_of (fst (esp_rmaker_task sdk app_work env' TASK_END (fst r)))
       = Some ESP_RMAKER_STATE_INIT_DONE).
Proof.
  split; [|split; [|split; [|split; [|split; [|split; [|split]]]]]].
  - intros env w h E Hs. simpl. rewrite E, Hs. reflexivity.
  - intros env w h E. simpl. rewrite E. reflexivity.
  - intros env pc w h. apply task_init_done_only_at_end.
  - intros env c w h E Hs.
    destruct (run_api_keeps_running env c w h E Hs) as (w' & h' & R' & E' & S').
    exists w'. split; [exact R'|].
    unfold state_of. rewrite E'. simpl. congruence.
  - intros env o w h. apply init_done_only_by_teardown.
  - intros l pc. apply loop_path.
  - intros env pc w. apply step_to_end.
  - intros env w h E Hs F r.
    destruct (report_failure_goes_to_end env w F) as [P K]. fold r in P, K.
    split; [exact P|]. split.
    + unfold state_of. rewrite K, E. simpl. rewrite Hs. reflexivity.
    + intros env'. simpl. rewrite K, E. reflexivity.
Qed.

Lemma start_keeps_handle (env : collaborators) (w : world) :
  esp_rmaker_priv_data (snd (esp_rmaker_start env w)) = esp_rmaker_priv_data w.
Proof. unfold esp_rmaker_start. crunch; simpl; congruence. Qed.

Ltac settle :=
  intros; inj_pairs; simpl in *;
  first [assumption | exact I | discriminate | congruence | auto].

(** ** Every handle in use has its queue

    [esp_rmaker_queue_work] and the core task pass the queue of the handle
    to FreeRTOS without testing it; no world reached from boot has a handle
    without one. *)

Lemma run_api_keeps_queue (env : collaborators) (c : api_call) (w w' : world) :
  has_queue w -> run_api sdk env c w = Returns tt w' -> has_queue w'.
Proof.
  assert (Hinit : forall config w0 err w1,
            has_queue w0 ->
            esp_rmaker_init sdk env config w0 = Returns err w1 -> has_queue w1).
  { intros config w0 err w1 H0 R. unfold has_queue.
    destruct (init_outcome env config w0)
      as [[_ E] | [(_ & _ & N & _)
         | [(_ & _ & cfg & h & _ & Hh & (_ & _ & _ & Q & _) & _) | (_ & _ & E)]]];
      rewrite R in *; simpl in *.
    - inversion E; subst. exact H0.
    - rewrite N. exact I.
    - rewrite Hh, Q. discriminate.
    - discriminate E. }
  assert (Hreg : forall n w0,
            has_queue w0 -> has_queue (snd (esp_rmaker_register_node n w0))).
  { intros n w0. unfold has_queue, esp_rmaker_register_node.
    crunch; settle. }
  intros H. destruct c; simpl.
  - destruct (esp_rmaker_init sdk env config w) as [err w1|w1] eqn:R; simpl;
      intros F; inversion F; subst.
    apply (Hinit config w err w' H R).
  - intros F; inversion F; subst. apply Hreg, H.
  - unfold esp_rmaker_node_init.
    destruct (esp_rmaker_init sdk env config w) as [err w1|w1] eqn:R; simpl;
      [|discriminate].
    specialize (Hinit config w err w1 H R).
    destruct (neq_ok err); simpl; [intros F; inversion F; subst; exact Hinit|].
    unfold esp_rmaker_node_create.
    destruct (node_create_r env) as [a|];
      [|simpl; intros F; inversion F; subst; exact Hinit].
    specialize (Hreg (Some a) (alloc (Blk_node a) w1) Hinit).
    destruct (esp_rmaker_register_node (Some a) (alloc (Blk_node a) w1))
      as [err2 w2].
    destruct (neq_ok err2); simpl; intros F; inversion F; subst; exact Hreg.
  - intros F; inversion F; subst. unfold has_queue in *.
    destruct (esp_rmaker_priv_data w) as [h|] eqn:E.
    + destruct (state_eqb (state h) ESP_RMAKER_STATE_INIT_DONE) eqn:Hs.
      * apply state_eqb_eq in Hs.
        destruct (node_deinit_done n w h E Hs) as (_ & N & _).
        rewrite N. exact I.
      * apply state_eqb_neq in Hs.
        rewrite (node_deinit_refused n w h E Hs). simpl. rewrite E. exact H.
    + unfold esp_rmaker_node_deinit. rewrite E. simpl. rewrite E. exact I.
  - intros F; inversion F; subst. exact H.
  - intros F; inversion F; subst. exact H.
  - intros F; inversion F; subst. unfold has_queue in *.
    unfold esp_rmaker_report_node_details, esp_rmaker_queue_work, xQueueSend.
    crunch; settle.
  - intros F; inversion F; subst. unfold has_queue in *.
    unfold esp_rmaker_queue_work, xQueueSend. crunch; settle.
  - intros F; inversion F; subst. unfold has_queue in *.
    unfold esp_rmaker_start. crunch; settle.
  - intros F; inversion F; subst. unfold has_queue in *.
    unfold esp_rmaker_stop. crunch; settle.
Qed.

Lemma run_apis_keep_queue (l : list (collaborators * api_call)) (w w' : world) :
  has_queue w -> run_apis sdk l w = Returns tt w' -> has_queue w'.
Proof.
  revert w. induction l as [|[env c] r IH]; simpl; intros w H.
  - intros F; inversion F; subst. exact H.
  - destruct (run_api sdk env c w) as [[] w1|w1] eqn:R; [|discriminate].
    apply IH. apply (run_api_keeps_queue env c w w1 H R).
Qed.

Lemma invoke_keeps_queue (env : collaborators)
  (e : esp_rmaker_work_queue_entry_t) (w w' : world) :
  has_queue w -> invoke sdk app_work env e w = Returns tt w' -> has_queue w'.
Proof.
  intros H. unfold invoke. destruct (work_fn e).
  - intros F; inversion F; subst.
    unfold __esp_rmaker_report_node_config_and_state,
      esp_rmaker_report_node_config_and_state.
    crunch; settle.
  - apply run_apis_keep_queue. exact H.
Qed.

Lemma receive_work_keeps_queue (w : world) :
  has_queue w -> has_queue (fst (receive_work w)).
Proof.
  unfold has_queue, receive_work, xQueueReceive.
  crunch; settle.
Qed.

(** A step in which the work function returns, if one is run. *)
Lemma task_keeps_queue (env : collaborators) (pc : task_pc) (w : world) :
  work_faults sdk app_work env pc w = false ->
  has_queue w -> has_queue (fst (esp_rmaker_task sdk app_work env pc w)).
Proof.
  intros Hf H. destruct pc; simpl; try exact H.
  - unfold has_queue in *. crunch; settle.
  - crunch; settle.
  - unfold has_queue in *. crunch; settle.
  - unfold has_queue, esp_rmaker_get_mqtt_config, upd_priv in *. crunch; settle.
  - unfold has_queue in *. crunch; settle.
  - unfold esp_rmaker_report_node_config_and_state. crunch; settle.
  - unfold esp_rmaker_handle_work_queue.
    destruct (esp_rmaker_priv_data w) eqn:E; [|exact H].
    destruct (negb _); [|exact H].
    apply receive_work_keeps_queue, H.
  - simpl in Hf.
    destruct (invoke sdk app_work env e w) as [[] w1|w1] eqn:R; [|discriminate].
    apply receive_work_keeps_queue. apply (invoke_keeps_queue env e w w1 H R).
  - unfold has_queue in *. crunch; settle.
Qed.

Lemma run_keeps_queue (l : list (collaborators * sys_op)) (w : world) :
  has_queue w -> has_queue (run sdk app_work l w).
Proof.
  revert w. induction l as [|[env o] r IH]; simpl; intros w H; [exact H|].
  destruct (sys_step sdk app_work env o w) as [[] w1|w1] eqn:R; [|exact H].
  apply IH. destruct o as [c | b i | tid]; simpl in R.
  - apply (run_api_keeps_queue env c w w1 H R).
  - inversion R; subst.
    unfold deliver_event, esp_rmaker_event_handler. crunch; settle.
  - unfold task_step in R.
    destruct (nth_error (tasks w) tid) as [pc|];
      [|inversion R; subst; exact H].
    destruct (work_faults sdk app_work env pc w) eqn:Hf.
    + destruct (esp_rmaker_task sdk app_work env pc w); discriminate R.
    + pose proof (task_keeps_queue env pc w Hf H) as H1.
      destruct (esp_rmaker_task sdk app_work env pc w) as [w2 pc'].
      inversion R; subst. exact H1.
Qed.

Lemma reachable_handle_has_queue (l : list (collaborators * sys_op)) :
  has_queue (run sdk app_work l boot).
Proof. apply run_keeps_queue. exact I. Qed.

(** The window the state test of [esp_rmaker_node_deinit] leaves open:
    [esp_rmaker_start] does not write the state, the task does when it
    first runs, so until then de-initialisation is still accepted. *)
Lemma node_deinit_before_task_runs (env : collaborators) (n : ptr) (w : world)
  (h : esp_rmaker_priv_data_t) :
  esp_rmaker_priv_data w = Some h ->
  state h = ESP_RMAKER_STATE_INIT_DONE ->
  fst (esp_rmaker_node_deinit n (snd (esp_rmaker_start env w))) = ESP_OK.
Proof.
  intros E Hs.
  apply (node_deinit_done n _ h); [|exact Hs].
  rewrite start_keeps_handle. exact E.
Qed.

(** ** Failures of the startup sequence *)


(** ** Draining the work queue *)

Lemma receive_work_next (w : world) (h : esp_rmaker_priv_data_t) (q : Queue_t)
  (e : esp_rmaker_work_queue_entry_t) (rest : list esp_rmaker_work_queue_entry_t) :
  esp_rmaker_priv_data w = Some h -> work_queue h = Some q ->
  uxItems q = e :: rest ->
  receive_work w =
  (set_priv (Some (set_work_queue
                     (Some {| uxLength := uxLength q; uxItems := rest |}) h)) w,
   TASK_WQ_INVOKE e).
Proof.
  intros E Q I. unfold receive_work, xQueueReceive. rewrite E, Q, I. reflexivity.
Qed.

Lemma receive_work_empty (w : world) (h : esp_rmaker_priv_data_t) (q : Queue_t) :
  esp_rmaker_priv_data w = Some h -> work_queue h = Some q ->
  uxItems q = [] ->
  receive_work w = (w, TASK_DELAY).
Proof.
  intros E Q I. unfold receive_work, xQueueReceive. rewrite E, Q, I. reflexivity.
Qed.

(** Whenever [esp_rmaker_handle_work_queue] is left for [vTaskDelay], the
    queue is empty. *)
Lemma receive_work_delay (w : world) :
  snd (receive_work w) = TASK_DELAY ->
  fst (receive_work w) = w /\ queued w = [].
Proof.
  unfold receive_work, xQueueReceive, queued.
  destruct (esp_rmaker_priv_data w) as [h|]; simpl; [|discriminate].
  destruct (work_queue h) as [q|]; simpl; [|discriminate].
  destruct (uxItems q); simpl; [auto | discriminate].
Qed.

Lemma drain_from_invoke (its : list esp_rmaker_work_queue_entry_t) :
  forall envs e w h q,
  esp_rmaker_priv_data w = Some h -> work_queue h = Some q ->
  uxItems q = its ->
  length envs = S (length its) ->
  leaves_queue sdk app_work e -> Forall (leaves_queue sdk app_work) its ->
  let r := task_steps sdk app_work envs (TASK_WQ_INVOKE e) w in
  snd r = TASK_DELAY /\ queued (fst r) = [] /\
  invoked (trace (fst r)) = invoked (trace w) ++ e :: its.
Proof.
  induction its as [|e' rest IH]; intros envs e w h q E Q I L He Hits;
    destruct envs as [|env envs']; simpl in L; try discriminate L.
  - destruct envs'; [|discriminate L].
    cbn [task_steps esp_rmaker_task].
    pose proof (invoke_invoked env e w) as Hi.
    destruct (He env w h E) as (w1 & h1 & R1 & E1 & Q1). rewrite Q in Q1.
    rewrite R1 in *. cbn [world_of] in Hi.
    rewrite (receive_work_empty _ h1 q E1 Q1 I).
    cbn [fst snd]. repeat split.
    + unfold queued. rewrite E1, Q1, I. reflexivity.
    + exact Hi.
  - cbn [task_steps esp_rmaker_task].
    pose proof (invoke_invoked env e w) as Hi.
    destruct (He env w h E) as (w1 & h1 & R1 & E1 & Q1). rewrite Q in Q1.
    rewrite R1 in *. cbn [world_of] in Hi.
    rewrite (receive_work_next _ h1 q e' rest E1 Q1 I).
    inversion Hits as [|x y He' Hrest]; subst.
    edestruct (IH envs' e'
                 (set_priv (Some (set_work_queue
                     (Some {| uxLength := uxLength q; uxItems := rest |}) h1))
                    w1))
      as (P & Z & T); [reflexivity | reflexivity | reflexivity | lia
                      | exact He' | exact Hrest |].
    repeat split; [exact P | exact Z |].
    rewrite T. cbn [trace set_priv].
    rewrite Hi, <- app_assoc. reflexivity.
Qed.

(** The work function of this file only reports: it leaves the queue. *)
Lemma report_work_leaves_queue (p : ptr) :
  leaves_queue sdk app_work
    {| work_fn := WORK_report_node_config_and_state; priv_data := p |}.
Proof.
  intros env w h E. unfold invoke. simpl.
  unfold __esp_rmaker_report_node_config_and_state,
    esp_rmaker_report_node_config_and_state.
  crunch; eexists; eexists; (split; [reflexivity|]); split;
    first [eassumption | reflexivity].
Qed.

(** So does a work function of the application that makes no call into
    this file. *)
Lemma quiet_work_leaves_queue (f : addr) (p : ptr) :
  app_work f p = [] ->
  leaves_queue sdk app_work {| work_fn := WORK_app f; priv_data := p |}.
Proof.
  intros Hq env w h E. unfold invoke. simpl. rewrite Hq. simpl. eauto.
Qed.

Lemma receive_work_trace (w : world) : trace (fst (receive_work w)) = trace w.
Proof. unfold receive_work, xQueueReceive. crunch; reflexivity. Qed.

(** *** What an invocation does *)

(** A work function that makes no call into the file returns, and leaves
    the world as it was but for the trace of the invocation. *)
Lemma invoke_no_call (env : collaborators) (e : esp_rmaker_work_queue_entry_t)
  (w : world) :
  makes_no_call app_work e ->
  invoke sdk app_work env e w
  = Returns tt (set_trace (trace w ++ invocation_trace (env, e)) w).
Proof.
  unfold makes_no_call, invoke, invocation_trace, report_trace. cbn [fst snd].
  destruct (work_fn e) as [|f].
  - intros _.
    unfold __esp_rmaker_report_node_config_and_state,
      esp_rmaker_report_node_config_and_state, emit.
    destruct (neq_ok (report_node_config_r env)); cbn [snd];
      [|destruct (neq_ok (report_node_state_r env)); cbn [snd]];
      unfold set_trace; cbn [trace esp_rmaker_priv_data wifi_event_group
        event_groups handler_registered heap tasks];
      repeat rewrite <- app_assoc; reflexivity.
  - intros ->. reflexivity.
Qed.

Lemma drain_no_call (its : list esp_rmaker_work_queue_entry_t) :
  forall envs e w h q,
  esp_rmaker_priv_data w = Some h -> work_queue h = Some q ->
  uxItems q = its ->
  length envs = S (length its) ->
  makes_no_call app_work e -> Forall (makes_no_call app_work) its ->
  let r := task_steps sdk app_work envs (TASK_WQ_INVOKE e) w in
  trace (fst r)
  = trace w ++ flat_map invocation_trace (combine envs (e :: its)).
Proof.
  induction its as [|e' rest IH]; intros envs e w h q E Q I L He Hits;
    destruct envs as [|env envs']; simpl in L; try discriminate L.
  - destruct envs'; [|discriminate L].
    cbn [task_steps esp_rmaker_task].
    rewrite (invoke_no_call env e w He).
    rewrite (receive_work_empty
               (set_trace (trace w ++ invocation_trace (env, e)) w) h q E Q I).
    cbn [fst snd combine flat_map trace set_trace]. rewrite app_nil_r.
    reflexivity.
  - cbn [task_steps esp_rmaker_task].
    rewrite (invoke_no_call env e w He).
    rewrite (receive_work_next
               (set_trace (trace w ++ invocation_trace (env, e)) w)
               h q e' rest E Q I).
    inversion Hits as [|x y He' Hrest]; subst.
    rewrite (IH envs' e'
               (set_priv (Some (set_work_queue
                   (Some {| uxLength := uxLength q; uxItems := rest |}) h))
                  (set_trace (trace w ++ invocation_trace (env, e)) w))
               (set_work_queue
                   (Some {| uxLength := uxLength q; uxItems := rest |}) h)
               {| uxLength := uxLength q; uxItems := rest |}
               eq_refl eq_refl eq_refl) by (assumption || lia).
    cbn [trace set_priv set_trace combine flat_map].
    rewrite <- app_assoc. reflexivity.
Qed.

(** *** While the agent runs, work functions can only add to the queue

    In a state other than INIT_DONE no call into the file drops the handle
    or takes an entry out of the queue: [esp_rmaker_node_deinit] is
    refused, and [esp_rmaker_queue_work] adds at the tail. *)
Lemma run_api_appends (env : collaborators) (c : api_call) (w : world)
  (h : esp_rmaker_priv_data_t) (q : Queue_t) :
  esp_rmaker_priv_data w = Some h ->
  state h <> ESP_RMAKER_STATE_INIT_DONE ->
  work_queue h = Some q ->
  exists w' h' more,
    run_api sdk env c w = Returns tt w' /\
    esp_rmaker_priv_data w' = Some h' /\
    state h' <> ESP_RMAKER_STATE_INIT_DONE /\
    work_queue h' = Some {| uxLength := uxLength q;
                            uxItems := uxItems q ++ more |}.
Proof.
  intros E Hs Q.
  assert (Same : forall w0,
            esp_rmaker_priv_data w0 = Some h ->
            exists w' h' more,
              Returns tt w0 = Returns tt w' /\
              esp_rmaker_priv_data w' = Some h' /\
              state h' <> ESP_RMAKER_STATE_INIT_DONE /\
              work_queue h' = Some {| uxLength := uxLength q;
                                      uxItems := uxItems q ++ more |}).
  { intros w0 E0. exists w0, h, []. rewrite app_nil_r.
    repeat split; try assumption. rewrite Q. destruct q; reflexivity. }
  assert (Send : forall f p,
            exists w' h' more,
              Returns tt (snd (esp_rmaker_queue_work f p w)) = Returns tt w' /\
              esp_rmaker_priv_data w' = Some h' /\
              state h' <> ESP_RMAKER_STATE_INIT_DONE /\
              work_queue h' = Some {| uxLength := uxLength q;
                                      uxItems := uxItems q ++ more |}).
  { intros f p. unfold esp_rmaker_queue_work, xQueueSend. rewrite E, Q.
    destruct (length (uxItems q) <? uxLength q)%nat; cbn [Z.eqb pdTRUE errQUEUE_FULL snd Pos.eqb].
    - eexists; eexists; exists [{| work_fn := f; priv_data := p |}].
      split; [reflexivity|]. split; [reflexivity|]. split; [exact Hs | reflexivity].
    - apply Same. exact E. }
  destruct c; simpl.
  - rewrite (init_already env config w h E). apply Same. exact E.
  - unfold esp_rmaker_register_node. rewrite E.
    destruct (node h); [apply Same; exact E|].
    destruct n; [|apply Same; exact E].
    cbn [snd]. eexists; eexists; exists [].
    split; [reflexivity|]. split; [reflexivity|]. split; [exact Hs|].
    cbn [work_queue set_node]. rewrite Q, app_nil_r. destruct q; reflexivity.
  - rewrite (node_init_already env config name type w h E). apply Same. exact E.
  - rewrite (node_deinit_refused n w h E Hs). apply Same. exact E.
  - apply Same. exact E.
  - apply Same. exact E.
  - apply Send.
  - apply Send.
  - apply Same. rewrite start_keeps_handle. exact E.
  - unfold esp_rmaker_stop. rewrite E. cbn [snd].
    eexists; eexists; exists [].
    split; [reflexivity|]. split; [reflexivity|]. split; [discriminate|].
    cbn [work_queue set_state]. rewrite Q, app_nil_r. destruct q; reflexivity.
Qed.

Lemma run_apis_append (l : list (collaborators * api_call)) :
  forall (w : world) (h : esp_rmaker_priv_data_t) (q : Queue_t),
  esp_rmaker_priv_data w = Some h ->
  state h <> ESP_RMAKER_STATE_INIT_DONE ->
  work_queue h = Some q ->
  exists w' h' more,
    run_apis sdk l w = Returns tt w' /\
    esp_rmaker_priv_data w' = Some h' /\
    state h' <> ESP_RMAKER_STATE_INIT_DONE /\
    work_queue h' = Some {| uxLength := uxLength q;
                            uxItems := uxItems q ++ more |}.
Proof.
  induction l as [|[env c] r IH]; intros w h q E Hs Q; simpl.
  - exists w, h, []. rewrite app_nil_r.
    repeat split; try assumption. rewrite Q. destruct q; reflexivity.
  - destruct (run_api_appends env c w h q E Hs Q)
      as (w1 & h1 & m1 & R1 & E1 & S1 & Q1).
    rewrite R1.
    destruct (IH w1 h1 _ E1 S1 Q1) as (w2 & h2 & m2 & R2 & E2 & S2 & Q2).
    exists w2, h2, (m1 ++ m2).
    split; [exact R2|]. split; [exact E2|]. split; [exact S2|].
    rewrite Q2. cbn [uxLength uxItems]. rewrite app_assoc. reflexivity.
Qed.

Lemma invoke_appends (env : collaborators) (e : esp_rmaker_work_queue_entry_t)
  (w : world) (h : esp_rmaker_priv_data_t) (q : Queue_t) :
  esp_rmaker_priv_data w = Some h ->
  state h <> ESP_RMAKER_STATE_INIT_DONE ->
  work_queue h = Some q ->
  exists w' h' more,
    invoke sdk app_work env e w = Returns tt w' /\
    esp_rmaker_priv_data w' = Some h' /\
    state h' <> ESP_RMAKER_STATE_INIT_DONE /\
    work_queue h' = Some {| uxLength := uxLength q;
                            uxItems := uxItems q ++ more |}.
Proof.
  intros E Hs Q. unfold invoke. destruct (work_fn e).
  - exists (__esp_rmaker_report_node_config_and_state env (priv_data e)
              (emit (Invoke e) w)), h, [].
    split; [reflexivity|]. rewrite app_nil_r.
    split; [|split; [exact Hs | rewrite Q; destruct q; reflexivity]].
    unfold __esp_rmaker_report_node_config_and_state,
      esp_rmaker_report_node_config_and_state.
    crunch; exact E.
  - apply (run_apis_append _ _ h q); assumption.
Qed.

(** The queued items are taken oldest first whatever the work functions
    do: what they queue meanwhile waits behind. *)
Lemma drain_fifo (its : list esp_rmaker_work_queue_entry_t) :
  forall envs e w h q extra,
  esp_rmaker_priv_data w = Some h ->
  state h <> ESP_RMAKER_STATE_INIT_DONE ->
  work_queue h = Some q ->
  uxItems q = its ++ extra ->
  length envs = S (length its) ->
  let r := task_steps sdk app_work envs (TASK_WQ_INVOKE e) w in
  invoked (trace (fst r)) = invoked (trace w) ++ e :: its /\
  ((snd r = TASK_DELAY /\ queued (fst r) = []) \/
   exists e', snd r = TASK_WQ_INVOKE e').
Proof.
  induction its as [|e' rest IH]; intros envs e w h q extra E Hs Q I L;
    destruct envs as [|env envs']; simpl in L; try discriminate L.
  - destruct envs'; [|discriminate L].
    cbn [task_steps esp_rmaker_task].
    pose proof (invoke_invoked env e w) as Hi.
    destruct (invoke_appends env e w h q E Hs Q)
      as (w1 & h1 & more & R1 & E1 & S1 & Q1).
    rewrite R1 in *. cbn [world_of] in Hi.
    unfold receive_work, xQueueReceive. rewrite E1, Q1.
    cbn [uxItems uxLength].
    destruct (uxItems q ++ more) as [|x rest'] eqn:Ex; cbn [fst snd].
    + split; [exact Hi|]. left. split; [reflexivity|].
      unfold queued. rewrite E1, Q1. reflexivity.
    + split; [|right; eexists; reflexivity].
      cbn [trace set_priv]. exact Hi.
  - cbn [task_steps esp_rmaker_task].
    pose proof (invoke_invoked env e w) as Hi.
    destruct (invoke_appends env e w h q E Hs Q)
      as (w1 & h1 & more & R1 & E1 & S1 & Q1).
    rewrite R1 in *. cbn [world_of] in Hi.
    rewrite I in Q1. cbn [app] in Q1. rewrite <- app_assoc in Q1.
    rewrite (receive_work_next w1 h1 _ e' (rest ++ extra ++ more) E1 Q1 eq_refl).
    cbn [uxLength].
    edestruct (IH envs' e'
                 (set_priv (Some (set_work_queue
                     (Some {| uxLength := uxLength q;
                              uxItems := rest ++ extra ++ more |}) h1)) w1))
      as (T & P); [reflexivity | exact S1 | reflexivity | reflexivity | lia |].
    split; [|exact P].
    rewrite T. cbn [trace set_priv]. rewrite Hi, <- app_assoc. reflexivity.
Qed.

(** C8.  (a) From the test of the [while] with the state not
    STOP_REQUESTED and [its] waiting in the queue, when none of the queued
    work functions changes the queue, the task alone takes one step per
    item and one more, and is then at [vTaskDelay] with the queue empty,
    having invoked exactly [its], oldest first.  (b) When the work functions
    make no call into the file, the trace of that round is, item by item
    and oldest first, the invocation followed by the calls the work function
    made: each function has run to its end before the next item is taken.
    (c) Whatever the work functions do while the agent runs (queue more
    work, stop the agent), after those steps exactly [its] have been
    invoked, oldest first, and the task is at [vTaskDelay] with the queue
    empty or is running an item queued meanwhile: it has not gone back to
    the test of the [while].  (d, e) In every case
    [esp_rmaker_handle_work_queue] is left for [vTaskDelay] only with the
    queue empty.  (f) The step that runs a work function records the
    invocation, and (g) when the function is the report function of this
    file, the reports it makes; (h) when it is a function of the
    application, the calls of that function are all made in this step, and
    the next [xQueueReceive] comes after the last has returned; when one of
    them does not return, nor does the step return to the queue.  (i) After
    the delay comes the test of the [while] again. *)
Theorem work_queue_drained_in_order :
  (forall its envs w h q,
     esp_rmaker_priv_data w = Some h ->
     state h <> ESP_RMAKER_STATE_STOP_REQUESTED ->
     work_queue h = Some q -> uxItems q = its ->
     length envs = S (length its) ->
     Forall (leaves_queue sdk app_work) its ->
     let r := task_steps sdk app_work envs TASK_LOOP w in
     snd r = TASK_DELAY /\ queued (fst r) = [] /\
     invoked (trace (fst r)) = invoked (trace w) ++ its) /\
  (forall its envs w h q,
     esp_rmaker_priv_data w = Some h ->
     state h <> ESP_RMAKER_STATE_STOP_REQUESTED ->
     work_queue h = Some q -> uxItems q = its ->
     length envs = S (length its) ->
     Forall (makes_no_call app_work) its ->
     let r := task_steps sdk app_work envs TASK_LOOP w in
     trace (fst r)
     = trace w ++ flat_map invocation_trace (combine (tl envs) its)) /\
  (forall its envs w h q,
     esp_rmaker_priv_data w = Some h ->
     state h <> ESP_RMAKER_STATE_STOP_REQUESTED ->
     state h <> ESP_RMAKER_STATE_INIT_DONE ->
     work_queue h = Some q -> uxItems q = its ->
     length envs = S (length its) ->
     let r := task_steps sdk app_work envs TASK_LOOP w in
     invoked (trace (fst r)) = invoked (trace w) ++ its /\
     ((snd r = TASK_DELAY /\ queued (fst r) = []) \/
      exists e, snd r = TASK_WQ_INVOKE e)) /\
  (forall env w,
     snd (esp_rmaker_task sdk app_work env TASK_LOOP w) = TASK_DELAY ->
     queued (fst (esp_rmaker_task sdk app_work env TASK_LOOP w)) = []) /\
  (forall env e w,
     snd (esp_rmaker_task sdk app_work env (TASK_WQ_INVOKE e) w) = TASK_DELAY ->
     queued (fst (esp_rmaker_task sdk app_work env (TASK_WQ_INVOKE e) w)) = []) /\
  (forall env e w,
     invoked (trace (fst (esp_rmaker_task sdk app_work env (TASK_WQ_INVOKE e) w)))
     = invoked (trace w) ++ [e]) /\
  (forall env e w,
     work_fn e = WORK_report_node_config_and_state ->
     trace (fst (esp_rmaker_task sdk app_work env (TASK_WQ_INVOKE e) w))
     = trace w ++ Invoke e :: report_trace env) /\
  (forall env e f w,
     work_fn e = WORK_app f ->
     match run_apis sdk (app_work f (priv_data e)) (emit (Invoke e) w) with
     | Returns _ w1 =>
         esp_rmaker_task sdk app_work env (TASK_WQ_INVOKE e) w = receive_work w1
     | Faults w1 =>
         esp_rmaker_task sdk app_work env (TASK_WQ_INVOKE e) w = (w1, TASK_ABORTED)
     end) /\
  (forall env w,
     esp_rmaker_task sdk app_work env TASK_DELAY w = (w, TASK_LOOP)).
Proof.
  split; [|split; [|split; [|split; [|split; [|split; [|split; [|split]]]]]]].
  - intros its envs w h q E Hs Q I L Hits r. subst r.
    destruct envs as [|env envs']; [discriminate L|].
    cbn [task_steps esp_rmaker_task]. rewrite E.
    apply state_eqb_neq in Hs. rewrite Hs. cbn [negb].
    unfold esp_rmaker_handle_work_queue. rewrite E.
    destruct its as [|e rest].
    + rewrite (receive_work_empty w h q E Q I).
      destruct envs'; [|discriminate L].
      cbn [task_steps fst snd]. rewrite app_nil_r.
      repeat split. unfold queued. rewrite E, Q, I. reflexivity.
    + rewrite (receive_work_next w h q e rest E Q I).
      inversion Hits as [|x y He Hrest]; subst.
      simpl in L.
      edestruct (drain_from_invoke rest envs' e
                   (set_priv (Some (set_work_queue
                      (Some {| uxLength := uxLength q; uxItems := rest |}) h)) w))
        as (P & Z & T); [reflexivity | reflexivity | reflexivity | lia
                        | exact He | exact Hrest |].
      repeat split; [exact P | exact Z | exact T].
  - intros its envs w h q E Hs Q I L Hits r. subst r.
    destruct envs as [|env envs']; [discriminate L|].
    cbn [task_steps esp_rmaker_task tl]. rewrite E.
    apply state_eqb_neq in Hs. rewrite Hs. cbn [negb].
    unfold esp_rmaker_handle_work_queue. rewrite E.
    destruct its as [|e rest].
    + rewrite (receive_work_empty w h q E Q I).
      destruct envs'; [|discriminate L].
      cbn [task_steps fst snd combine flat_map]. rewrite app_nil_r. reflexivity.
    + rewrite (receive_work_next w h q e rest E Q I).
      inversion Hits as [|x y He Hrest]; subst.
      simpl in L.
      rewrite (drain_no_call rest envs' e
                 (set_priv (Some (set_work_queue
                    (Some {| uxLength := uxLength q; uxItems := rest |}) h)) w)
                 (set_work_queue
                    (Some {| uxLength := uxLength q; uxItems := rest |}) h)
                 {| uxLength := uxLength q; uxItems := rest |}
                 eq_refl eq_refl eq_refl) by (assumption || lia).
      reflexivity.
  - intros its envs w h q E Hs Hi Q I L r. subst r.
    destruct envs as [|env envs']; [discriminate L|].
    cbn [task_steps esp_rmaker_task]. rewrite E.
    apply state_eqb_neq in Hs. rewrite Hs. cbn [negb].
    unfold esp_rmaker_handle_work_queue. rewrite E.
    destruct its as [|e rest].
    + rewrite (receive_work_empty w h q E Q I).
      destruct envs'; [|discriminate L].
      cbn [task_steps fst snd]. rewrite app_nil_r.
      split; [reflexivity|]. left. split; [reflexivity|].
      unfold queued. rewrite E, Q, I. reflexivity.
    + rewrite (receive_work_next w h q e rest E Q I).
      simpl in L.
      edestruct (drain_fifo rest envs' e
                   (set_priv (Some (set_work_queue
                      (Some {| uxLength := uxLength q; uxItems := rest |}) h)) w)
                   (set_work_queue
                      (Some {| uxLength := uxLength q; uxItems := rest |}) h)
                   {| uxLength := uxLength q; uxItems := rest |} [])
        as (T & P);
        [reflexivity | exact Hi | reflexivity
        | cbn [uxItems]; rewrite app_nil_r; reflexivity | lia |].
      split; [exact T | exact P].
  - intros env w. simpl.
    destruct (esp_rmaker_priv_data w) as [h|] eqn:E; simpl; [|discriminate].
    destruct (negb _); simpl; [|discriminate].
    unfold esp_rmaker_handle_work_queue. rewrite E.
    intros H. destruct (receive_work_delay w H) as [F Z]. rewrite F. exact Z.
  - intros env e w. simpl.
    destruct (invoke sdk app_work env e w) as [[] w1|w1]; [|discriminate].
    intros H. destruct (receive_work_delay _ H) as [F Z]. rewrite F. exact Z.
  - intros env e w. simpl.
    pose proof (invoke_invoked env e w) as Hi.
    destruct (invoke sdk app_work env e w) as [[] w1|w1]; cbn [world_of] in Hi;
      [rewrite receive_work_trace|]; exact Hi.
  - intros env e w He. simpl.
    rewrite (invoke_no_call env e w)
      by (unfold makes_no_call; rewrite He; exact I).
    rewrite receive_work_trace. unfold invocation_trace. cbn [fst snd trace set_trace].
    rewrite He. reflexivity.
  - intros env e f w He. simpl. unfold invoke. rewrite He.
    destruct (run_apis sdk (app_work f (priv_data e)) (emit (Invoke e) w))
      as [[] w1|w1]; reflexivity.
  - reflexivity.
Qed.

(** ** Failing initialisation *)

Lemma init_ok_needs_credentials (env : collaborators)
  (config : option esp_rmaker_config_t) (w : world) :
  CONFIG_ESP_RMAKER_SELF_CLAIM sdk = false ->
  returned (esp_rmaker_init sdk env config w) = Some ESP_OK ->
  storage_get_node_id env <> None /\ get_mqtt_config_r env <> None.
Proof.
  intros Hsc. unfold esp_rmaker_init, init_abort, esp_rmaker_populate_node_id,
    esp_rmaker_get_mqtt_config.
  rewrite Hsc. crunch; intros H; try discriminate H; split; discriminate.
Qed.

Lemma init_failure_codes (env : collaborators) (cfg : esp_rmaker_config_t)
  (w : world) :
  CONFIG_ESP_RMAKER_SELF_CLAIM sdk = false ->
  esp_rmaker_priv_data w = None ->
  storage_init_r env = ESP_OK -> calloc_priv_data_ok env = true ->
  (storage_get_node_id env = None ->
   returned (esp_rmaker_init sdk env (Some cfg) w) = Some ESP_ERR_NO_MEM) /\
  (storage_get_node_id env <> None -> xQueueCreate_ok env = true ->
   get_mqtt_config_r env = None ->
   returned (esp_rmaker_init sdk env (Some cfg) w) = Some ESP_FAIL).
Proof.
  intros Hsc E Hst Hc.
  unfold esp_rmaker_init, init_abort, esp_rmaker_populate_node_id,
    esp_rmaker_get_mqtt_config.
  rewrite Hsc, E, Hc. apply neq_ok_false in Hst. rewrite Hst. cbn [negb].
  split.
  - intros Hn. rewrite Hn. reflexivity.
  - intros Hn Hq Hm. destruct (storage_get_node_id env); [|contradiction].
    rewrite Hq, Hm. reflexivity.
Qed.

(** C9.  In a build without self claiming, when storage holds no node id or
    no MQTT configuration is available, [esp_rmaker_init] called with the
    process-wide pointer [NULL] returns, with a code other than [ESP_OK],
    leaves the pointer [NULL], leaves the same blocks live as before the
    call (the handle, the node id and the work queue it allocated are
    freed), creates no task and posts no event.  With a configuration
    given, storage opened and the handle allocated, the code is
    [ESP_ERR_NO_MEM] when the node id is missing, and [ESP_FAIL] when the
    node id is there, the queue was created and the MQTT configuration is
    missing. *)
Theorem init_failure_releases_everything (env : collaborators)
  (config : option esp_rmaker_config_t) (w : world) :
  CONFIG_ESP_RMAKER_SELF_CLAIM sdk = false ->
  esp_rmaker_priv_data w = None ->
  storage_get_node_id env = None \/ get_mqtt_config_r env = None ->
  let r := esp_rmaker_init sdk env config w in
  (exists err, returned r = Some err /\ err <> ESP_OK) /\
  esp_rmaker_priv_data (world_of r) = None /\
  heap (world_of r) = heap w /\
  tasks (world_of r) = tasks w /\
  posted (trace (world_of r)) = posted (trace w) /\
  (forall cfg,
     config = Some cfg ->
     storage_init_r env = ESP_OK -> calloc_priv_data_ok env = true ->
     (storage_get_node_id env = None -> returned r = Some ESP_ERR_NO_MEM) /\
     (storage_get_node_id env <> None -> xQueueCreate_ok env = true ->
      get_mqtt_config_r env = None -> returned r = Some ESP_FAIL)).
Proof.
  intros Hsc E Hmiss r.
  assert (F : returned r <> Some ESP_OK).
  { intros Hok. destruct (init_ok_needs_credentials env config w Hsc Hok) as [A B].
    destruct Hmiss; contradiction. }
  destruct (init_outcome env config w)
    as [[N _] | [(_ & Hr & P & Hh & Ht & Hp & _)
       | [(_ & Hok & _) | (_ & Hf & _)]]].
  - contradiction.
  - split; [exact Hr|]. repeat split; try assumption.
    + intros Hn. subst config. apply (init_failure_codes env cfg w); assumption.
    + intros Hn Hq Hm. subst config.
      apply (init_failure_codes env cfg w); assumption.
  - contradiction.
  - exfalso. revert Hf. unfold init_faults, node_id_faults.
    rewrite Hsc. crunch; rewrite ?andb_false_r; discriminate.
Qed.

(** ** [esp_rmaker_node_init] after a successful [esp_rmaker_init] *)

(** C10.  When [esp_rmaker_init] succeeds inside [esp_rmaker_node_init] and
    the call still returns [NULL], it is the node that could not be created
    (the registration that follows a successful initialisation cannot
    fail), and the handle is left behind: allocated, in state INIT_DONE,
    with no node.  From then on [esp_rmaker_init] returns
    [ESP_ERR_INVALID_STATE] and [esp_rmaker_node_init] returns [NULL] and
    changes nothing, also after any calls other than
    [esp_rmaker_node_deinit]; [esp_rmaker_node_deinit] itself succeeds and
    clears the process-wide pointer. *)
Theorem node_init_leaves_handle_behind (env : collaborators)
  (config : option esp_rmaker_config_t) (name type : string) (w : world) :
  returned (esp_rmaker_init sdk env config w) = Some ESP_OK ->
  returned (esp_rmaker_node_init sdk env config name type w) = Some None ->
  let w' := world_of (esp_rmaker_node_init sdk env config name type w) in
  node_create_r env = None /\
  (exists h, esp_rmaker_priv_data w' = Some h /\
             state h = ESP_RMAKER_STATE_INIT_DONE /\ node h = None) /\
  (forall env' config' name' type',
     esp_rmaker_init sdk env' config' w' = Returns ESP_ERR_INVALID_STATE w' /\
     esp_rmaker_node_init sdk env' config' name' type' w' = Returns None w') /\
  (forall calls env' config' name' type',
     Forall not_deinit calls ->
     exists w2,
       run_apis sdk calls w' = Returns tt w2 /\
       esp_rmaker_node_init sdk env' config' name' type' w2 = Returns None w2) /\
  (forall n,
     fst (esp_rmaker_node_deinit n w') = ESP_OK /\
     esp_rmaker_priv_data (snd (esp_rmaker_node_deinit n w')) = None).
Proof.
  intros Hok Hnull w'.
  destruct (init_outcome env config w)
    as [[_ E] | [(_ & (err & R & F) & _)
       | [(_ & _ & cfg & h & _ & Hh & (Hs & Hn & _) & _) | (_ & _ & E)]]].
  - rewrite E in Hok. discriminate Hok.
  - rewrite R in Hok. inversion Hok. contradiction.
  - assert (K : node_create_r env = None /\
                w' = world_of (esp_rmaker_init sdk env config w)).
    { subst w'. revert Hnull. unfold esp_rmaker_node_init.
      destruct (esp_rmaker_init sdk env config w) as [err w1|w1];
        [|discriminate Hok].
      simpl in *. inversion Hok; subst err.
      cbn [neq_ok Z.eqb ESP_OK negb].
      unfold esp_rmaker_node_create.
      destruct (node_create_r env) as [a|]; [|auto].
      unfold esp_rmaker_register_node. cbn [esp_rmaker_priv_data alloc set_heap].
      rewrite Hh, Hn. simpl. discriminate. }
    destruct K as [Kc Kw]. rewrite Kw.
    split; [exact Kc|]. split; [exists h; auto|].
    split; [|split].
    + intros env' config' name' type'. split.
      * apply (init_already env' config' _ h Hh).
      * apply (node_init_already env' config' name' type' _ h Hh).
    + intros calls env' config' name' type' Hcalls.
      destruct (run_apis_keep_handle calls _ h Hcalls Hh) as (w2 & h2 & R2 & E2 & _).
      exists w2. split; [exact R2|].
      apply (node_init_already env' config' name' type' _ h2 E2).
    + intros n. destruct (node_deinit_done n _ h Hh Hs) as (A & B & _).
      split; assumption.
  - rewrite E in Hok. discriminate Hok.
Qed.

End Properties.

(** * The properties at sample inputs *)

(** Closed goals are settled by evaluation. *)
Ltac by_eval := vm_compute; first [reflexivity | discriminate].

Lemma single_live_handle_witness :
  let ops :=
    [(env_ok, Sys_api (Call_node_init (Some cfg_sample) "Switch" "esp.node.switch"));
     (env_ok, Sys_api (Call_node_init (Some cfg_sample) "Light" "esp.node.light"));
     (env_ok, Sys_api Call_start); task0;
     (env_ok, Sys_api (Call_node_deinit (Some 3%nat)))] in
  esp_rmaker_priv_data world_ready = Some (handle_of world_ready) /\
  one_handle (run sdk_plain app_quiet ops boot) /\
  (live Blk_priv_data (heap (run sdk_plain app_quiet ops boot)) <= 1)%nat /\
  esp_rmaker_init sdk_plain env_ok (Some cfg_sample) world_ready
  = Returns ESP_ERR_INVALID_STATE world_ready.
Proof.
  intros ops.
  assert (E : esp_rmaker_priv_data world_ready = Some (handle_of world_ready))
    by by_eval.
  destruct (single_live_handle sdk_plain app_quiet) as [A B].
  split; [exact E|].
  split; [exact (proj1 (A ops))|].
  split; [exact (proj2 (A ops))|].
  exact (B env_ok (Some cfg_sample) world_ready (handle_of world_ready) E).
Defined.

Lemma register_node_once_witness :
  let w1 := set_priv (Some (set_node (Some 3%nat) (handle_of world_init))) world_init in
  esp_rmaker_priv_data world_init = Some (handle_of world_init) /\
  node (handle_of world_init) = None /\
  esp_rmaker_register_node (Some 3%nat) world_init = (ESP_OK, w1) /\
  register_nodes [Some 4%nat; None; Some 3%nat] w1
  = ([ESP_ERR_INVALID_STATE; ESP_ERR_INVALID_STATE; ESP_ERR_INVALID_STATE], w1) /\
  exists w2,
    run_apis sdk_plain [(env_ok, Call_start); (env_ok, Call_stop)] w1
    = Returns tt w2 /\
    esp_rmaker_get_node w2 = Some 3%nat /\
    esp_rmaker_register_node (Some 5%nat) w2 = (ESP_ERR_INVALID_STATE, w2).
Proof.
  intros w1.
  assert (E : esp_rmaker_priv_data world_init = Some (handle_of world_init))
    by by_eval.
  assert (N : node (handle_of world_init) = None) by by_eval.
  destruct (register_node_once sdk_plain world_init (handle_of world_init) 3%nat
              E N) as (A & B & C & _).
  split; [exact E|]. split; [exact N|].
  split; [exact A|]. split; [exact (B [Some 4%nat; None; Some 3%nat])|].
  apply (C [(env_ok, Call_start); (env_ok, Call_stop)] (Some 5%nat)).
  repeat constructor.
Defined.

Lemma queue_work_bounded_witness :
  esp_rmaker_priv_data world_init = Some (handle_of world_init) /\
  work_queue (handle_of world_init) = Some (xQueueCreate 8) /\
  length eight_entries = 8%nat /\
  fst (queue_works eight_entries world_init) = repeat ESP_OK 8 /\
  queued (snd (queue_works eight_entries world_init)) = eight_entries /\
  esp_rmaker_queue_work (work_fn entry_c) (priv_data entry_c)
    (snd (queue_works eight_entries world_init))
  = (ESP_FAIL, snd (queue_works eight_entries world_init)).
Proof.
  assert (E : esp_rmaker_priv_data world_init = Some (handle_of world_init))
    by by_eval.
  assert (Q : work_queue (handle_of world_init) = Some (xQueueCreate 8))
    by by_eval.
  assert (I : uxItems (xQueueCreate 8) = []) by by_eval.
  assert (L : length eight_entries = uxLength (xQueueCreate 8)) by by_eval.
  destruct (queue_work_bounded sdk_plain) as (_ & _ & A).
  destruct (A world_init (handle_of world_init) (xQueueCreate 8) eight_entries
              entry_c E Q I L) as (R & Z & F).
  split; [exact E|]. split; [exact Q|]. split; [exact L|].
  split; [exact R|]. split; [exact Z | exact F].
Defined.

(** C4 as the specification words it fails where there is no handle: the state is
    not INIT_DONE, and the code returned is [ESP_ERR_INVALID_ARG], not
    [ESP_ERR_INVALID_STATE]. *)
Lemma node_deinit_without_handle :
  ~ (forall (n : ptr) (w : world),
       state_of w <> Some ESP_RMAKER_STATE_INIT_DONE ->
       fst (esp_rmaker_node_deinit n w) = ESP_ERR_INVALID_STATE).
Proof.
  intros H.
  assert (K : fst (esp_rmaker_node_deinit None boot) = ESP_ERR_INVALID_STATE)
    by (apply H; discriminate).
  discriminate K.
Qed.

Lemma node_deinit_gated_witness :
  esp_rmaker_priv_data boot = None /\
  esp_rmaker_node_deinit (Some 3%nat) boot = (ESP_ERR_INVALID_ARG, boot) /\
  state (handle_of world_in_loop) = ESP_RMAKER_STATE_STARTED /\
  esp_rmaker_node_deinit (Some 3%nat) world_in_loop
  = (ESP_ERR_INVALID_STATE, world_in_loop) /\
  state (handle_of world_ready) = ESP_RMAKER_STATE_INIT_DONE /\
  fst (esp_rmaker_node_deinit (Some 3%nat) world_ready) = ESP_OK /\
  esp_rmaker_priv_data (snd (esp_rmaker_node_deinit (Some 3%nat) world_ready)) = None /\
  heap (snd (esp_rmaker_node_deinit (Some 3%nat) world_ready)) = [].
Proof.
  assert (E0 : esp_rmaker_priv_data boot = None) by by_eval.
  assert (E1 : esp_rmaker_priv_data world_in_loop = Some (handle_of world_in_loop))
    by by_eval.
  assert (S1 : state (handle_of world_in_loop) = ESP_RMAKER_STATE_STARTED)
    by by_eval.
  assert (E2 : esp_rmaker_priv_data world_ready = Some (handle_of world_ready))
    by by_eval.
  assert (S2 : state (handle_of world_ready) = ESP_RMAKER_STATE_INIT_DONE)
    by by_eval.
  split; [exact E0|].
  split; [exact (proj1 (node_deinit_gated (Some 3%nat) boot) E0)|].
  split; [exact S1|].
  split.
  { apply (proj1 (proj2 (node_deinit_gated (Some 3%nat) world_in_loop))
             (handle_of world_in_loop) E1).
    rewrite S1. discriminate. }
  split; [exact S2|].
  destruct (proj2 (proj2 (node_deinit_gated (Some 3%nat) world_ready))
              (handle_of world_ready) E2 S2) as (A & B & C).
  split; [exact A|]. split; [exact B|].
  rewrite C. by_eval.
Defined.

Lemma stop_idempotent_witness :
  esp_rmaker_priv_data world_in_loop = Some (handle_of world_in_loop) /\
  fst (esp_rmaker_stop world_in_loop) = ESP_OK /\
  state_of world_stop_requested = Some ESP_RMAKER_STATE_STOP_REQUESTED /\
  esp_rmaker_stop world_stop_requested = (ESP_OK, world_stop_requested).
Proof.
  assert (E : esp_rmaker_priv_data world_in_loop = Some (handle_of world_in_loop))
    by by_eval.
  destruct (stop_idempotent world_in_loop (handle_of world_in_loop) E)
    as (A & _ & C & D).
  split; [exact E|]. split; [exact A|]. split; [exact C | exact D].
Defined.

(** C6 as the specification words it fails on the run [ops_report_fails]:
    [esp_rmaker_start] returns [ESP_OK], the task connects and writes
    STARTED, the node state report fails, and the task writes INIT_DONE at
    [rmaker_end] and deletes itself, while no operation of the run is a
    call of [esp_rmaker_stop] and the state is STOP_REQUESTED after none
    of them. *)
Lemma teardown_without_stop_request :
  fst (esp_rmaker_start env_ok world_ready) = ESP_OK /\
  state_of (run sdk_plain app_quiet (firstn 7 ops_report_fails) world_ready)
  = Some ESP_RMAKER_STATE_STARTED /\
  state_of (run sdk_plain app_quiet ops_report_fails world_ready)
  = Some ESP_RMAKER_STATE_INIT_DONE /\
  tasks (run sdk_plain app_quiet ops_report_fails world_ready) = [TASK_DELETED] /\
  Forall (fun o => snd o <> Sys_api Call_stop) ops_report_fails /\
  forall n,
    state_of (run sdk_plain app_quiet (firstn n ops_report_fails) world_ready)
    <> Some ESP_RMAKER_STATE_STOP_REQUESTED.
Proof.
  split; [by_eval|]. split; [by_eval|]. split; [by_eval|]. split; [by_eval|].
  split.
  - unfold ops_report_fails, task0. repeat constructor; discriminate.
  - intros n. do 10 (destruct n as [|n]; [by_eval|]).
    assert (F : firstn (S (S (S (S (S (S (S (S (S (S n))))))))))
                  ops_report_fails = ops_report_fails) by reflexivity.
    rewrite F. by_eval.
Qed.

Lemma teardown_only_on_stop_request_witness :
  let l := [(env_ok, world_in_loop); (env_ok, world_in_loop);
            (env_ok, world_stop_requested)] in
  esp_rmaker_priv_data world_stop_requested
  = Some (handle_of world_stop_requested) /\
  state (handle_of world_stop_requested) = ESP_RMAKER_STATE_STOP_REQUESTED /\
  esp_rmaker_task sdk_plain app_quiet env_ok TASK_LOOP world_stop_requested
  = (world_stop_requested, TASK_END) /\
  snd (esp_rmaker_task sdk_plain app_quiet env_ok TASK_END world_stop_requested)
  = TASK_DELETED /\
  task_path sdk_plain app_quiet TASK_LOOP l = TASK_END /\
  (exists l1 env w,
     l = l1 ++ [(env, w)] /\
     task_path sdk_plain app_quiet TASK_LOOP l1 = TASK_LOOP /\
     state_of w = Some ESP_RMAKER_STATE_STOP_REQUESTED) /\
  esp_rmaker_priv_data world_at_report = Some (handle_of world_at_report) /\
  state (handle_of world_at_report) = ESP_RMAKER_STATE_STARTED /\
  report_node_state_r env_report_fails <> ESP_OK /\
  let r := esp_rmaker_task sdk_plain app_quiet env_report_fails TASK_REPORT
             world_at_report in
  snd r = TASK_END /\
  state_of (fst r) = Some ESP_RMAKER_STATE_STARTED /\
  state_of (fst (esp_rmaker_task sdk_plain app_quiet env_ok TASK_END (fst r)))
  = Some ESP_RMAKER_STATE_INIT_DONE.
Proof.
  intros l.
  assert (E : esp_rmaker_priv_data world_stop_requested
              = Some (handle_of world_stop_requested)) by by_eval.
  assert (S : state (handle_of world_stop_requested)
              = ESP_RMAKER_STATE_STOP_REQUESTED) by by_eval.
  assert (P : task_path sdk_plain app_quiet TASK_LOOP l = TASK_END) by by_eval.
  assert (L : in_dispatch_loop TASK_LOOP = true) by by_eval.
  assert (E2 : esp_rmaker_priv_data world_at_report
               = Some (handle_of world_at_report)) by by_eval.
  assert (S2 : state (handle_of world_at_report) = ESP_RMAKER_STATE_STARTED)
    by by_eval.
  assert (R2 : report_node_state_r env_report_fails <> ESP_OK) by by_eval.
  destruct (teardown_only_on_stop_request sdk_plain app_quiet)
    as (A & B & _ & _ & _ & F & _ & H).
  split; [exact E|]. split; [exact S|].
  split; [exact (A env_ok world_stop_requested _ E S)|].
  split; [rewrite (B env_ok world_stop_requested _ E); reflexivity|].
  split; [exact P|].
  split; [exact (F l TASK_LOOP L P)|].
  split; [exact E2|]. split; [exact S2|]. split; [exact R2|].
  destruct (H env_report_fails world_at_report _ E2 S2 (or_intror (or_introl R2)))
    as (H1 & H2 & H3).
  split; [exact H1|]. split; [exact H2 | exact (H3 env_ok)].
Defined.


Lemma work_queue_drained_in_order_witness :
  let its := [entry_a; entry_b; entry_c] in
  let envs := [env_ok; env_ok; env_ok; env_ok] in
  esp_rmaker_priv_data world_queued = Some (handle_of world_queued) /\
  queued world_queued = its /\
  state (handle_of world_queued) = ESP_RMAKER_STATE_STARTED /\
  (let r := task_steps sdk_plain app_quiet envs TASK_LOOP world_queued in
   snd r = TASK_DELAY /\ queued (fst r) = [] /\
   invoked (trace (fst r)) = invoked (trace world_queued) ++ its /\
   trace (fst r)
   = trace world_queued ++
     [Invoke entry_a; Invoke entry_b; Report_node_config; Report_node_state;
      Invoke entry_c]) /\
  queued world_requeue = [entry_r; entry_b] /\
  (let r := task_steps sdk_plain app_requeue [env_ok; env_ok; env_ok] TASK_LOOP
              world_requeue in
   invoked (trace (fst r)) = invoked (trace world_requeue) ++ [entry_r; entry_b] /\
   ((snd r = TASK_DELAY /\ queued (fst r) = []) \/
    exists e, snd r = TASK_WQ_INVOKE e) /\
   snd r = TASK_WQ_INVOKE entry_r) /\
  trace (fst (esp_rmaker_task sdk_plain app_quiet env_ok (TASK_WQ_INVOKE entry_b)
                world_queued))
  = trace world_queued ++ [Invoke entry_b; Report_node_config; Report_node_state].
Proof.
  intros its envs.
  assert (E : esp_rmaker_priv_data world_queued = Some (handle_of world_queued))
    by by_eval.
  assert (G : queued world_queued = its) by by_eval.
  assert (St : state (handle_of world_queued) = ESP_RMAKER_STATE_STARTED)
    by by_eval.
  assert (Q : work_queue (handle_of world_queued)
              = Some {| uxLength := 8; uxItems := its |}) by by_eval.
  assert (I : uxItems {| uxLength := 8; uxItems := its |} = its) by by_eval.
  assert (L : length envs = S (length its)) by by_eval.
  assert (N : state (handle_of world_queued) <> ESP_RMAKER_STATE_STOP_REQUESTED)
    by (rewrite St; discriminate).
  assert (W : Forall (leaves_queue sdk_plain app_quiet) its).
  { repeat constructor.
    - apply quiet_work_leaves_queue. reflexivity.
    - apply report_work_leaves_queue.
    - apply quiet_work_leaves_queue. reflexivity. }
  assert (M : Forall (makes_no_call app_quiet) its)
    by (repeat constructor).
  assert (E2 : esp_rmaker_priv_data world_requeue = Some (handle_of world_requeue))
    by by_eval.
  assert (G2 : queued world_requeue = [entry_r; entry_b]) by by_eval.
  assert (Q2 : work_queue (handle_of world_requeue)
               = Some {| uxLength := 8; uxItems := [entry_r; entry_b] |})
    by by_eval.
  assert (N2 : state (handle_of world_requeue) <> ESP_RMAKER_STATE_STOP_REQUESTED)
    by by_eval.
  assert (D2 : state (handle_of world_requeue) <> ESP_RMAKER_STATE_INIT_DONE)
    by by_eval.
  assert (L2 : length [env_ok; env_ok; env_ok] = S (length [entry_r; entry_b]))
    by by_eval.
  assert (B : work_fn entry_b = WORK_report_node_config_and_state) by by_eval.
  destruct (work_queue_drained_in_order sdk_plain app_quiet)
    as (A1 & A2 & _ & _ & _ & _ & A7 & _).
  destruct (work_queue_drained_in_order sdk_plain app_requeue)
    as (_ & _ & A3 & _).
  split; [exact E|]. split; [exact G|]. split; [exact St|].
  split.
  { destruct (A1 its envs world_queued (handle_of world_queued) _ E N Q I L W)
      as (P & Z & T).
    split; [exact P|]. split; [exact Z|]. split; [exact T|].
    exact (A2 its envs world_queued (handle_of world_queued) _ E N Q I L M). }
  split; [exact G2|].
  split.
  { destruct (A3 [entry_r; entry_b] [env_ok; env_ok; env_ok] world_requeue
                (handle_of world_requeue) _ E2 N2 D2 Q2 eq_refl L2) as (T & P).
    split; [exact T|]. split; [exact P | by_eval]. }
  exact (A7 env_ok entry_b world_queued B).
Defined.

Lemma init_failure_releases_everything_witness :
  CONFIG_ESP_RMAKER_SELF_CLAIM sdk_plain = false /\
  esp_rmaker_priv_data boot = None /\
  storage_get_node_id env_unclaimed = None /\
  get_mqtt_config_r env_unclaimed = None /\
  let r := esp_rmaker_init sdk_plain env_unclaimed (Some cfg_sample) boot in
  (exists err, returned r = Some err /\ err <> ESP_OK) /\
  returned r = Some ESP_ERR_NO_MEM /\
  esp_rmaker_priv_data (world_of r) = None /\ heap (world_of r) = heap boot /\
  tasks (world_of r) = tasks boot /\
  posted (trace (world_of r)) = posted (trace boot).
Proof.
  assert (H1 : CONFIG_ESP_RMAKER_SELF_CLAIM sdk_plain = false) by by_eval.
  assert (H2 : esp_rmaker_priv_data boot = None) by by_eval.
  assert (H3 : storage_get_node_id env_unclaimed = None) by by_eval.
  assert (H4 : get_mqtt_config_r env_unclaimed = None) by by_eval.
  assert (H5 : storage_init_r env_unclaimed = ESP_OK) by by_eval.
  assert (H6 : calloc_priv_data_ok env_unclaimed = true) by by_eval.
  destruct (init_failure_releases_everything sdk_plain env_unclaimed
              (Some cfg_sample) boot H1 H2 (or_introl H3))
    as (F & P & H & T & E & C).
  split; [exact H1|]. split; [exact H2|]. split; [exact H3|].
  split; [exact H4|].
  split; [exact F|].
  split; [exact (proj1 (C cfg_sample (eq_refl _) H5 H6) H3)|].
  split; [exact P|]. split; [exact H|]. split; [exact T | exact E].
Defined.

Lemma node_init_leaves_handle_behind_witness :
  returned (esp_rmaker_init sdk_plain env_no_node (Some cfg_sample) boot)
  = Some ESP_OK /\
  returned (esp_rmaker_node_init sdk_plain env_no_node (Some cfg_sample)
              "Switch" "esp.node.switch" boot) = Some None /\
  let w' := world_of (esp_rmaker_node_init sdk_plain env_no_node (Some cfg_sample)
                        "Switch" "esp.node.switch" boot) in
  (exists h, esp_rmaker_priv_data w' = Some h /\
             state h = ESP_RMAKER_STATE_INIT_DONE /\ node h = None) /\
  esp_rmaker_node_init sdk_plain env_ok (Some cfg_sample)
    "Switch" "esp.node.switch" w' = Returns None w' /\
  esp_rmaker_init sdk_plain env_ok (Some cfg_sample) w'
  = Returns ESP_ERR_INVALID_STATE w' /\
  esp_rmaker_priv_data (snd (esp_rmaker_node_deinit None w')) = None.
Proof.
  assert (H1 : returned (esp_rmaker_init sdk_plain env_no_node (Some cfg_sample)
                           boot) = Some ESP_OK) by by_eval.
  assert (H2 : returned (esp_rmaker_node_init sdk_plain env_no_node
                           (Some cfg_sample) "Switch" "esp.node.switch" boot)
               = Some None) by by_eval.
  destruct (node_init_leaves_handle_behind sdk_plain env_no_node
              (Some cfg_sample) "Switch" "esp.node.switch" boot H1 H2)
    as (_ & H & A & _ & D).
  split; [exact H1|]. split; [exact H2|].
  split; [exact H|].
  split; [exact (proj2 (A env_ok (Some cfg_sample) "Switch"%string
                          "esp.node.switch"%string))|].
  split; [exact (proj1 (A env_ok (Some cfg_sample) "Switch"%string
                          "esp.node.switch"%string))|].
  exact (proj2 (D None)).
Defined.

(** * Further properties of the code *)

(** ** The fallback node id *)

Lemma hex_digit_cases (d : Z) :
  0 <= d < 16 ->
  hex_value (hex_digit d) = d /\ is_hex_upper (hex_digit d) = true.
Proof.
  intros H.
  assert (C : d = 0 \/ d = 1 \/ d = 2 \/ d = 3 \/ d = 4 \/ d = 5 \/ d = 6 \/
              d = 7 \/ d = 8 \/ d = 9 \/ d = 10 \/ d = 11 \/ d = 12 \/
              d = 13 \/ d = 14 \/ d = 15) by lia.
  repeat (destruct C as [C | C]; [subst d; split; reflexivity|]).
  subst d; split; reflexivity.
Qed.

Lemma hex02X_value (b : Z) :
  is_byte b ->
  exists c1 c2, hex02X b = String c1 (String c2 EmptyString) /\
                16 * hex_value c1 + hex_value c2 = b.
Proof.
  intros H. unfold hex02X, is_byte in *.
  eexists; eexists; split; [reflexivity|].
  rewrite (Z.mod_small b 256) by lia.
  destruct (hex_digit_cases (b / 16)) as [A _].
  { split; [apply Z.div_pos; lia | apply Z.div_lt_upper_bound; lia]. }
  destruct (hex_digit_cases (b mod 16)) as [B _].
  { apply Z.mod_pos_bound; lia. }
  rewrite A, B. symmetry. apply Z.div_mod. lia.
Qed.

Lemma hex02X_inj (a b : Z) (s t : string) :
  is_byte a -> is_byte b ->
  (hex02X a ++ s = hex02X b ++ t)%string -> a = b /\ s = t.
Proof.
  intros Ha Hb E.
  destruct (hex02X_value a Ha) as (c1 & c2 & Ea & Va).
  destruct (hex02X_value b Hb) as (d1 & d2 & Eb & Vb).
  rewrite Ea, Eb in E. simpl in E. inversion E; subst.
  split; [lia | reflexivity].
Qed.

Lemma format_mac_inj (m1 m2 : list Z) :
  length m1 = 6%nat -> length m2 = 6%nat ->
  Forall is_byte m1 -> Forall is_byte m2 ->
  format_mac m1 = format_mac m2 -> m1 = m2.
Proof.
  intros L1 L2 B1 B2.
  do 7 (destruct m1 as [|? m1]; try discriminate L1).
  do 7 (destruct m2 as [|? m2]; try discriminate L2).
  repeat match goal with
         | H : Forall _ (_ :: _) |- _ => inversion H; subst; clear H
         end.
  unfold format_mac. cbn [nth].
  intros E.
  repeat match goal with
  | H : (hex02X ?a ++ _ = hex02X ?b ++ _)%string |- _ =>
      apply hex02X_inj in H; [destruct H as [? H]; subst | assumption | assumption]
  end.
  assert (K : forall a b, is_byte a -> is_byte b -> hex02X a = hex02X b -> a = b).
  { intros a b Ha Hb Hab.
    destruct (hex02X_inj a b EmptyString EmptyString Ha Hb) as [K _]; [|exact K].
    destruct (hex02X_value a Ha) as (c1 & c2 & Ea & _).
    destruct (hex02X_value b Hb) as (d1 & d2 & Eb & _).
    rewrite Ea, Eb in *. simpl. exact Hab. }
  apply K in E; [subst; reflexivity | assumption | assumption].
Qed.

Lemma format_mac_hex (m : list Z) :
  Forall (fun c => is_hex_upper c = true) (list_ascii_of_string (format_mac m)).
Proof.
  assert (H : forall x, is_hex_upper (hex_digit (x mod 256 / 16)) = true /\
                        is_hex_upper (hex_digit (x mod 16)) = true).
  { intros x. split; apply hex_digit_cases.
    - pose proof (Z.mod_pos_bound x 256 ltac:(lia)).
      split; [apply Z.div_pos; lia | apply Z.div_lt_upper_bound; lia].
    - apply Z.mod_pos_bound; lia. }
  unfold format_mac, hex02X. simpl.
  repeat constructor; apply H.
Qed.

(** X1.  In a build with self claiming, on a device whose storage holds no
    node id and whose MAC address can be read,
    [esp_rmaker_populate_node_id] asks for a buffer of thirteen bytes.
    When it gets the buffer it returns a node id of twelve characters, each
    an uppercase hexadecimal digit, with that one block more live; and two
    devices get the same node id only when their six-byte MAC addresses
    are the same.  When it does not get the buffer it does not return: the
    [NULL] result of [calloc] is handed to [snprintf] untested, and nothing
    has been allocated. *)
Theorem fallback_node_id_faithful (sdk : sdkconfig) (env1 env2 : collaborators)
  (w1 w2 : world) :
  CONFIG_ESP_RMAKER_SELF_CLAIM sdk = true ->
  storage_get_node_id env1 = None -> storage_get_node_id env2 = None ->
  wifi_get_mac_r env1 = ESP_OK -> wifi_get_mac_r env2 = ESP_OK ->
  length (eth_mac env1) = 6%nat -> length (eth_mac env2) = 6%nat ->
  Forall is_byte (eth_mac env1) -> Forall is_byte (eth_mac env2) ->
  (calloc_node_id_ok env1 = true ->
   exists s,
     esp_rmaker_populate_node_id sdk env1 w1
     = Returns (Some s) (alloc Blk_node_id w1) /\
     String.length s = ESP_CLAIM_NODE_ID_SIZE /\
     Forall (fun c => is_hex_upper c = true) (list_ascii_of_string s)) /\
  (calloc_node_id_ok env1 = false ->
   esp_rmaker_populate_node_id sdk env1 w1 = Faults w1) /\
  (forall s w1' w2',
     esp_rmaker_populate_node_id sdk env1 w1 = Returns (Some s) w1' ->
     esp_rmaker_populate_node_id sdk env2 w2 = Returns (Some s) w2' ->
     eth_mac env1 = eth_mac env2).
Proof.
  intros Hsc S1 S2 M1 M2 L1 L2 B1 B2.
  unfold esp_rmaker_populate_node_id.
  rewrite Hsc, S1, S2, M1, M2. cbn [neq_ok Z.eqb ESP_OK negb].
  split; [|split].
  - intros ->. eexists. split; [reflexivity|].
    split; [reflexivity | apply format_mac_hex].
  - intros ->. reflexivity.
  - intros s w1' w2'.
    destruct (calloc_node_id_ok env1); [|discriminate].
    destruct (calloc_node_id_ok env2); [|discriminate].
    intros E1 E2. apply format_mac_inj; try assumption.
    apply (f_equal (fun o => match returned o with
                             | Some (Some x) => x
                             | _ => EmptyString
                             end)) in E1, E2.
    cbn [returned] in E1, E2. rewrite E1, E2. reflexivity.
Qed.

(** ** [esp_rmaker_init]: when it succeeds, what it leaves, what its codes say *)

Section More.

Variable sdk : sdkconfig.
Variable app_work : addr -> ptr -> list (collaborators * api_call).

(** X2.  [esp_rmaker_init] returns [ESP_OK] exactly when there is no handle
    yet, a configuration is given, storage initialises, the handle can be
    allocated, a node id is available (stored, or, with self claiming built
    in, made from a MAC address that can be read, in a buffer that can be
    allocated), the queue can be created, and either an MQTT configuration
    is available and MQTT initialises, or none is available and self
    claiming is built in and initialises. *)
Theorem init_ok_iff (env : collaborators) (config : option esp_rmaker_config_t)
  (w : world) :
  returned (esp_rmaker_init sdk env config w) = Some ESP_OK <->
  init_accepts sdk env config w = true.
Proof.
  unfold esp_rmaker_init, init_abort, esp_rmaker_populate_node_id,
    esp_rmaker_get_mqtt_config, init_accepts, node_id_available,
    transport_available.
  crunch; destruct (calloc_priv_data_ok env) eqn:?; simpl in *;
    try discriminate; split; intros H; first [discriminate H | reflexivity].
Qed.

(** The handle, the blocks and the event a successful [esp_rmaker_init]
    leaves. *)
Lemma init_ok_handle (env : collaborators)
  (config : option esp_rmaker_config_t) (w : world) :
  let r := esp_rmaker_init sdk env config w in
  returned r = Some ESP_OK ->
  esp_rmaker_priv_data w = None /\
  exists cfg,
    config = Some cfg /\
    esp_rmaker_priv_data (world_of r) =
      Some {| node_id := match storage_get_node_id env with
                         | Some s => Some s
                         | None => Some (format_mac (eth_mac env))
                         end;
              node := None;
              enable_time_sync := cfg_enable_time_sync cfg;
              state := ESP_RMAKER_STATE_INIT_DONE;
              mqtt_connected := false;
              mqtt_config := get_mqtt_config_r env;
              self_claim := match get_mqtt_config_r env with
                            | Some _ => false
                            | None => true
                            end;
              work_queue := Some (xQueueCreate ESP_RMAKER_TASK_QUEUE_SIZE) |} /\
    heap (world_of r) =
      match get_mqtt_config_r env with
      | Some c => [Blk_mqtt_config c]
      | None => []
      end ++ [Blk_work_queue; Blk_node_id; Blk_priv_data] ++ heap w /\
    posted (trace (world_of r)) = posted (trace w) ++ [RMAKER_EVENT_INIT_DONE] /\
    tasks (world_of r) = tasks w.
Proof.
  unfold esp_rmaker_init, init_abort, esp_rmaker_populate_node_id,
    esp_rmaker_get_mqtt_config, esp_rmaker_deinit_priv_data, upd_priv.
  crunch; intros H; try discriminate H;
    (split; [reflexivity|]);
    eexists; (split; [reflexivity|]);
    repeat rewrite posted_app; simpl; rewrite ?app_nil_r;
    repeat split.
Qed.

(** X3.  Called with no handle, [esp_rmaker_init] is all or nothing whenever
    it returns, in every build and whatever the cause of a failure.  When
    it returns a code other than [ESP_OK] the process-wide pointer is still
    [NULL], the same blocks are live as before, no task exists that did not
    before and no event was posted.  When it returns [ESP_OK] the handle
    holds the node id (the stored one, else the one made from the MAC
    address), no node, the time synchronisation flag of the configuration,
    state INIT_DONE, the MQTT configuration if there is one and the self
    claiming flag if there is none, and an empty queue of eight entries; and
    RMAKER_EVENT_INIT_DONE was posted, once. *)
Theorem init_all_or_nothing (env : collaborators)
  (config : option esp_rmaker_config_t) (w : world) :
  esp_rmaker_priv_data w = None ->
  let r := esp_rmaker_init sdk env config w in
  (forall err,
     returned r = Some err -> err <> ESP_OK ->
     esp_rmaker_priv_data (world_of r) = None /\ heap (world_of r) = heap w /\
     tasks (world_of r) = tasks w /\
     posted (trace (world_of r)) = posted (trace w)) /\
  (returned r = Some ESP_OK ->
   exists cfg,
     config = Some cfg /\
     esp_rmaker_priv_data (world_of r) =
       Some {| node_id := match storage_get_node_id env with
                          | Some s => Some s
                          | None => Some (format_mac (eth_mac env))
                          end;
               node := None;
               enable_time_sync := cfg_enable_time_sync cfg;
               state := ESP_RMAKER_STATE_INIT_DONE;
               mqtt_connected := false;
               mqtt_config := get_mqtt_config_r env;
               self_claim := match get_mqtt_config_r env with
                             | Some _ => false
                             | None => true
                             end;
               work_queue := Some (xQueueCreate ESP_RMAKER_TASK_QUEUE_SIZE) |} /\
     posted (trace (world_of r)) = posted (trace w) ++ [RMAKER_EVENT_INIT_DONE] /\
     tasks (world_of r) = tasks w).
Proof.
  intros E r. split.
  - intros err R F.
    destruct (init_outcome sdk env config w)
      as [[N _] | [(_ & _ & P & Hh & Ht & Hp & _)
         | [(_ & Hok & _) | (_ & _ & Hf)]]].
    + contradiction.
    + auto.
    + fold r in Hok. rewrite R in Hok. inversion Hok. contradiction.
    + fold r in Hf. rewrite Hf in R. discriminate R.
  - intros Hok.
    destruct (init_ok_handle env config w Hok)
      as (_ & cfg & Hc & Hh & _ & Hp & Ht).
    exists cfg. auto.
Qed.

(** X4.  What the code [esp_rmaker_init] returns tells the caller:
    [ESP_ERR_INVALID_STATE] is returned exactly when a handle already
    exists, [ESP_ERR_INVALID_ARG] exactly when there is none and the
    configuration is [NULL]; [ESP_ERR_NO_MEM] only when the handle, the node
    id or the queue could not be had; [ESP_FAIL] only when storage, MQTT or
    self claiming failed or no MQTT configuration is available.  No other
    code is returned.  The call does not return exactly when it gets as far
    as the buffer of the fallback node id and that cannot be allocated. *)
Theorem init_result_codes (env : collaborators)
  (config : option esp_rmaker_config_t) (w : world) :
  let r := returned (esp_rmaker_init sdk env config w) in
  (r = Some ESP_ERR_INVALID_STATE <-> esp_rmaker_priv_data w <> None) /\
  (r = Some ESP_ERR_INVALID_ARG <->
   esp_rmaker_priv_data w = None /\ config = None) /\
  (r = Some ESP_ERR_NO_MEM ->
   calloc_priv_data_ok env = false \/ node_id_available sdk env = false \/
   xQueueCreate_ok env = false) /\
  (r = Some ESP_FAIL ->
   storage_init_r env <> ESP_OK \/ transport_available sdk env = false) /\
  (r = None <-> init_faults sdk env config w = true) /\
  (r = Some ESP_OK \/ r = Some ESP_FAIL \/ r = Some ESP_ERR_NO_MEM \/
   r = Some ESP_ERR_INVALID_ARG \/ r = Some ESP_ERR_INVALID_STATE \/ r = None).
Proof.
  clear app_work.
  unfold esp_rmaker_init, init_abort, esp_rmaker_populate_node_id,
    esp_rmaker_get_mqtt_config, node_id_available, transport_available,
    init_faults, node_id_faults.
  crunch;
    repeat match goal with
           | H : neq_ok _ = true |- _ => apply neq_ok_true in H
           | H : neq_ok _ = false |- _ => apply neq_ok_false in H
           | H : negb _ = true |- _ => apply negb_true_iff in H
           | H : negb _ = false |- _ => apply negb_false_iff in H
           end;
    repeat match goal with
           | H : calloc_priv_data_ok _ = _ |- _ => rewrite H in *
           end;
    simpl;
    intuition (first [discriminate | congruence | auto 7]).
Qed.

(** A call that returns has not stored through [NULL]. *)
Lemma init_returned_no_fault (env : collaborators)
  (config : option esp_rmaker_config_t) (w : world) (err : esp_err_t) :
  returned (esp_rmaker_init sdk env config w) = Some err ->
  init_faults sdk env config w = false.
Proof.
  clear app_work.
  unfold esp_rmaker_init, init_abort, esp_rmaker_populate_node_id,
    esp_rmaker_get_mqtt_config, init_faults, node_id_faults.
  crunch; intros H; try discriminate H;
    repeat match goal with
           | H : negb _ = true |- _ => apply negb_true_iff in H
           | H : negb _ = false |- _ => apply negb_false_iff in H
           | H : _ = _ |- _ => rewrite H
           end;
    rewrite ?andb_false_r; reflexivity.
Qed.

(** ** A node created, looked up and deleted *)

Lemma node_init_some (env : collaborators)
  (config : option esp_rmaker_config_t) (name type : string)
  (w w1 : world) (a : addr) :
  esp_rmaker_node_init sdk env config name type w = Returns (Some a) w1 ->
  returned (esp_rmaker_init sdk env config w) = Some ESP_OK /\
  node_create_r env = Some a /\
  exists h0,
    esp_rmaker_priv_data (world_of (esp_rmaker_init sdk env config w)) = Some h0 /\
    node h0 = None /\
    w1 = set_priv (Some (set_node (Some a) h0))
           (alloc (Blk_node a) (world_of (esp_rmaker_init sdk env config w))).
Proof.
  unfold esp_rmaker_node_init.
  destruct (esp_rmaker_init sdk env config w) as [err w0|w0];
    cbn [returned world_of]; [|discriminate].
  destruct (neq_ok err) eqn:En; [discriminate|].
  apply neq_ok_false in En.
  unfold esp_rmaker_node_create.
  destruct (node_create_r env) as [b|]; [|discriminate].
  unfold esp_rmaker_register_node. cbn [esp_rmaker_priv_data alloc set_heap].
  destruct (esp_rmaker_priv_data w0) as [h0|] eqn:E0; cbn [neq_ok];
    [|discriminate].
  destruct (node h0) eqn:N0; [discriminate|].
  intros H. inversion H; subst.
  split; [reflexivity|]. split; [reflexivity|].
  exists h0. auto.
Qed.

Lemma live_release_owned_node (a : addr) (h : esp_rmaker_priv_data_t)
  (l : list block) :
  live (Blk_node a) (release_owned h l) = live (Blk_node a) l.
Proof.
  unfold release_owned.
  destruct (node_id h), (mqtt_config h), (work_queue h);
    rewrite ?live_release_other by discriminate; reflexivity.
Qed.

(** X5.  When [esp_rmaker_node_init] returns a node, [esp_rmaker_get_node]
    returns that node and [esp_rmaker_get_node_id] the node id the handle
    was given (the stored one, else the one made from the MAC address), and
    the state is INIT_DONE.  With no handle both lookups return [NULL]. *)
Theorem node_init_then_lookup (env : collaborators)
  (config : option esp_rmaker_config_t) (name type : string)
  (w w1 : world) (a : addr) :
  esp_rmaker_node_init sdk env config name type w = Returns (Some a) w1 ->
  esp_rmaker_get_node w1 = Some a /\
  esp_rmaker_get_node_id w1 =
    match storage_get_node_id env with
    | Some s => Some s
    | None => Some (format_mac (eth_mac env))
    end /\
  state_of w1 = Some ESP_RMAKER_STATE_INIT_DONE /\
  esp_rmaker_get_node w = None /\ esp_rmaker_get_node_id w = None.
Proof.
  intros H.
  destruct (node_init_some env config name type w w1 a H)
    as (Hok & _ & h0 & E0 & _ & ->).
  destruct (init_ok_handle env config w Hok) as (N & cfg & _ & Hh & _).
  rewrite Hh in E0. inversion E0; subst h0.
  unfold esp_rmaker_get_node, esp_rmaker_get_node_id, state_of.
  rewrite N. repeat split.
Qed.

(** X6.  A node made by [esp_rmaker_node_init] and handed back to
    [esp_rmaker_node_deinit] leaves nothing behind: the call returns
    [ESP_OK], the process-wide pointer is [NULL] again, and the live blocks
    are exactly those that were live before [esp_rmaker_node_init]. *)
Theorem node_init_deinit_balanced (env : collaborators)
  (config : option esp_rmaker_config_t) (name type : string)
  (w w1 : world) (a : addr) :
  esp_rmaker_node_init sdk env config name type w = Returns (Some a) w1 ->
  let r := esp_rmaker_node_deinit (Some a) w1 in
  fst r = ESP_OK /\ esp_rmaker_priv_data (snd r) = None /\
  heap (snd r) = heap w.
Proof.
  intros H r.
  destruct (node_init_some env config name type w w1 a H)
    as (Hok & _ & h0 & E0 & _ & Hw1).
  destruct (init_ok_handle env config w Hok) as (_ & cfg & _ & Hh & Hp & _).
  rewrite Hh in E0. inversion E0 as [Eh]. clear E0.
  assert (E1 : esp_rmaker_priv_data w1 = Some (set_node (Some a) h0))
    by (rewrite Hw1; reflexivity).
  assert (S1 : state (set_node (Some a) h0) = ESP_RMAKER_STATE_INIT_DONE)
    by (rewrite <- Eh; reflexivity).
  destruct (node_deinit_done (Some a) w1 _ E1 S1) as (A & B & C & _).
  split; [exact A|]. split; [exact B|].
  subst r. rewrite C, Hw1.
  cbn [esp_rmaker_node_delete free alloc set_heap set_priv heap release block_eqb].
  rewrite Nat.eqb_refl, Hp. rewrite <- Eh. unfold release_owned.
  destruct (get_mqtt_config_r env) as [c|], (storage_get_node_id env); simpl;
    rewrite ?Nat.eqb_refl; reflexivity.
Qed.

(** X7.  [esp_rmaker_node_deinit] deletes the node it is given, not the one
    the handle holds.  Called with [NULL] or with another node after a
    successful [esp_rmaker_node_init], it still returns [ESP_OK] and frees
    the handle, but the block of the registered node stays live, and with
    the handle gone [esp_rmaker_get_node] no longer leads to it. *)
Theorem node_deinit_other_node_leaks (env : collaborators)
  (config : option esp_rmaker_config_t) (name type : string)
  (w w1 : world) (a : addr) (n : ptr) :
  esp_rmaker_node_init sdk env config name type w = Returns (Some a) w1 ->
  n <> Some a ->
  let r := esp_rmaker_node_deinit n w1 in
  fst r = ESP_OK /\ esp_rmaker_get_node (snd r) = None /\
  live (Blk_node a) (heap (snd r)) = S (live (Blk_node a) (heap w)) /\
  live Blk_priv_data (heap (snd r)) = live Blk_priv_data (heap w).
Proof.
  intros H Hn r.
  destruct (node_init_some env config name type w w1 a H)
    as (Hok & _ & h0 & E0 & _ & Hw1).
  destruct (init_ok_handle env config w Hok) as (_ & cfg & _ & Hh & Hp & _).
  rewrite Hh in E0. inversion E0 as [Eh]. clear E0.
  assert (E1 : esp_rmaker_priv_data w1 = Some (set_node (Some a) h0))
    by (rewrite Hw1; reflexivity).
  assert (S1 : state (set_node (Some a) h0) = ESP_RMAKER_STATE_INIT_DONE)
    by (rewrite <- Eh; reflexivity).
  destruct (node_deinit_done n w1 _ E1 S1) as (A & B & C & _).
  split; [exact A|].
  split; [unfold esp_rmaker_get_node; subst r; rewrite B; reflexivity|].
  subst r. rewrite C, live_release_owned_node, live_release_owned.
  assert (Hh1 : heap w1
                = Blk_node a :: heap (world_of (esp_rmaker_init sdk env config w)))
    by (rewrite Hw1; reflexivity).
  destruct n as [b|]; cbn [esp_rmaker_node_delete free set_heap heap].
  - assert (Hab : Blk_node a <> Blk_node b) by congruence.
    assert (Hpb : Blk_priv_data <> Blk_node b) by discriminate.
    rewrite (live_release_other _ _ _ Hab), (live_release_other _ _ _ Hpb).
    rewrite Hh1, Hp. cbn [live block_eqb]. rewrite Nat.eqb_refl.
    destruct (get_mqtt_config_r env); simpl; auto.
  - rewrite Hh1, Hp. cbn [live block_eqb]. rewrite Nat.eqb_refl.
    destruct (get_mqtt_config_r env); simpl; auto.
Qed.

(** ** What every handle in use satisfies *)

Lemma handle_wf_update (h h' : esp_rmaker_priv_data_t) :
  node_id h' = node_id h -> work_queue h' = work_queue h ->
  state h' <> ESP_RMAKER_STATE_DEINIT ->
  handle_wf h -> handle_wf h'.
Proof.
  intros N Q S (Hn & _ & Hq). unfold handle_wf. rewrite N, Q. auto.
Qed.

Lemma handle_wf_send (h : esp_rmaker_priv_data_t) (q : Queue_t)
  (e : esp_rmaker_work_queue_entry_t) :
  handle_wf h -> work_queue h = Some q ->
  handle_wf (set_work_queue (Some (snd (xQueueSend q e))) h).
Proof.
  intros (Hn & Hs & q0 & Hq & Hl & Hb) Q. rewrite Q in Hq. inversion Hq; subst q0.
  split; [exact Hn|]. split; [exact Hs|].
  eexists. split; [reflexivity|].
  unfold xQueueSend.
  destruct (length (uxItems q) <? uxLength q)%nat eqn:L; simpl.
  - apply Nat.ltb_lt in L. rewrite length_app. simpl. split; [exact Hl | lia].
  - auto.
Qed.

Lemma handle_wf_receive (h : esp_rmaker_priv_data_t) (q : Queue_t) :
  handle_wf h -> work_queue h = Some q ->
  handle_wf (set_work_queue (Some (snd (xQueueReceive q))) h).
Proof.
  intros (Hn & Hs & q0 & Hq & Hl & Hb) Q. rewrite Q in Hq. inversion Hq; subst q0.
  split; [exact Hn|]. split; [exact Hs|].
  eexists. split; [reflexivity|].
  unfold xQueueReceive.
  destruct (uxItems q) as [|e r] eqn:I; simpl.
  - rewrite I. auto.
  - simpl in Hb. split; [exact Hl | lia].
Qed.

Lemma world_wf_same (w w' : world) :
  esp_rmaker_priv_data w' = esp_rmaker_priv_data w -> world_wf w -> world_wf w'.
Proof. unfold world_wf. intros ->. auto. Qed.

Lemma queue_work_keeps_wf (f : esp_rmaker_work_fn_t) (p : ptr) (w : world) :
  world_wf w -> world_wf (snd (esp_rmaker_queue_work f p w)).
Proof.
  unfold world_wf, esp_rmaker_queue_work. intros H.
  destruct (esp_rmaker_priv_data w) as [h|] eqn:E; simpl; [|rewrite E; exact I].
  destruct (work_queue h) as [q|] eqn:Q; simpl; [|rewrite E; exact H].
  pose proof (handle_wf_send h q {| work_fn := f; priv_data := p |} H Q) as K.
  destruct (xQueueSend q {| work_fn := f; priv_data := p |}) as [ret q'].
  destruct (ret =? pdTRUE); simpl; [exact K | rewrite E; exact H].
Qed.

Lemma run_api_keeps_wf (env : collaborators) (c : api_call) (w w' : world) :
  world_wf w -> run_api sdk env c w = Returns tt w' -> world_wf w'.
Proof.
  assert (Hinit : forall config w0 err w1,
            world_wf w0 ->
            esp_rmaker_init sdk env config w0 = Returns err w1 -> world_wf w1).
  { intros config w0 err w1 H0 R.
    destruct (init_outcome sdk env config w0)
      as [[_ E] | [(_ & _ & P & _) | [(N & Hok & _) | (_ & _ & E)]]];
      rewrite R in *; simpl in *.
    - inversion E; subst. exact H0.
    - unfold world_wf. rewrite P. exact I.
    - pose proof (init_ok_handle env config w0) as K. simpl in K.
      rewrite R in K. destruct (K Hok) as (_ & cfg & _ & Hh & _).
      simpl in Hh. unfold world_wf. rewrite Hh.
      split; [simpl; destruct (storage_get_node_id env); discriminate|].
      split; [discriminate|].
      eexists. split; [reflexivity|]. simpl. split; [reflexivity | lia].
    - discriminate E. }
  assert (Hreg : forall n w0,
            world_wf w0 -> world_wf (snd (esp_rmaker_register_node n w0))).
  { intros n w0. unfold world_wf, esp_rmaker_register_node. intros H0.
    destruct (esp_rmaker_priv_data w0) as [h|] eqn:E; simpl; [|rewrite E; exact I].
    destruct (node h); simpl; [rewrite E; exact H0|].
    destruct n; simpl; [|rewrite E; exact H0].
    apply (handle_wf_update h); try reflexivity; [apply H0 | exact H0]. }
  intros H. destruct c; simpl.
  - destruct (esp_rmaker_init sdk env config w) as [err w1|w1] eqn:R; simpl;
      intros F; inversion F; subst.
    apply (Hinit config w err w' H R).
  - intros F; inversion F; subst. apply Hreg, H.
  - unfold esp_rmaker_node_init.
    destruct (esp_rmaker_init sdk env config w) as [err w1|w1] eqn:R; simpl;
      [|discriminate].
    specialize (Hinit config w err w1 H R).
    destruct (neq_ok err); simpl; [intros F; inversion F; subst; exact Hinit|].
    unfold esp_rmaker_node_create.
    destruct (node_create_r env) as [a|];
      [|simpl; intros F; inversion F; subst; exact Hinit].
    specialize (Hreg (Some a) (alloc (Blk_node a) w1) Hinit).
    destruct (esp_rmaker_register_node (Some a) (alloc (Blk_node a) w1))
      as [err2 w2].
    destruct (neq_ok err2); simpl; intros F; inversion F; subst; exact Hreg.
  - intros F; inversion F; subst. unfold world_wf in *.
    destruct (esp_rmaker_priv_data w) as [h|] eqn:E.
    + destruct (state_eqb (state h) ESP_RMAKER_STATE_INIT_DONE) eqn:Hs.
      * apply state_eqb_eq in Hs.
        destruct (node_deinit_done n w h E Hs) as (_ & N & _).
        rewrite N. exact I.
      * apply state_eqb_neq in Hs.
        rewrite (node_deinit_refused n w h E Hs). simpl. rewrite E. exact H.
    + unfold esp_rmaker_node_deinit. rewrite E. simpl. rewrite E. exact I.
  - intros F; inversion F; subst. exact H.
  - intros F; inversion F; subst. exact H.
  - intros F; inversion F; subst. apply queue_work_keeps_wf, H.
  - intros F; inversion F; subst. apply queue_work_keeps_wf, H.
  - intros F; inversion F; subst.
    apply (world_wf_same w); [apply start_keeps_handle | exact H].
  - intros F; inversion F; subst. unfold world_wf, esp_rmaker_stop in *.
    destruct (esp_rmaker_priv_data w) as [h|] eqn:E; simpl; [|rewrite E; exact I].
    apply (handle_wf_update h); try reflexivity; [discriminate | exact H].
Qed.

Lemma run_apis_keep_wf (l : list (collaborators * api_call)) (w w' : world) :
  world_wf w -> run_apis sdk l w = Returns tt w' -> world_wf w'.
Proof.
  revert w. induction l as [|[env c] r IH]; simpl; intros w H.
  - intros F; inversion F; subst. exact H.
  - destruct (run_api sdk env c w) as [[] w1|w1] eqn:R; [|discriminate].
    apply IH. apply (run_api_keeps_wf env c w w1 H R).
Qed.

Lemma receive_work_keeps_wf (w : world) :
  world_wf w -> world_wf (fst (receive_work w)).
Proof.
  unfold world_wf, receive_work. intros H.
  destruct (esp_rmaker_priv_data w) as [h|] eqn:E; simpl; [|rewrite E; exact I].
  destruct (work_queue h) as [q|] eqn:Q; simpl; [|rewrite E; exact H].
  pose proof (handle_wf_receive h q H Q) as K.
  unfold xQueueReceive in *.
  destruct (uxItems q); simpl in *; [rewrite E; exact H | exact K].
Qed.

Lemma invoke_keeps_wf (env : collaborators)
  (e : esp_rmaker_work_queue_entry_t) (w w' : world) :
  world_wf w -> invoke sdk app_work env e w = Returns tt w' -> world_wf w'.
Proof.
  intros H. unfold invoke. destruct (work_fn e).
  - intros F; inversion F; subst.
    apply (world_wf_same w); [|exact H].
    unfold __esp_rmaker_report_node_config_and_state,
      esp_rmaker_report_node_config_and_state.
    crunch; simpl; congruence.
  - apply run_apis_keep_wf. exact H.
Qed.

(** A step in which the work function returns, if one is run. *)
Lemma task_keeps_wf (env : collaborators) (pc : task_pc) (w : world) :
  work_faults sdk app_work env pc w = false ->
  world_wf w -> world_wf (fst (esp_rmaker_task sdk app_work env pc w)).
Proof.
  intros Hf H. destruct pc; simpl; try exact H.
  - unfold world_wf in *.
    destruct (esp_rmaker_priv_data w) as [h|] eqn:E; simpl; [|rewrite E; exact I].
    destruct (neq_ok _); simpl;
      (apply (handle_wf_update h); try reflexivity; [discriminate | exact H]).
  - destruct (nth g (event_groups w) false); exact H.
  - apply (world_wf_same w); [|exact H]. crunch; simpl; congruence.
  - unfold world_wf, esp_rmaker_get_mqtt_config, upd_priv in *.
    destruct (esp_rmaker_priv_data w) as [h|] eqn:E; simpl; [|rewrite E; exact I].
    destruct H as (Hn & Hs & Hq).
    crunch; rewrite ?E in *; inj_pairs;
      first [ split; [exact Hn | split; [exact Hs | exact Hq]] | idtac ].
  - unfold world_wf in *.
    destruct (neq_ok (mqtt_connect_r env)); simpl; [exact H|].
    destruct (esp_rmaker_priv_data w) as [h|] eqn:E; simpl; [|rewrite E; exact I].
    apply (handle_wf_update h); try reflexivity; [discriminate | exact H].
  - apply (world_wf_same w); [|exact H].
    unfold esp_rmaker_report_node_config_and_state. crunch; simpl; congruence.
  - unfold esp_rmaker_handle_work_queue.
    destruct (esp_rmaker_priv_data w) eqn:E; [|exact H].
    destruct (negb _); [|exact H].
    apply receive_work_keeps_wf, H.
  - simpl in Hf.
    destruct (invoke sdk app_work env e w) as [[] w1|w1] eqn:R; [|discriminate].
    apply receive_work_keeps_wf. apply (invoke_keeps_wf env e w w1 H R).
  - unfold world_wf in *. simpl.
    destruct (esp_rmaker_priv_data w) as [h|] eqn:E; simpl; [|rewrite E; exact I].
    apply (handle_wf_update h); try reflexivity; [discriminate | exact H].
Qed.

Lemma run_keeps_wf (l : list (collaborators * sys_op)) (w : world) :
  world_wf w -> world_wf (run sdk app_work l w).
Proof.
  revert w. induction l as [|[env o] r IH]; simpl; intros w H; [exact H|].
  destruct (sys_step sdk app_work env o w) as [[] w1|w1] eqn:R; [|exact H].
  apply IH. destruct o as [c | b i | tid]; simpl in R.
  - apply (run_api_keeps_wf env c w w1 H R).
  - inversion R; subst. apply (world_wf_same w); [|exact H].
    unfold deliver_event, esp_rmaker_event_handler. crunch; simpl; congruence.
  - unfold task_step in R.
    destruct (nth_error (tasks w) tid) as [pc|];
      [|inversion R; subst; exact H].
    destruct (work_faults sdk app_work env pc w) eqn:Hf.
    + destruct (esp_rmaker_task sdk app_work env pc w); discriminate R.
    + pose proof (task_keeps_wf env pc w Hf H) as H1.
      destruct (esp_rmaker_task sdk app_work env pc w) as [w2 pc'].
      inversion R; subst. exact H1.
Qed.

(** X8.  Whatever application calls, network events and steps of core
    tasks have happened since boot, the work queue holds at most
    [ESP_RMAKER_TASK_QUEUE_SIZE] = 8 entries, and a handle that exists has a
    queue of that length. *)
Theorem work_queue_never_overfull (ops : list (collaborators * sys_op)) :
  let w := run sdk app_work ops boot in
  (length (queued w) <= ESP_RMAKER_TASK_QUEUE_SIZE)%nat /\
  (forall h, esp_rmaker_priv_data w = Some h ->
             exists q, work_queue h = Some q /\
                       uxLength q = ESP_RMAKER_TASK_QUEUE_SIZE).
Proof.
  intros w.
  assert (H : world_wf w) by (apply run_keeps_wf; exact I).
  unfold world_wf, queued in *.
  destruct (esp_rmaker_priv_data w) as [h|].
  - destruct H as (_ & _ & q & Q & L & B). rewrite Q. split; [lia|].
    intros h' E. inversion E; subst. eauto.
  - split; [simpl; lia | discriminate].
Qed.

(** X9.  Whatever has happened since boot, [esp_rmaker_get_node_id] returns
    a node id exactly when a handle exists, and the state of a handle that
    exists is never DEINIT: the zeroed handle [esp_rmaker_init] works on is
    never left behind by a call that returns. *)
Theorem node_id_iff_initialised (ops : list (collaborators * sys_op)) :
  let w := run sdk app_work ops boot in
  (esp_rmaker_get_node_id w <> None <-> esp_rmaker_priv_data w <> None) /\
  state_of w <> Some ESP_RMAKER_STATE_DEINIT.
Proof.
  intros w.
  assert (H : world_wf w) by (apply run_keeps_wf; exact I).
  unfold world_wf, esp_rmaker_get_node_id, state_of in *.
  destruct (esp_rmaker_priv_data w) as [h|]; simpl.
  - destruct H as (N & S & _). split; [split; [discriminate | intros _; exact N]|].
    congruence.
  - split; [split; intros K; contradiction K; reflexivity | discriminate].
Qed.

(** A call of [esp_rmaker_init] that does not return is the last operation
    of a run: whatever is listed after it, the world between operations
    stays the one before the call. *)
Lemma run_ends_at_fault (env : collaborators)
  (config : option esp_rmaker_config_t)
  (ops : list (collaborators * sys_op)) (w : world) :
  init_faults sdk env config w = true ->
  run sdk app_work ((env, Sys_api (Call_init config)) :: ops) w = w.
Proof.
  intros F. cbn [run sys_step run_api].
  destruct (init_outcome sdk env config w)
    as [[N _] | [(N & (err & R & _) & _) | [(N & R & _) | (_ & _ & E)]]].
  - unfold init_faults in F. destruct (esp_rmaker_priv_data w); [discriminate F|].
    contradiction N; reflexivity.
  - apply (init_returned_no_fault env config w err) in R.
    rewrite R in F. discriminate F.
  - apply (init_returned_no_fault env config w ESP_OK) in R.
    rewrite R in F. discriminate F.
  - rewrite E. reflexivity.
Qed.

(** ** The steps of the startup sequence when the collaborators answer well *)





(** ** Starting and stopping *)

(** X10.  [esp_rmaker_start] tests only that a handle exists.  Without one
    it returns [ESP_ERR_INVALID_STATE] and changes nothing.  With one, in
    whatever state, it creates a task each time the task can be created:
    two calls in a row both return [ESP_OK] and leave two new tasks.  When
    the task cannot be created it returns [ESP_FAIL] and creates none, but
    time synchronisation, if the handle asks for it, has been started all
    the same. *)
Theorem start_not_guarded (w : world) :
  (esp_rmaker_priv_data w = None ->
   forall env, esp_rmaker_start env w = (ESP_ERR_INVALID_STATE, w)) /\
  (forall h env1 env2,
     esp_rmaker_priv_data w = Some h ->
     xTaskCreate_r env1 = pdPASS -> xTaskCreate_r env2 = pdPASS ->
     let r1 := esp_rmaker_start env1 w in
     let r2 := esp_rmaker_start env2 (snd r1) in
     fst r1 = ESP_OK /\ fst r2 = ESP_OK /\
     tasks (snd r2) = tasks w ++ [TASK_ENTRY; TASK_ENTRY] /\
     esp_rmaker_priv_data (snd r2) = Some h) /\
  (forall h env,
     esp_rmaker_priv_data w = Some h ->
     xTaskCreate_r env <> pdPASS ->
     let r := esp_rmaker_start env w in
     fst r = ESP_FAIL /\ tasks (snd r) = tasks w /\
     trace (snd r) =
       trace w ++ (if enable_time_sync h then [Time_sync_init] else [])).
Proof.
  split; [|split].
  - intros E env. unfold esp_rmaker_start. rewrite E. reflexivity.
  - intros h env1 env2 E T1 T2. unfold esp_rmaker_start.
    rewrite E, T1. cbn [Z.eqb pdPASS negb Pos.eqb fst snd].
    assert (E2 : forall x, esp_rmaker_priv_data
                   (set_tasks x (if enable_time_sync h
                                 then emit Time_sync_init w else w)) = Some h)
      by (intros x; destruct (enable_time_sync h); exact E).
    rewrite E2, T2. cbn [Z.eqb pdPASS negb Pos.eqb fst snd].
    repeat split.
    + destruct (enable_time_sync h); simpl; rewrite <- app_assoc; reflexivity.
    + destruct (enable_time_sync h); exact E.
  - intros h env E T. unfold esp_rmaker_start. rewrite E.
    apply Z.eqb_neq in T. rewrite T. cbn [negb fst snd].
    destruct (enable_time_sync h); simpl; rewrite ?app_nil_r; repeat split.
Qed.


(** X12.  [esp_rmaker_stop] does not test the state either.  Called on any
    handle it leaves STOP_REQUESTED, and from there no call into the file
    brings the state back to INIT_DONE: after any further calls
    [esp_rmaker_node_deinit] is refused with [ESP_ERR_INVALID_STATE].  Only
    a core task reaching [rmaker_end] makes de-initialisation possible
    again. *)
Theorem stop_blocks_deinit (w : world) (h : esp_rmaker_priv_data_t)
  (calls : list (collaborators * api_call)) (n : ptr) :
  esp_rmaker_priv_data w = Some h ->
  exists w1,
    run_apis sdk calls (snd (esp_rmaker_stop w)) = Returns tt w1 /\
    esp_rmaker_node_deinit n w1 = (ESP_ERR_INVALID_STATE, w1) /\
    state_of w1 <> Some ESP_RMAKER_STATE_INIT_DONE.
Proof.
  intros E.
  assert (E1 : esp_rmaker_priv_data (snd (esp_rmaker_stop w))
               = Some (set_state ESP_RMAKER_STATE_STOP_REQUESTED h))
    by (unfold esp_rmaker_stop; rewrite E; reflexivity).
  destruct (run_apis_keep_running sdk calls _ _ E1) as (w1 & h' & R' & E' & S');
    [discriminate|].
  exists w1. split; [exact R'|]. split.
  - apply (node_deinit_refused n w1 h' E' S').
  - unfold state_of. rewrite E'. simpl. congruence.
Qed.

(** ** The startup sequence from end to end *)


Lemma task_wait_ready (env : collaborators) (g : nat) (w : world) :
  nth g (event_groups w) false = true ->
  esp_rmaker_task sdk app_work env (TASK_WAIT_WIFI g) w = (w, TASK_TIME_SYNC).
Proof. intros H. simpl. rewrite H. reflexivity. Qed.

Lemma task_wait_blocked (env : collaborators) (g : nat) (w : world) :
  nth g (event_groups w) false = false ->
  esp_rmaker_task sdk app_work env (TASK_WAIT_WIFI g) w = (w, TASK_WAIT_WIFI g).
Proof. intros H. simpl. rewrite H. reflexivity. Qed.




(** X14.  A report or a registration that fails after the connect does not
    end the task at once, as a failed connect does: the task goes to
    [rmaker_end], disconnects MQTT, clears [mqtt_connected], writes
    INIT_DONE and only then deletes itself.  When the report itself failed,
    the registration for parameter updates was not attempted.  Afterwards
    [esp_rmaker_node_deinit] is accepted. *)
Theorem report_failure_tears_down (env env' : collaborators) (w : world)
  (h : esp_rmaker_priv_data_t) (n : ptr) :
  esp_rmaker_priv_data w = Some h ->
  report_node_config_r env <> ESP_OK \/ report_node_state_r env <> ESP_OK \/
  register_for_set_params_r env <> ESP_OK ->
  let r := task_steps sdk app_work [env; env'] TASK_REPORT w in
  snd r = TASK_DELETED /\
  esp_rmaker_priv_data (fst r) =
    Some (set_state ESP_RMAKER_STATE_INIT_DONE (set_mqtt_connected false h)) /\
  (exists t, trace (fst r) = trace w ++ t ++ [Mqtt_disconnect] /\
             (report_node_config_r env <> ESP_OK \/
              report_node_state_r env <> ESP_OK ->
              ~ In Register_for_set_params t)) /\
  fst (esp_rmaker_node_deinit n (fst r)) = ESP_OK.
Proof.
  intros E F r.
  assert (K : snd r = TASK_DELETED /\
              esp_rmaker_priv_data (fst r) =
                Some (set_state ESP_RMAKER_STATE_INIT_DONE
                        (set_mqtt_connected false h)) /\
              exists t, trace (fst r) = trace w ++ t ++ [Mqtt_disconnect] /\
                        (report_node_config_r env <> ESP_OK \/
                         report_node_state_r env <> ESP_OK ->
                         ~ In Register_for_set_params t)).
  { subst r. cbn [task_steps].
    destruct (esp_rmaker_task sdk app_work env TASK_REPORT w) as [w1 pc1] eqn:S1.
    assert (P : pc1 = TASK_END /\ esp_rmaker_priv_data w1 = Some h /\
                exists t, trace w1 = trace w ++ t /\
                          (report_node_config_r env <> ESP_OK \/
                           report_node_state_r env <> ESP_OK ->
                           ~ In Register_for_set_params t)).
    { revert S1. cbn [esp_rmaker_task].
      unfold esp_rmaker_report_node_config_and_state.
      destruct (neq_ok (report_node_config_r env)) eqn:A; cbn [fst snd neq_ok ESP_OK Z.eqb negb].
      - intros S1; inversion S1; subst. split; [reflexivity|]. split; [exact E|].
        exists [Report_node_config]. split; [reflexivity|].
        intros _ [H|[]]; discriminate H.
      - destruct (neq_ok (report_node_state_r env)) eqn:B; cbn [fst snd neq_ok ESP_OK Z.eqb negb].
        + intros S1; inversion S1; subst. split; [reflexivity|]. split; [exact E|].
          exists [Report_node_config; Report_node_state]. split.
          * simpl. rewrite <- app_assoc. reflexivity.
          * intros _ [H|[H|[]]]; discriminate H.
        + destruct (neq_ok (register_for_set_params_r env)) eqn:C.
          * intros S1; inversion S1; subst. split; [reflexivity|]. split; [exact E|].
            exists [Report_node_config; Report_node_state; Register_for_set_params].
            split.
            -- simpl. repeat rewrite <- app_assoc. reflexivity.
            -- apply neq_ok_false in A, B. intros [H|H]; contradiction.
          * apply neq_ok_false in A, B, C.
            destruct F as [F|[F|F]]; contradiction. }
    destruct P as (-> & E1 & t & T & N).
    cbn [task_steps esp_rmaker_task esp_rmaker_priv_data emit set_trace].
    rewrite E1. cbn [fst snd].
    split; [reflexivity|]. split; [reflexivity|].
    exists t. split; [|exact N].
    cbn [trace set_priv set_trace emit]. rewrite T, app_assoc. reflexivity. }
  destruct K as (K1 & K2 & K3).
  split; [exact K1|]. split; [exact K2|]. split; [exact K3|].
  apply (node_deinit_done n (fst r) _ K2). reflexivity.
Qed.

(** ** The Wi-Fi event groups *)

Lemma nth_app_false (g : nat) (l : list bool) :
  nth g (l ++ [false]) false = nth g l false.
Proof.
  revert g. induction l as [|a r IH]; intros g; simpl.
  - destruct g as [|[|g]]; reflexivity.
  - destruct g; [reflexivity | apply IH].
Qed.

Lemma nth_replace_nth_same (g : nat) (l : list bool) :
  (g < length l)%nat -> nth g (replace_nth g true l) false = true.
Proof.
  revert g. induction l as [|a r IH]; intros g H; simpl in *; [lia|].
  destruct g; simpl; [reflexivity | apply IH; lia].
Qed.

Lemma nth_replace_nth_kept (g g' : nat) (l : list bool) :
  nth g l false = true -> nth g (replace_nth g' true l) false = true.
Proof.
  revert g g'. induction l as [|a r IH]; intros g g' H; simpl in *.
  - destruct g; discriminate H.
  - destruct g', g; simpl; auto.
Qed.

Lemma init_event_groups (env : collaborators)
  (config : option esp_rmaker_config_t) (w : world) :
  event_groups (world_of (esp_rmaker_init sdk env config w)) = event_groups w.
Proof.
  unfold esp_rmaker_init, init_abort, esp_rmaker_populate_node_id,
    esp_rmaker_get_mqtt_config, esp_rmaker_deinit_priv_data, upd_priv.
  crunch; reflexivity.
Qed.

Lemma run_api_event_groups (env : collaborators) (c : api_call) (w : world) :
  event_groups (world_of (run_api sdk env c w)) = event_groups w.
Proof.
  destruct c; simpl; rewrite ?world_of_dropped.
  - apply init_event_groups.
  - unfold esp_rmaker_register_node. crunch; reflexivity.
  - unfold esp_rmaker_node_init.
    pose proof (init_event_groups env config w) as H.
    destruct (esp_rmaker_init sdk env config w) as [err w1|w1]; simpl in H;
      [|exact H].
    unfold esp_rmaker_node_create, esp_rmaker_register_node.
    crunch; exact H.
  - unfold esp_rmaker_node_deinit, esp_rmaker_node_delete,
      esp_rmaker_deinit_priv_data, upd_priv.
    crunch; reflexivity.
  - reflexivity.
  - reflexivity.
  - unfold esp_rmaker_report_node_details, esp_rmaker_queue_work, xQueueSend.
    crunch; reflexivity.
  - unfold esp_rmaker_queue_work, xQueueSend. crunch; reflexivity.
  - unfold esp_rmaker_start. crunch; reflexivity.
  - unfold esp_rmaker_stop. crunch; reflexivity.
Qed.

Lemma run_apis_event_groups (l : list (collaborators * api_call)) (w : world) :
  event_groups (world_of (run_apis sdk l w)) = event_groups w.
Proof.
  revert w. induction l as [|[env c] r IH]; simpl; intros w; [reflexivity|].
  pose proof (run_api_event_groups env c w) as H.
  destruct (run_api sdk env c w) as [[] w1|w1]; simpl in H;
    [rewrite IH; exact H | exact H].
Qed.

Lemma receive_work_event_groups (w : world) :
  event_groups (fst (receive_work w)) = event_groups w.
Proof. unfold receive_work, xQueueReceive. crunch; reflexivity. Qed.

Lemma invoke_event_groups (env : collaborators)
  (e : esp_rmaker_work_queue_entry_t) (w : world) :
  event_groups (world_of (invoke sdk app_work env e w)) = event_groups w.
Proof.
  unfold invoke. destruct (work_fn e).
  - unfold __esp_rmaker_report_node_config_and_state,
      esp_rmaker_report_node_config_and_state.
    crunch; reflexivity.
  - rewrite run_apis_event_groups. reflexivity.
Qed.

(** A step of a task leaves the event groups alone or adds a fresh one. *)
Lemma task_event_groups (env : collaborators) (pc : task_pc) (w : world) :
  let w' := fst (esp_rmaker_task sdk app_work env pc w) in
  event_groups w' = event_groups w \/
  event_groups w' = event_groups w ++ [false].
Proof.
  destruct pc; simpl; auto.
  - crunch; auto.
  - crunch; auto.
  - crunch; auto.
  - unfold esp_rmaker_get_mqtt_config, upd_priv. crunch; auto.
  - crunch; auto.
  - unfold esp_rmaker_report_node_config_and_state. crunch; auto.
  - unfold esp_rmaker_handle_work_queue.
    destruct (esp_rmaker_priv_data w); auto.
    destruct (negb _); auto.
    left. apply receive_work_event_groups.
  - left. pose proof (invoke_event_groups env e w) as H.
    destruct (invoke sdk app_work env e w) as [[] w1|w1]; simpl in H;
      [rewrite receive_work_event_groups|]; exact H.
  - crunch; auto.
Qed.

Lemma task_step_event_groups (env : collaborators) (tid : nat) (w : world) :
  let w' := world_of (task_step sdk app_work env tid w) in
  event_groups w' = event_groups w \/
  event_groups w' = event_groups w ++ [false].
Proof.
  unfold task_step.
  destruct (nth_error (tasks w) tid) as [pc|]; [|auto].
  pose proof (task_event_groups env pc w) as H.
  destruct (esp_rmaker_task sdk app_work env pc w) as [w' pc'].
  destruct (work_faults sdk app_work env pc w); exact H.
Qed.

(** An operation of the system keeps the Wi-Fi bit of a group clear when it
    is not the delivery of the address, and keeps it set in any case. *)
Lemma sys_step_bit_clear (env : collaborators) (o : sys_op) (w : world) (g : nat) :
  is_got_ip (env, o) = false ->
  nth g (event_groups w) false = false ->
  nth g (event_groups (world_of (sys_step sdk app_work env o w))) false = false.
Proof.
  intros Ho Hg. destruct o as [c | b i | tid]; simpl.
  - rewrite run_api_event_groups. exact Hg.
  - unfold is_got_ip in Ho. simpl in Ho.
    unfold deliver_event, esp_rmaker_event_handler. rewrite Ho.
    destruct (handler_registered w); exact Hg.
  - destruct (task_step_event_groups env tid w) as [H|H]; rewrite H;
      [exact Hg | rewrite nth_app_false; exact Hg].
Qed.

Lemma sys_step_bit_set (env : collaborators) (o : sys_op) (w : world) (g : nat) :
  nth g (event_groups w) false = true ->
  nth g (event_groups (world_of (sys_step sdk app_work env o w))) false = true.
Proof.
  intros B. destruct o as [c | b i | tid]; simpl.
  - rewrite run_api_event_groups. exact B.
  - unfold deliver_event, esp_rmaker_event_handler, xEventGroupSetBits.
    crunch; try exact B. apply nth_replace_nth_kept, B.
  - destruct (task_step_event_groups env tid w) as [H|H]; rewrite H;
      [exact B | rewrite nth_app_false; exact B].
Qed.

(** X15.  Until IP_EVENT_STA_GOT_IP is delivered, a task waiting for Wi-Fi
    stays where it is, whatever else happens: calls into the file
    ([esp_rmaker_stop] among them), other events, steps of this or of other
    tasks.  Each time it runs it finds its bit clear, changes nothing and
    keeps waiting. *)
Theorem no_address_no_progress (ops : list (collaborators * sys_op))
  (g : nat) (w : world) (env : collaborators) :
  Forall (fun o => is_got_ip o = false) ops ->
  nth g (event_groups w) false = false ->
  let w' := run sdk app_work ops w in
  esp_rmaker_task sdk app_work env (TASK_WAIT_WIFI g) w'
  = (w', TASK_WAIT_WIFI g).
Proof.
  intros Hops Hg w'. apply task_wait_blocked. subst w'.
  revert w Hg. induction ops as [|[e o] r IH]; intros w Hg; simpl; [exact Hg|].
  inversion Hops as [|x y Ho Hr]; subst.
  pose proof (sys_step_bit_clear e o w g Ho Hg) as K.
  destruct (sys_step sdk app_work e o w) as [[] w1|w1]; simpl in K;
    [apply IH; assumption | exact Hg].
Qed.

(** X16.  The Wi-Fi bit is a latch.  Once IP_EVENT_STA_GOT_IP has been
    delivered for the current event group, nothing that happens afterwards
    clears the bit, and a task waiting on that group goes on to the time
    synchronisation step whenever it runs next. *)
Theorem address_latched (ops : list (collaborators * sys_op))
  (g : nat) (w : world) (env : collaborators) :
  handler_registered w = true ->
  wifi_event_group w = Some g ->
  (g < length (event_groups w))%nat ->
  let w' := run sdk app_work ops
              (deliver_event IP_EVENT IP_EVENT_STA_GOT_IP w) in
  nth g (event_groups w') false = true /\
  esp_rmaker_task sdk app_work env (TASK_WAIT_WIFI g) w' = (w', TASK_TIME_SYNC).
Proof.
  intros Hh Hg Hl w'.
  assert (K : nth g (event_groups w') false = true).
  { subst w'.
    assert (B : nth g (event_groups (deliver_event IP_EVENT IP_EVENT_STA_GOT_IP w))
                  false = true).
    { unfold deliver_event, esp_rmaker_event_handler. rewrite Hh. simpl.
      rewrite Hg. simpl. apply nth_replace_nth_same, Hl. }
    revert B. generalize (deliver_event IP_EVENT IP_EVENT_STA_GOT_IP w).
    induction ops as [|[e o] r IH]; intros w0 B; simpl; [exact B|].
    pose proof (sys_step_bit_set e o w0 g B) as K.
    destruct (sys_step sdk app_work e o w0) as [[] w1|w1]; simpl in K;
      [apply IH; assumption | exact B]. }
  split; [exact K | apply task_wait_ready, K].
Qed.

(** ** Work queued and run *)

(** X17.  [esp_rmaker_report_node_details] queues the report function of
    this file with a [NULL] payload.  With the queue empty before and the
    task at the test of the [while], the next two steps of the task take the
    entry out, run it and find the queue empty again.  The run reports the
    node configuration and, only if that succeeded, the node state; a
    failing report is ignored: the task is at [vTaskDelay] with the state of
    the handle unchanged. *)
Theorem report_node_details_runs_reports (env1 env2 : collaborators)
  (w : world) (h : esp_rmaker_priv_data_t) (q : Queue_t) :
  esp_rmaker_priv_data w = Some h ->
  state h <> ESP_RMAKER_STATE_STOP_REQUESTED ->
  work_queue h = Some q -> uxItems q = [] -> (0 < uxLength q)%nat ->
  let e := {| work_fn := WORK_report_node_config_and_state; priv_data := None |} in
  let w1 := snd (esp_rmaker_report_node_details w) in
  let r := task_steps sdk app_work [env1; env2] TASK_LOOP w1 in
  fst (esp_rmaker_report_node_details w) = ESP_OK /\
  queued w1 = [e] /\
  snd r = TASK_DELAY /\ queued (fst r) = [] /\
  state_of (fst r) = Some (state h) /\
  trace (fst r) =
    trace w ++ [Invoke e; Report_node_config] ++
    (if neq_ok (report_node_config_r env2) then [] else [Report_node_state]).
Proof.
  intros E Hs Q I L e w1 r.
  assert (Hq : esp_rmaker_report_node_details w =
               (ESP_OK,
                set_priv (Some (set_work_queue
                   (Some {| uxLength := uxLength q; uxItems := [e] |}) h)) w)).
  { unfold esp_rmaker_report_node_details.
    change (esp_rmaker_queue_work WORK_report_node_config_and_state None w)
      with (esp_rmaker_queue_work (work_fn e) (priv_data e) w).
    rewrite (queue_work_fits e w h q E Q) by (rewrite I; exact L).
    rewrite I. reflexivity. }
  subst r w1. rewrite Hq. cbn [fst snd].
  split; [reflexivity|]. split; [reflexivity|].
  cbn [task_steps esp_rmaker_task esp_rmaker_priv_data set_priv state
       set_work_queue].
  apply state_eqb_neq in Hs. rewrite Hs. cbn [negb].
  unfold esp_rmaker_handle_work_queue.
  cbn [esp_rmaker_priv_data set_priv].
  rewrite (receive_work_next
             (set_priv (Some (set_work_queue
                (Some {| uxLength := uxLength q; uxItems := [e] |}) h)) w)
             (set_work_queue
                (Some {| uxLength := uxLength q; uxItems := [e] |}) h)
             {| uxLength := uxLength q; uxItems := [e] |} e []
             eq_refl eq_refl eq_refl).
  cbn [uxLength esp_rmaker_task].
  unfold invoke. cbn [work_fn e].
  unfold __esp_rmaker_report_node_config_and_state,
    esp_rmaker_report_node_config_and_state.
  destruct (neq_ok (report_node_config_r env2)); cbn [fst snd].
  - erewrite receive_work_empty; [|reflexivity | reflexivity | reflexivity].
    cbn [fst snd]. repeat split.
    simpl. repeat rewrite <- app_assoc. reflexivity.
  - destruct (neq_ok (report_node_state_r env2)); cbn [fst snd];
      (erewrite receive_work_empty; [|reflexivity | reflexivity | reflexivity]);
      cbn [fst snd]; repeat split;
      simpl; repeat rewrite <- app_assoc; reflexivity.
Qed.

(** X18.  A producer does not have to wait for the whole queue to drain.
    With the queue full [esp_rmaker_queue_work] returns [ESP_FAIL]; as soon
    as the task has taken the oldest entry out, and before that entry has
    run, [esp_rmaker_queue_work] returns [ESP_OK] again and the new entry is
    queued behind the others. *)
Theorem slot_freed_by_receive (env : collaborators) (w : world)
  (h : esp_rmaker_priv_data_t) (q : Queue_t)
  (e0 e : esp_rmaker_work_queue_entry_t)
  (rest : list esp_rmaker_work_queue_entry_t) :
  esp_rmaker_priv_data w = Some h ->
  state h <> ESP_RMAKER_STATE_STOP_REQUESTED ->
  work_queue h = Some q -> uxItems q = e0 :: rest ->
  length (e0 :: rest) = uxLength q ->
  esp_rmaker_queue_work (work_fn e) (priv_data e) w = (ESP_FAIL, w) /\
  let s := esp_rmaker_task sdk app_work env TASK_LOOP w in
  snd s = TASK_WQ_INVOKE e0 /\
  fst (esp_rmaker_queue_work (work_fn e) (priv_data e) (fst s)) = ESP_OK /\
  queued (snd (esp_rmaker_queue_work (work_fn e) (priv_data e) (fst s)))
  = rest ++ [e].
Proof.
  intros E Hs Q I L.
  split.
  - apply (queue_work_full e w h q E Q). rewrite I. lia.
  - cbn [esp_rmaker_task]. rewrite E.
    apply state_eqb_neq in Hs. rewrite Hs. cbn [negb].
    unfold esp_rmaker_handle_work_queue. rewrite E.
    rewrite (receive_work_next w h q e0 rest E Q I). cbn [fst snd].
    split; [reflexivity|].
    erewrite queue_work_fits; [|reflexivity | reflexivity |].
    + split; [reflexivity|]. reflexivity.
    + simpl in *. lia.
Qed.

(** ** Self claiming *)

Lemma live_mqtt_release_owned (c0 : addr) (h : esp_rmaker_priv_data_t)
  (l : list block) :
  mqtt_config h <> Some c0 ->
  live (Blk_mqtt_config c0) (release_owned h l) = live (Blk_mqtt_config c0) l.
Proof.
  intros H. unfold release_owned.
  destruct (node_id h), (mqtt_config h) as [c|], (work_queue h);
    rewrite ?live_release_other by (first [discriminate | congruence]);
    reflexivity.
Qed.

(** X19.  The lifecycle events of self claiming.  On a handle marked for
    self claiming, the claim step always posts RMAKER_EVENT_CLAIM_STARTED
    first and exactly one of CLAIM_FAILED and CLAIM_SUCCESSFUL after it.
    CLAIM_SUCCESSFUL is posted as soon as the claim itself succeeded, also
    when the task then ends because no MQTT configuration can be fetched or
    MQTT does not initialise.  After a successful claim the handle holds
    whatever the fetch returned, and the task goes on to the MQTT connect
    exactly when a configuration was fetched and MQTT initialised. *)
Theorem claim_step_events (env : collaborators) (w : world)
  (h : esp_rmaker_priv_data_t) :
  esp_rmaker_priv_data w = Some h ->
  CONFIG_ESP_RMAKER_SELF_CLAIM sdk = true -> self_claim h = true ->
  let r := esp_rmaker_task sdk app_work env TASK_SELF_CLAIM w in
  (self_claim_perform_r env <> ESP_OK ->
   snd r = TASK_DELETED /\
   posted (trace (fst r)) =
     posted (trace w) ++ [RMAKER_EVENT_CLAIM_STARTED; RMAKER_EVENT_CLAIM_FAILED] /\
   esp_rmaker_priv_data (fst r) = Some h /\ heap (fst r) = heap w) /\
  (self_claim_perform_r env = ESP_OK ->
   posted (trace (fst r)) =
     posted (trace w) ++
     [RMAKER_EVENT_CLAIM_STARTED; RMAKER_EVENT_CLAIM_SUCCESSFUL] /\
   esp_rmaker_priv_data (fst r) =
     Some (set_mqtt_config (get_mqtt_config_r env) h) /\
   (snd r = TASK_MQTT_CONNECT <->
    get_mqtt_config_r env <> None /\ mqtt_init_r env = ESP_OK) /\
   (snd r = TASK_MQTT_CONNECT \/ snd r = TASK_DELETED)).
Proof.
  intros E C S r. subst r. cbn [esp_rmaker_task]. rewrite E, C, S.
  cbn [andb]. unfold esp_rmaker_get_mqtt_config, upd_priv.
  split.
  - intros F. apply neq_ok_true in F. rewrite F. cbn [fst snd].
    repeat split; try exact E.
    simpl. repeat rewrite posted_app. simpl.
    repeat rewrite <- app_assoc. reflexivity.
  - intros F. apply neq_ok_false in F. rewrite F.
    destruct (get_mqtt_config_r env) as [c|]; simpl; rewrite E.
    + destruct (neq_ok (mqtt_init_r env)) eqn:M; simpl;
        (split; [repeat rewrite posted_app; simpl;
                 repeat rewrite <- app_assoc; reflexivity|]);
        (split; [reflexivity|]).
      * apply neq_ok_true in M. split; [|auto].
        split; [discriminate | intros [_ K]; contradiction].
      * apply neq_ok_false in M. split; [|auto].
        split; [intros _; split; [discriminate | exact M] | reflexivity].
    + simpl.
      split; [repeat rewrite posted_app; simpl;
              repeat rewrite <- app_assoc; reflexivity|].
      split; [reflexivity|]. split; [|auto].
      split; [discriminate | intros [K _]; contradiction K; reflexivity].
Qed.

(** X20.  The self claiming mark is never cleared and the claim step does
    not free the MQTT configuration the handle already holds.  When a handle
    that was claimed before runs the claim step again, the newly fetched
    configuration replaces the old one in the handle, the old block stays
    live, and the mark is still set.  A later [esp_rmaker_node_deinit] frees
    the configuration the handle holds then, not the old one. *)
Theorem reclaim_keeps_old_config (env : collaborators) (w : world)
  (h : esp_rmaker_priv_data_t) (c0 c1 : addr) :
  esp_rmaker_priv_data w = Some h ->
  CONFIG_ESP_RMAKER_SELF_CLAIM sdk = true -> self_claim h = true ->
  mqtt_config h = Some c0 ->
  self_claim_perform_r env = ESP_OK -> get_mqtt_config_r env = Some c1 ->
  c0 <> c1 ->
  let w1 := fst (esp_rmaker_task sdk app_work env TASK_SELF_CLAIM w) in
  esp_rmaker_priv_data w1 = Some (set_mqtt_config (Some c1) h) /\
  self_claim (set_mqtt_config (Some c1) h) = true /\
  live (Blk_mqtt_config c0) (heap w1) = live (Blk_mqtt_config c0) (heap w) /\
  live (Blk_mqtt_config c1) (heap w1) = S (live (Blk_mqtt_config c1) (heap w)) /\
  forall w2 h2 n,
    esp_rmaker_priv_data w2 = Some h2 ->
    state h2 = ESP_RMAKER_STATE_INIT_DONE ->
    mqtt_config h2 = Some c1 ->
    fst (esp_rmaker_node_deinit n w2) = ESP_OK /\
    live (Blk_mqtt_config c0) (heap (snd (esp_rmaker_node_deinit n w2)))
    = live (Blk_mqtt_config c0) (heap w2).
Proof.
  intros E C S M F G Hc w1.
  assert (K : esp_rmaker_priv_data w1 = Some (set_mqtt_config (Some c1) h) /\
              heap w1 = Blk_mqtt_config c1 :: heap w).
  { subst w1. cbn [esp_rmaker_task]. rewrite E, C, S. cbn [andb].
    apply neq_ok_false in F. rewrite F.
    unfold esp_rmaker_get_mqtt_config, upd_priv. rewrite G. simpl. rewrite E.
    destruct (neq_ok (mqtt_init_r env)); simpl; split; reflexivity. }
  destruct K as [K1 K2].
  split; [exact K1|]. split; [exact S|].
  rewrite K2. cbn [live block_eqb].
  assert (N01 : (c0 =? c1)%nat = false) by (apply Nat.eqb_neq; exact Hc).
  rewrite N01, Nat.eqb_refl.
  split; [reflexivity|]. split; [reflexivity|].
  intros w2 h2 n E2 S2 M2.
  destruct (node_deinit_done n w2 h2 E2 S2) as (A & _ & B & _).
  split; [exact A|].
  rewrite B, live_mqtt_release_owned by (rewrite M2; congruence).
  destruct n as [a|]; cbn [esp_rmaker_node_delete free set_heap heap];
    [apply live_release_other; discriminate | reflexivity].
Qed.

End More.

(** * The further properties at sample inputs *)

Lemma fallback_node_id_faithful_witness :
  calloc_node_id_ok env_device_a = true /\
  calloc_node_id_ok env_no_buffer = false /\
  (exists s,
     esp_rmaker_populate_node_id sdk_self_claim env_device_a boot
     = Returns (Some s) (alloc Blk_node_id boot) /\
     String.length s = ESP_CLAIM_NODE_ID_SIZE /\
     Forall (fun c => is_hex_upper c = true) (list_ascii_of_string s)) /\
  esp_rmaker_populate_node_id sdk_self_claim env_device_a boot
  = Returns (Some "240AC401ABEF"%string) (alloc Blk_node_id boot) /\
  esp_rmaker_populate_node_id sdk_self_claim env_no_buffer boot = Faults boot /\
  (forall s w1' w2',
     esp_rmaker_populate_node_id sdk_self_claim env_device_a boot
     = Returns (Some s) w1' ->
     esp_rmaker_populate_node_id sdk_self_claim env_device_b boot
     = Returns (Some s) w2' ->
     eth_mac env_device_a = eth_mac env_device_b).
Proof.
  assert (Hsc : CONFIG_ESP_RMAKER_SELF_CLAIM sdk_self_claim = true) by by_eval.
  assert (S1 : storage_get_node_id env_device_a = None) by by_eval.
  assert (S2 : storage_get_node_id env_device_b = None) by by_eval.
  assert (S3 : storage_get_node_id env_no_buffer = None) by by_eval.
  assert (M1 : wifi_get_mac_r env_device_a = ESP_OK) by by_eval.
  assert (M2 : wifi_get_mac_r env_device_b = ESP_OK) by by_eval.
  assert (M3 : wifi_get_mac_r env_no_buffer = ESP_OK) by by_eval.
  assert (L1 : length (eth_mac env_device_a) = 6%nat) by by_eval.
  assert (L2 : length (eth_mac env_device_b) = 6%nat) by by_eval.
  assert (L3 : length (eth_mac env_no_buffer) = 6%nat) by by_eval.
  assert (B1 : Forall is_byte (eth_mac env_device_a))
    by (repeat constructor; unfold is_byte; lia).
  assert (B2 : Forall is_byte (eth_mac env_device_b))
    by (repeat constructor; unfold is_byte; lia).
  assert (B3 : Forall is_byte (eth_mac env_no_buffer))
    by (repeat constructor; unfold is_byte; lia).
  assert (C1 : calloc_node_id_ok env_device_a = true) by by_eval.
  assert (C3 : calloc_node_id_ok env_no_buffer = false) by by_eval.
  destruct (fallback_node_id_faithful sdk_self_claim env_device_a env_device_b
              boot boot Hsc S1 S2 M1 M2 L1 L2 B1 B2) as (A & _ & D).
  destruct (fallback_node_id_faithful sdk_self_claim env_no_buffer env_device_b
              boot boot Hsc S3 S2 M3 M2 L3 L2 B3 B2) as (_ & F & _).
  split; [exact C1|]. split; [exact C3|].
  split; [exact (A C1)|].
  split; [by_eval|].
  split; [exact (F C3) | exact D].
Defined.

Lemma init_ok_iff_witness :
  init_accepts sdk_plain env_ok (Some cfg_sample) boot = true /\
  returned (esp_rmaker_init sdk_plain env_ok (Some cfg_sample) boot)
  = Some ESP_OK /\
  init_accepts sdk_plain env_unclaimed (Some cfg_sample) boot = false /\
  returned (esp_rmaker_init sdk_plain env_unclaimed (Some cfg_sample) boot)
  <> Some ESP_OK /\
  init_accepts sdk_self_claim env_no_buffer (Some cfg_sample) boot = false /\
  returned (esp_rmaker_init sdk_self_claim env_no_buffer (Some cfg_sample) boot)
  <> Some ESP_OK.
Proof.
  assert (A : init_accepts sdk_plain env_ok (Some cfg_sample) boot = true)
    by by_eval.
  assert (B : init_accepts sdk_plain env_unclaimed (Some cfg_sample) boot = false)
    by by_eval.
  assert (C : init_accepts sdk_self_claim env_no_buffer (Some cfg_sample) boot
              = false) by by_eval.
  split; [exact A|].
  split; [exact (proj2 (init_ok_iff sdk_plain env_ok (Some cfg_sample) boot) A)|].
  split; [exact B|].
  split.
  - intros H.
    apply (proj1 (init_ok_iff sdk_plain env_unclaimed (Some cfg_sample) boot)) in H.
    rewrite B in H. discriminate H.
  - split; [exact C|]. intros H.
    apply (proj1 (init_ok_iff sdk_self_claim env_no_buffer (Some cfg_sample) boot))
      in H.
    rewrite C in H. discriminate H.
Defined.

Lemma init_all_or_nothing_witness :
  esp_rmaker_priv_data boot = None /\
  returned (esp_rmaker_init sdk_self_claim env_device_a (Some cfg_sample) boot)
  = Some ESP_OK /\
  (exists cfg,
     Some cfg_sample = Some cfg /\
     esp_rmaker_priv_data
       (world_of (esp_rmaker_init sdk_self_claim env_device_a
                    (Some cfg_sample) boot))
     = Some {| node_id := Some (format_mac (eth_mac env_device_a));
               node := None;
               enable_time_sync := cfg_enable_time_sync cfg;
               state := ESP_RMAKER_STATE_INIT_DONE;
               mqtt_connected := false;
               mqtt_config := None;
               self_claim := true;
               work_queue := Some (xQueueCreate ESP_RMAKER_TASK_QUEUE_SIZE) |} /\
     posted (trace (world_of (esp_rmaker_init sdk_self_claim env_device_a
                                (Some cfg_sample) boot)))
     = posted (trace boot) ++ [RMAKER_EVENT_INIT_DONE] /\
     tasks (world_of (esp_rmaker_init sdk_self_claim env_device_a
                        (Some cfg_sample) boot)) = tasks boot) /\
  returned (esp_rmaker_init sdk_plain env_device_a (Some cfg_sample) boot)
  = Some ESP_ERR_NO_MEM /\
  heap (world_of (esp_rmaker_init sdk_plain env_device_a (Some cfg_sample) boot))
  = heap boot.
Proof.
  assert (E : esp_rmaker_priv_data boot = None) by by_eval.
  assert (A : returned (esp_rmaker_init sdk_self_claim env_device_a
                          (Some cfg_sample) boot) = Some ESP_OK) by by_eval.
  assert (B : returned (esp_rmaker_init sdk_plain env_device_a
                          (Some cfg_sample) boot) = Some ESP_ERR_NO_MEM)
    by by_eval.
  assert (N : ESP_ERR_NO_MEM <> ESP_OK) by discriminate.
  split; [exact E|]. split; [exact A|].
  split.
  { exact (proj2 (init_all_or_nothing sdk_self_claim env_device_a
                    (Some cfg_sample) boot E) A). }
  split; [exact B|].
  exact (proj1 (proj2 (proj1 (init_all_or_nothing sdk_plain env_device_a
                                (Some cfg_sample) boot E) _ B N))).
Defined.

Lemma init_result_codes_witness :
  esp_rmaker_priv_data world_ready <> None /\
  returned (esp_rmaker_init sdk_plain env_ok (Some cfg_sample) world_ready)
  = Some ESP_ERR_INVALID_STATE /\
  returned (esp_rmaker_init sdk_plain env_ok None boot)
  = Some ESP_ERR_INVALID_ARG /\
  init_faults sdk_self_claim env_no_buffer (Some cfg_sample) boot = true /\
  returned (esp_rmaker_init sdk_self_claim env_no_buffer (Some cfg_sample) boot)
  = None.
Proof.
  assert (E : esp_rmaker_priv_data world_ready <> None) by by_eval.
  assert (E0 : esp_rmaker_priv_data boot = None) by by_eval.
  assert (F : init_faults sdk_self_claim env_no_buffer (Some cfg_sample) boot
              = true) by by_eval.
  split; [exact E|].
  split.
  - exact (proj2 (proj1 (init_result_codes sdk_plain env_ok (Some cfg_sample)
                           world_ready)) E).
  - split.
    + exact (proj2 (proj1 (proj2 (init_result_codes sdk_plain env_ok None boot)))
               (conj E0 (eq_refl None))).
    + split; [exact F|].
      exact (proj2 (proj1 (proj2 (proj2 (proj2 (proj2
               (init_result_codes sdk_self_claim env_no_buffer
                  (Some cfg_sample) boot)))))) F).
Defined.

Lemma node_init_then_lookup_witness :
  esp_rmaker_node_init sdk_plain env_ok (Some cfg_sample)
    "Switch" "esp.node.switch" boot = Returns (Some 3%nat) world_ready /\
  esp_rmaker_get_node world_ready = Some 3%nat /\
  esp_rmaker_get_node_id world_ready = Some "node-0001"%string /\
  state_of world_ready = Some ESP_RMAKER_STATE_INIT_DONE /\
  esp_rmaker_get_node boot = None /\ esp_rmaker_get_node_id boot = None.
Proof.
  assert (H : esp_rmaker_node_init sdk_plain env_ok (Some cfg_sample)
                "Switch" "esp.node.switch" boot = Returns (Some 3%nat) world_ready)
    by by_eval.
  split; [exact H|].
  exact (node_init_then_lookup sdk_plain env_ok (Some cfg_sample)
           "Switch"%string "esp.node.switch"%string boot world_ready 3%nat H).
Defined.

Lemma node_init_deinit_balanced_witness :
  esp_rmaker_node_init sdk_plain env_ok (Some cfg_sample)
    "Switch" "esp.node.switch" boot = Returns (Some 3%nat) world_ready /\
  fst (esp_rmaker_node_deinit (Some 3%nat) world_ready) = ESP_OK /\
  esp_rmaker_priv_data (snd (esp_rmaker_node_deinit (Some 3%nat) world_ready))
  = None /\
  heap (snd (esp_rmaker_node_deinit (Some 3%nat) world_ready)) = heap boot.
Proof.
  assert (H : esp_rmaker_node_init sdk_plain env_ok (Some cfg_sample)
                "Switch" "esp.node.switch" boot = Returns (Some 3%nat) world_ready)
    by by_eval.
  split; [exact H|].
  exact (node_init_deinit_balanced sdk_plain env_ok (Some cfg_sample)
           "Switch"%string "esp.node.switch"%string boot world_ready 3%nat H).
Defined.

Lemma node_deinit_other_node_leaks_witness :
  esp_rmaker_node_init sdk_plain env_ok (Some cfg_sample)
    "Switch" "esp.node.switch" boot = Returns (Some 3%nat) world_ready /\
  fst (esp_rmaker_node_deinit None world_ready) = ESP_OK /\
  esp_rmaker_get_node (snd (esp_rmaker_node_deinit None world_ready)) = None /\
  live (Blk_node 3%nat) (heap (snd (esp_rmaker_node_deinit None world_ready)))
  = S (live (Blk_node 3%nat) (heap boot)) /\
  live Blk_priv_data (heap (snd (esp_rmaker_node_deinit None world_ready)))
  = live Blk_priv_data (heap boot).
Proof.
  assert (H : esp_rmaker_node_init sdk_plain env_ok (Some cfg_sample)
                "Switch" "esp.node.switch" boot = Returns (Some 3%nat) world_ready)
    by by_eval.
  assert (N : @None addr <> Some 3%nat) by discriminate.
  split; [exact H|].
  exact (node_deinit_other_node_leaks sdk_plain env_ok (Some cfg_sample)
           "Switch"%string "esp.node.switch"%string boot world_ready 3%nat None
           H N).
Defined.

Lemma work_queue_never_overfull_witness :
  let ops :=
    [(env_ok, Sys_api (Call_node_init (Some cfg_sample) "Switch" "esp.node.switch"));
     (env_ok, Sys_api (Call_queue_work (WORK_app 10%nat) None));
     (env_ok, Sys_api Call_report_node_details)] in
  esp_rmaker_priv_data (run sdk_plain app_quiet ops boot)
  = Some (handle_of (run sdk_plain app_quiet ops boot)) /\
  (length (queued (run sdk_plain app_quiet ops boot))
   <= ESP_RMAKER_TASK_QUEUE_SIZE)%nat /\
  exists q, work_queue (handle_of (run sdk_plain app_quiet ops boot)) = Some q /\
            uxLength q = ESP_RMAKER_TASK_QUEUE_SIZE.
Proof.
  intros ops.
  assert (E : esp_rmaker_priv_data (run sdk_plain app_quiet ops boot)
              = Some (handle_of (run sdk_plain app_quiet ops boot))) by by_eval.
  destruct (work_queue_never_overfull sdk_plain app_quiet ops) as [A B].
  split; [exact E|]. split; [exact A|].
  exact (B _ E).
Defined.

Lemma node_id_iff_initialised_witness :
  let ops :=
    [(env_ok, Sys_api (Call_node_init (Some cfg_sample) "Switch" "esp.node.switch"));
     (env_ok, Sys_api Call_start); task0] in
  esp_rmaker_priv_data (run sdk_plain app_quiet ops boot) <> None /\
  esp_rmaker_get_node_id (run sdk_plain app_quiet ops boot) <> None /\
  state_of (run sdk_plain app_quiet ops boot) <> Some ESP_RMAKER_STATE_DEINIT.
Proof.
  intros ops.
  assert (E : esp_rmaker_priv_data (run sdk_plain app_quiet ops boot) <> None)
    by by_eval.
  destruct (node_id_iff_initialised sdk_plain app_quiet ops) as [A B].
  split; [exact E|]. split; [exact (proj2 A E) | exact B].
Defined.

Lemma start_not_guarded_witness :
  esp_rmaker_priv_data world_in_loop = Some (handle_of world_in_loop) /\
  state (handle_of world_in_loop) = ESP_RMAKER_STATE_STARTED /\
  fst (esp_rmaker_start env_ok world_in_loop) = ESP_OK /\
  tasks (snd (esp_rmaker_start env_ok (snd (esp_rmaker_start env_ok world_in_loop))))
  = tasks world_in_loop ++ [TASK_ENTRY; TASK_ENTRY] /\
  fst (esp_rmaker_start env_no_task world_in_loop) = ESP_FAIL /\
  esp_rmaker_start env_ok boot = (ESP_ERR_INVALID_STATE, boot).
Proof.
  assert (E : esp_rmaker_priv_data world_in_loop = Some (handle_of world_in_loop))
    by by_eval.
  assert (S1 : state (handle_of world_in_loop) = ESP_RMAKER_STATE_STARTED)
    by by_eval.
  assert (T : xTaskCreate_r env_ok = pdPASS) by by_eval.
  assert (F : xTaskCreate_r env_no_task <> pdPASS) by by_eval.
  assert (E0 : esp_rmaker_priv_data boot = None) by by_eval.
  destruct (start_not_guarded world_in_loop) as (_ & A & B).
  destruct (A (handle_of world_in_loop) env_ok env_ok E T T) as (A1 & _ & A3 & _).
  destruct (B (handle_of world_in_loop) env_no_task E F) as (B1 & _).
  split; [exact E|]. split; [exact S1|]. split; [exact A1|].
  split; [exact A3|]. split; [exact B1|].
  exact (proj1 (start_not_guarded boot) E0 env_ok).
Defined.



Lemma stop_blocks_deinit_witness :
  esp_rmaker_priv_data world_ready = Some (handle_of world_ready) /\
  state (handle_of world_ready) = ESP_RMAKER_STATE_INIT_DONE /\
  exists w1,
    run_apis sdk_plain [(env_ok, Call_report_node_details)]
      (snd (esp_rmaker_stop world_ready)) = Returns tt w1 /\
    esp_rmaker_node_deinit (Some 3%nat) w1 = (ESP_ERR_INVALID_STATE, w1) /\
    state_of w1 <> Some ESP_RMAKER_STATE_INIT_DONE.
Proof.
  assert (E : esp_rmaker_priv_data world_ready = Some (handle_of world_ready))
    by by_eval.
  assert (S1 : state (handle_of world_ready) = ESP_RMAKER_STATE_INIT_DONE)
    by by_eval.
  split; [exact E|]. split; [exact S1|].
  exact (stop_blocks_deinit sdk_plain world_ready (handle_of world_ready)
           [(env_ok, Call_report_node_details)] (Some 3%nat) E).
Defined.


Lemma report_failure_tears_down_witness :
  esp_rmaker_priv_data world_at_report = Some (handle_of world_at_report) /\
  state (handle_of world_at_report) = ESP_RMAKER_STATE_STARTED /\
  report_node_state_r env_report_fails <> ESP_OK /\
  let r := task_steps sdk_plain app_quiet [env_report_fails; env_ok]
             TASK_REPORT world_at_report in
  snd r = TASK_DELETED /\
  state_of (fst r) = Some ESP_RMAKER_STATE_INIT_DONE /\
  fst (esp_rmaker_node_deinit (Some 3%nat) (fst r)) = ESP_OK.
Proof.
  assert (E : esp_rmaker_priv_data world_at_report
              = Some (handle_of world_at_report)) by by_eval.
  assert (S1 : state (handle_of world_at_report) = ESP_RMAKER_STATE_STARTED)
    by by_eval.
  assert (F : report_node_state_r env_report_fails <> ESP_OK) by by_eval.
  destruct (report_failure_tears_down sdk_plain app_quiet env_report_fails
              env_ok world_at_report (handle_of world_at_report) (Some 3%nat)
              E (or_intror (or_introl F))) as (A & B & _ & D).
  split; [exact E|]. split; [exact S1|]. split; [exact F|].
  split; [exact A|].
  split; [unfold state_of; rewrite B; reflexivity | exact D].
Defined.

Lemma no_address_no_progress_witness :
  let ops := [(env_ok, Sys_api Call_stop);
              (env_ok, Sys_event WIFI_EVENT 4);
              (env_ok, Sys_event IP_EVENT 3);
              task0;
              (env_ok, Sys_api Call_start); (env_ok, Sys_task 1%nat)] in
  nth_error (tasks world_waiting) 0%nat = Some (TASK_WAIT_WIFI 0%nat) /\
  nth 0%nat (event_groups world_waiting) false = false /\
  esp_rmaker_task sdk_plain app_quiet env_ok (TASK_WAIT_WIFI 0%nat)
    (run sdk_plain app_quiet ops world_waiting)
  = (run sdk_plain app_quiet ops world_waiting, TASK_WAIT_WIFI 0%nat).
Proof.
  intros ops.
  assert (T : nth_error (tasks world_waiting) 0%nat = Some (TASK_WAIT_WIFI 0%nat))
    by by_eval.
  assert (B : nth 0%nat (event_groups world_waiting) false = false) by by_eval.
  assert (F : Forall (fun o => is_got_ip o = false) ops)
    by (repeat constructor).
  split; [exact T|]. split; [exact B|].
  exact (no_address_no_progress sdk_plain app_quiet ops 0%nat world_waiting
           env_ok F B).
Defined.

Lemma address_latched_witness :
  let ops := [(env_ok, Sys_api Call_stop);
              (env_ok, Sys_api Call_start); (env_ok, Sys_task 1%nat)] in
  let w' := run sdk_plain app_quiet ops
              (deliver_event IP_EVENT IP_EVENT_STA_GOT_IP world_waiting) in
  handler_registered world_waiting = true /\
  wifi_event_group world_waiting = Some 0%nat /\
  nth 0%nat (event_groups w') false = true /\
  esp_rmaker_task sdk_plain app_quiet env_ok (TASK_WAIT_WIFI 0%nat) w'
  = (w', TASK_TIME_SYNC).
Proof.
  intros ops w'.
  assert (H1 : handler_registered world_waiting = true) by by_eval.
  assert (H2 : wifi_event_group world_waiting = Some 0%nat) by by_eval.
  assert (H3 : (0 < length (event_groups world_waiting))%nat)
    by (vm_compute; lia).
  split; [exact H1|]. split; [exact H2|].
  exact (address_latched sdk_plain app_quiet ops 0%nat world_waiting env_ok
           H1 H2 H3).
Defined.

Lemma report_node_details_runs_reports_witness :
  let e := {| work_fn := WORK_report_node_config_and_state; priv_data := None |} in
  let w1 := snd (esp_rmaker_report_node_details world_in_loop) in
  let r := task_steps sdk_plain app_quiet [env_ok; env_report_fails]
             TASK_LOOP w1 in
  esp_rmaker_priv_data world_in_loop = Some (handle_of world_in_loop) /\
  fst (esp_rmaker_report_node_details world_in_loop) = ESP_OK /\
  queued w1 = [e] /\
  snd r = TASK_DELAY /\ queued (fst r) = [] /\
  state_of (fst r) = Some ESP_RMAKER_STATE_STARTED /\
  trace (fst r) =
    trace world_in_loop ++ [Invoke e; Report_node_config; Report_node_state].
Proof.
  intros e w1 r.
  assert (E : esp_rmaker_priv_data world_in_loop = Some (handle_of world_in_loop))
    by by_eval.
  assert (S1 : state (handle_of world_in_loop) <> ESP_RMAKER_STATE_STOP_REQUESTED)
    by by_eval.
  assert (Q : work_queue (handle_of world_in_loop)
              = Some {| uxLength := 8; uxItems := [] |}) by by_eval.
  assert (I0 : uxItems {| uxLength := 8; uxItems := [] |} = []) by by_eval.
  assert (L : (0 < uxLength {| uxLength := 8; uxItems := [] |})%nat)
    by (vm_compute; lia).
  destruct (report_node_details_runs_reports sdk_plain app_quiet env_ok
              env_report_fails world_in_loop (handle_of world_in_loop) _
              E S1 Q I0 L) as (A & B & C & D & F & G).
  split; [exact E|]. split; [exact A|]. split; [exact B|].
  split; [exact C|]. split; [exact D|]. split; [exact F|].
  exact G.
Defined.

Lemma slot_freed_by_receive_witness :
  queued world_queue_full = eight_entries /\
  esp_rmaker_queue_work (work_fn entry_c) (priv_data entry_c) world_queue_full
  = (ESP_FAIL, world_queue_full) /\
  let s := esp_rmaker_task sdk_plain app_quiet env_ok TASK_LOOP world_queue_full in
  snd s = TASK_WQ_INVOKE entry_a /\
  fst (esp_rmaker_queue_work (work_fn entry_c) (priv_data entry_c) (fst s))
  = ESP_OK /\
  queued (snd (esp_rmaker_queue_work (work_fn entry_c) (priv_data entry_c) (fst s)))
  = tl eight_entries ++ [entry_c].
Proof.
  assert (G : queued world_queue_full = eight_entries) by by_eval.
  assert (E : esp_rmaker_priv_data world_queue_full
              = Some (handle_of world_queue_full)) by by_eval.
  assert (S1 : state (handle_of world_queue_full)
               <> ESP_RMAKER_STATE_STOP_REQUESTED) by by_eval.
  assert (Q : work_queue (handle_of world_queue_full)
              = Some {| uxLength := 8; uxItems := eight_entries |}) by by_eval.
  assert (I0 : uxItems {| uxLength := 8; uxItems := eight_entries |}
               = entry_a :: tl eight_entries) by by_eval.
  assert (L : length (entry_a :: tl eight_entries)
              = uxLength {| uxLength := 8; uxItems := eight_entries |})
    by by_eval.
  split; [exact G|].
  exact (slot_freed_by_receive sdk_plain app_quiet env_ok world_queue_full
           (handle_of world_queue_full) _ entry_a entry_c (tl eight_entries)
           E S1 Q I0 L).
Defined.

Lemma claim_step_events_witness :
  esp_rmaker_priv_data world_claim_pending = Some (handle_of world_claim_pending) /\
  self_claim (handle_of world_claim_pending) = true /\
  nth_error (tasks world_claim_pending) 0%nat = Some TASK_SELF_CLAIM /\
  let r := esp_rmaker_task sdk_self_claim app_quiet env_ok TASK_SELF_CLAIM
             world_claim_pending in
  posted (trace (fst r)) =
    posted (trace world_claim_pending) ++
    [RMAKER_EVENT_CLAIM_STARTED; RMAKER_EVENT_CLAIM_SUCCESSFUL] /\
  esp_rmaker_priv_data (fst r) =
    Some (set_mqtt_config (Some 7%nat) (handle_of world_claim_pending)) /\
  snd r = TASK_MQTT_CONNECT.
Proof.
  assert (E : esp_rmaker_priv_data world_claim_pending
              = Some (handle_of world_claim_pending)) by by_eval.
  assert (C : CONFIG_ESP_RMAKER_SELF_CLAIM sdk_self_claim = true) by by_eval.
  assert (S1 : self_claim (handle_of world_claim_pending) = true) by by_eval.
  assert (T : nth_error (tasks world_claim_pending) 0%nat = Some TASK_SELF_CLAIM)
    by by_eval.
  assert (P : self_claim_perform_r env_ok = ESP_OK) by by_eval.
  assert (G : get_mqtt_config_r env_ok <> None) by by_eval.
  assert (M : mqtt_init_r env_ok = ESP_OK) by by_eval.
  destruct (claim_step_events sdk_self_claim app_quiet env_ok
              world_claim_pending _ E C S1) as (_ & A).
  destruct (A P) as (A1 & A2 & A3 & _).
  split; [exact E|]. split; [exact S1|]. split; [exact T|].
  split; [exact A1|]. split; [exact A2|].
  exact (proj2 A3 (conj G M)).
Defined.

Lemma reclaim_keeps_old_config_witness :
  esp_rmaker_priv_data world_claimed = Some (handle_of world_claimed) /\
  self_claim (handle_of world_claimed) = true /\
  mqtt_config (handle_of world_claimed) = Some 7%nat /\
  let w1 := fst (esp_rmaker_task sdk_self_claim app_quiet env_second_config
                   TASK_SELF_CLAIM world_claimed) in
  esp_rmaker_priv_data w1
  = Some (set_mqtt_config (Some 8%nat) (handle_of world_claimed)) /\
  live (Blk_mqtt_config 7%nat) (heap w1) = live (Blk_mqtt_config 7%nat) (heap world_claimed) /\
  live (Blk_mqtt_config 8%nat) (heap w1)
  = S (live (Blk_mqtt_config 8%nat) (heap world_claimed)).
Proof.
  assert (E : esp_rmaker_priv_data world_claimed = Some (handle_of world_claimed))
    by by_eval.
  assert (C : CONFIG_ESP_RMAKER_SELF_CLAIM sdk_self_claim = true) by by_eval.
  assert (S1 : self_claim (handle_of world_claimed) = true) by by_eval.
  assert (M : mqtt_config (handle_of world_claimed) = Some 7%nat) by by_eval.
  assert (P : self_claim_perform_r env_second_config = ESP_OK) by by_eval.
  assert (G : get_mqtt_config_r env_second_config = Some 8%nat) by by_eval.
  assert (N : 7%nat <> 8%nat) by discriminate.
  destruct (reclaim_keeps_old_config sdk_self_claim app_quiet env_second_config
              world_claimed _ 7%nat 8%nat E C S1 M P G N)
    as (A1 & _ & A3 & A4 & _).
  split; [exact E|]. split; [exact S1|]. split; [exact M|].
  split; [exact A1|]. split; [exact A3 | exact A4].
Defined.
